(** * Machine-Monitoring-System: the dashboard's normalisation and metrics pipeline

    A shallow embedding of [normalizeTimestamp], [normalizeData],
    [generateMockData], [calculateStatistics] and the per-machine aggregation of
    [showMachinesPage] from the dashboard script, of the checks of
    [addManualReading], of [getRefreshIntervalSeconds], [updateAlertsTable] and
    the risk gauge, and of the status chart and the line charts of [charts.js],
    together with the ECMAScript
    built-ins these functions call ([Number], [parseInt], [parseFloat], [isNaN],
    [Date.parse], [String.prototype.replace], [trim], [includes], [toFixed],
    [Math.floor], [Math.round], [Math.max], [Math.min], truthiness, [||], [??]
    and [==]).

    Conventions of the model.
    - A JavaScript number is [NaN], one of the two infinities, or an exact
      rational: binary64 rounding, overflow, underflow and the sign of zero are
      not represented, except in [parseInt], which reads a digit string beyond
      the binary64 range as an infinity, and in the delay of the polling
      timer, a product that can go beyond that range.  Finite results are kept
      in lowest terms, so that equal numbers are equal terms.
    - A string is a sequence of bytes (UTF-8 for text outside ASCII).
    - The values found in a row are the JSON scalars and [undefined]; rows are
      flat objects, that is finite maps from property names to values.
    - A call of a method a value does not have ends the function with a
      [TypeError]; this is the only exception the modelled code can raise. *)

From Stdlib Require Import ZArith QArith Qround Qabs Lia Lqa List Sorted.
From Stdlib Require Import Ascii String DecimalString.
From Stdlib Require Import Decimal DecimalFacts DecimalPos DecimalN Qpower Qreduction Zdivisibility.
From stdpp Require Import base gmap strings.

Open Scope string_scope.

(** ** Numbers *)

Module Num.

Inductive number : Type :=
| NaN
| PosInf
| NegInf
| Fin (q : Q).

Definition fin (q : Q) : number := Fin (Qred q).
Definition of_Z (z : Z) : number := Fin (inject_Z z).
Definition of_nat (n : nat) : number := of_Z (Z.of_nat n).

Definition Qis_neg (q : Q) : bool := (Qnum q <? 0)%Z.
Definition Qis_zero (q : Q) : bool := (Qnum q =? 0)%Z.
Definition Qeqb (a b : Q) : bool := (Qnum a * Zpos (Qden b) =? Qnum b * Zpos (Qden a))%Z.
Definition Qltb (a b : Q) : bool := (Qnum a * Zpos (Qden b) <? Qnum b * Zpos (Qden a))%Z.

Definition is_nan (x : number) : bool :=
  match x with NaN => true | _ => false end.

Definition is_finite (x : number) : bool :=
  match x with Fin _ => true | _ => false end.

(** [x === y] on numbers, which is also [x == y]: [NaN] equals nothing. *)
Definition eqb (x y : number) : bool :=
  match x, y with
  | PosInf, PosInf | NegInf, NegInf => true
  | Fin a, Fin b => Qeqb a b
  | _, _ => false
  end.

(** [x < y]; false as soon as one side is [NaN]. *)
Definition ltb (x y : number) : bool :=
  match x, y with
  | NaN, _ | _, NaN => false
  | _, NegInf | PosInf, _ => false
  | NegInf, _ | _, PosInf => true
  | Fin a, Fin b => Qltb a b
  end.

Definition gtb (x y : number) : bool := ltb y x.

Definition neg (x : number) : number :=
  match x with
  | NaN => NaN
  | PosInf => NegInf
  | NegInf => PosInf
  | Fin q => fin (- q)
  end.

Definition add (x y : number) : number :=
  match x, y with
  | NaN, _ | _, NaN => NaN
  | PosInf, NegInf | NegInf, PosInf => NaN
  | PosInf, _ | _, PosInf => PosInf
  | NegInf, _ | _, NegInf => NegInf
  | Fin a, Fin b => fin (a + b)
  end.

Definition sub (x y : number) : number := add x (neg y).

Definition inf_of_sign (negative : bool) : number :=
  if negative then NegInf else PosInf.

(** The least magnitude that binary64 rounds to an infinity: the largest
    finite number plus half the distance to the next power of two. *)
Definition binary64_overflow : Z := (2 ^ 1024 - 2 ^ 970)%Z.

(** What binary64 makes of a finite number beyond its range: an infinity. *)
Definition overflow (x : number) : number :=
  match x with
  | Fin q =>
      if Qltb (Qabs q) (inject_Z binary64_overflow) then x else inf_of_sign (Qis_neg q)
  | _ => x
  end.

(** The sign of a number that is not [NaN]; zero counts as positive. *)
Definition is_neg (x : number) : bool :=
  match x with
  | NegInf => true
  | Fin q => Qis_neg q
  | _ => false
  end.

Definition is_zero (x : number) : bool :=
  match x with Fin q => Qis_zero q | _ => false end.

Definition mul (x y : number) : number :=
  match x, y with
  | NaN, _ | _, NaN => NaN
  | Fin a, Fin b => fin (a * b)
  | _, _ =>
      if is_zero x || is_zero y then NaN
      else inf_of_sign (xorb (is_neg x) (is_neg y))
  end.

Definition div (x y : number) : number :=
  match x, y with
  | NaN, _ | _, NaN => NaN
  | Fin a, Fin b =>
      if Qis_zero b then
        if Qis_zero a then NaN else inf_of_sign (Qis_neg a)
      else fin (a / b)
  | Fin _, _ => Fin 0
  | _, Fin _ => inf_of_sign (xorb (is_neg x) (is_neg y))
  | _, _ => NaN
  end.

(** [Math.abs], [Math.floor], [Math.round] (halves go up), and the binary
    [Math.max] and [Math.min]. *)
Definition abs (x : number) : number :=
  match x with
  | NaN => NaN
  | PosInf | NegInf => PosInf
  | Fin q => fin (Qabs q)
  end.

Definition floor (x : number) : number :=
  match x with
  | Fin q => of_Z (Qfloor q)
  | _ => x
  end.

Definition round (x : number) : number :=
  match x with
  | Fin q => of_Z (Qfloor (q + (1 # 2)))
  | _ => x
  end.

Definition max (x y : number) : number :=
  match x, y with
  | NaN, _ | _, NaN => NaN
  | _, _ => if ltb x y then y else x
  end.

Definition min (x y : number) : number :=
  match x, y with
  | NaN, _ | _, NaN => NaN
  | _, _ => if ltb y x then y else x
  end.

(** The order on numbers used to state bounds: [le x y] holds when both are
    numbers (not [NaN]) and [x] is at most [y]. *)
Definition le (x y : number) : Prop :=
  match x, y with
  | NaN, _ | _, NaN => False
  | NegInf, _ | _, PosInf => True
  | _, NegInf | PosInf, _ => False
  | Fin a, Fin b => (a <= b)%Q
  end.

End Num.

Export Num.

Declare Scope num_scope.
Delimit Scope num_scope with num.
Bind Scope num_scope with number.
Notation "x + y" := (Num.add x y) : num_scope.
Notation "x - y" := (Num.sub x y) : num_scope.
Notation "x * y" := (Num.mul x y) : num_scope.
Notation "x / y" := (Num.div x y) : num_scope.

(** ** Strings *)

Module Str.

Definition bytes (l : list nat) : string :=
  string_of_list_ascii (List.map ascii_of_nat l).

Definition rev (s : string) : string :=
  string_of_list_ascii (List.rev (list_ascii_of_string s)).

Fixpoint drop (n : nat) (s : string) : string :=
  match n, s with
  | O, _ => s
  | S n', String _ s' => drop n' s'
  | S _, EmptyString => EmptyString
  end.

Fixpoint take (n : nat) (s : string) : string :=
  match n, s with
  | S n', String c s' => String c (take n' s')
  | _, _ => EmptyString
  end.

Fixpoint repeat (c : ascii) (n : nat) : string :=
  match n with
  | O => EmptyString
  | S n' => String c (repeat c n')
  end.

Definition strip_prefix (p s : string) : option string :=
  if String.prefix p s then Some (drop (String.length p) s) else None.

(** [s.includes(needle)] *)
Fixpoint includes (needle s : string) : bool :=
  String.prefix needle s ||
  match s with
  | EmptyString => false
  | String _ s' => includes needle s'
  end.

(** [s.replace(pat, rep)] for a string pattern and a replacement without
    [$] patterns: only the first occurrence is replaced. *)
Fixpoint replace (pat rep s : string) : string :=
  if String.prefix pat s then rep ++ drop (String.length pat) s
  else match s with
       | EmptyString => EmptyString
       | String c s' => String c (replace pat rep s')
       end.

(** The code points of WhiteSpace and LineTerminator, as UTF-8. *)
Definition white_space : list string :=
  List.map bytes
    [ [9]; [10]; [11]; [12]; [13]; [32]; [194; 160]; [225; 154; 128];
      [226; 128; 128]; [226; 128; 129]; [226; 128; 130]; [226; 128; 131];
      [226; 128; 132]; [226; 128; 133]; [226; 128; 134]; [226; 128; 135];
      [226; 128; 136]; [226; 128; 137]; [226; 128; 138]; [226; 128; 168];
      [226; 128; 169]; [226; 128; 175]; [226; 129; 159]; [227; 128; 128];
      [239; 187; 191] ]%nat.

Fixpoint strip_any (ps : list string) (s : string) : option string :=
  match ps with
  | [] => None
  | p :: ps' =>
      match strip_prefix p s with
      | Some r => Some r
      | None => strip_any ps' s
      end
  end.

Fixpoint strip_all (ps : list string) (fuel : nat) (s : string) : string :=
  match fuel with
  | O => s
  | S fuel' =>
      match strip_any ps s with
      | Some r => strip_all ps fuel' r
      | None => s
      end
  end.

Definition trimStart (s : string) : string :=
  strip_all white_space (String.length s) s.

Definition trimEnd (s : string) : string :=
  rev (strip_all (List.map rev white_space) (String.length s) (rev s)).

Definition trim (s : string) : string := trimEnd (trimStart s).

Definition is_empty (s : string) : bool :=
  match s with EmptyString => true | _ => false end.

End Str.

(** ** Reading numbers from strings *)

Module Lex.

Local Open Scope Z_scope.

Definition code (c : ascii) : Z := Z.of_N (N_of_ascii c).

Definition digit (radix : Z) (c : ascii) : option Z :=
  let n := code c in
  let v := if (48 <=? n) && (n <=? 57) then n - 48
           else if (97 <=? n) && (n <=? 122) then n - 87
           else if (65 <=? n) && (n <=? 90) then n - 55
           else radix in
  if v <? radix then Some v else None.

(** The longest run of digits of the radix at the head of [s], and what
    follows it. *)
Fixpoint digits (radix : Z) (s : string) : list Z * string :=
  match s with
  | EmptyString => ([], s)
  | String c s' =>
      match digit radix c with
      | Some d => let '(ds, r) := digits radix s' in (d :: ds, r)
      | None => ([], s)
      end
  end.

Definition value (radix : Z) (ds : list Z) : Z :=
  fold_left (fun acc d => radix * acc + d) ds 0.

Definition is_nil {A} (l : list A) : bool :=
  match l with [] => true | _ => false end.

(** ExponentPart, when one is there: [e] or [E], an optional sign, digits. *)
Definition exponent (s : string) : Z * string :=
  match s with
  | String c r =>
      if (code c =? 101) || (code c =? 69) then
        let '(negative, r1) :=
          match r with
          | String "+" r' => (false, r')
          | String "-" r' => (true, r')
          | _ => (false, r)
          end in
        let '(ds, r2) := digits 10 r1 in
        if is_nil ds then (0, s)
        else ((if negative then - value 10 ds else value 10 ds), r2)
      else (0, s)
  | EmptyString => (0, s)
  end.

(** The longest prefix that is a StrUnsignedDecimalLiteral other than
    [Infinity], with its value. *)
Definition unsigned_decimal (s : string) : option (Q * string) :=
  let '(ip, r1) := digits 10 s in
  let '(fp, r2) :=
    match r1 with
    | String "." r => digits 10 r
    | _ => ([], r1)
    end in
  if is_nil ip && is_nil fp then None
  else
    let '(e, r3) := exponent r2 in
    Some (inject_Z (value 10 (ip ++ fp)) * Qpower 10 (e - Z.of_nat (List.length fp)), r3)%Q.

(** The longest prefix that is a StrDecimalLiteral. *)
Definition decimal_literal (s : string) : option (number * string) :=
  let '(negative, s1) :=
    match s with
    | String "+" r => (false, r)
    | String "-" r => (true, r)
    | _ => (false, s)
    end in
  match Str.strip_prefix "Infinity" s1 with
  | Some r => Some (inf_of_sign negative, r)
  | None =>
      match unsigned_decimal s1 with
      | Some (q, r) => Some (fin (if negative then - q else q), r)
      | None => None
      end
  end.

(** NonDecimalIntegerLiteral: [0x], [0o] or [0b] in either case, then digits
    to the end of the string. *)
Definition non_decimal_literal (s : string) : option number :=
  match s with
  | String "0" (String c r) =>
      let radix :=
        if (code c =? 120) || (code c =? 88) then 16
        else if (code c =? 111) || (code c =? 79) then 8
        else if (code c =? 98) || (code c =? 66) then 2
        else 0 in
      if radix =? 0 then None
      else
        let '(ds, rest) := digits radix r in
        if is_nil ds || negb (Str.is_empty rest) then None
        else Some (of_Z (value radix ds))
  | _ => None
  end.

(** StringToNumber *)
Definition StringToNumber (s : string) : number :=
  let t := Str.trim s in
  if Str.is_empty t then of_Z 0
  else
    match non_decimal_literal t with
    | Some n => n
    | None =>
        match decimal_literal t with
        | Some (n, EmptyString) => n
        | _ => NaN
        end
    end.

(** [parseFloat] on a string *)
Definition parseFloat (s : string) : number :=
  match decimal_literal (Str.trimStart s) with
  | Some (n, _) => n
  | None => NaN
  end.

(** [parseInt] on a string, no radix given.  The digits are read as a whole
    number, which is an infinity when it is beyond the binary64 range. *)
Definition parseInt (s : string) : number :=
  let s0 := Str.trimStart s in
  let '(negative, s1) :=
    match s0 with
    | String "+" r => (false, r)
    | String "-" r => (true, r)
    | _ => (false, s0)
    end in
  let '(radix, s2) :=
    match s1 with
    | String "0" (String c r) =>
        if (code c =? 120) || (code c =? 88) then (16, r) else (10, s1)
    | _ => (10, s1)
    end in
  let '(ds, _) := digits radix s2 in
  if is_nil ds then NaN
  else
    let n := value radix ds in
    if binary64_overflow <=? n then inf_of_sign negative
    else of_Z (if negative then - n else n).

End Lex.

(** ** Writing numbers as strings *)

Module Show.

Local Open Scope Z_scope.

Definition of_N (n : N) : string := NilZero.string_of_uint (N.to_uint n).

Definition of_Z_abs (z : Z) : string := of_N (Z.abs_N z).

Fixpoint strip_zeros (fuel : nat) (s e : Z) : Z * Z :=
  match fuel with
  | O => (s, e)
  | S fuel' =>
      if (s mod 10 =? 0) && negb (s =? 0) then strip_zeros fuel' (s / 10) (e + 1)
      else (s, e)
  end.

(** For a positive rational [a / b], digits [s] and an exponent [e] with
    [s] not a multiple of ten and [a / b = s * 10 ^ e].  That is possible when
    [b] has no prime factor but 2 and 5, which is the case of every number
    read from a decimal literal; for the other rationals, which a binary64
    never is, [s] is the value rounded to seventeen significant digits. *)
Definition digits_exponent (a : Z) (b : positive) : Z * Z :=
  let m := Z.of_nat (Pos.size_nat b) in
  let scaled := a * 10 ^ m in
  let '(s0, e0) :=
    if scaled mod Zpos b =? 0 then (scaled / Zpos b, - m)
    else
      let n := Z.of_nat (String.length (of_Z_abs (scaled / Zpos b))) - m in
      let p := 17 - n in
      let num := if 0 <=? p then a * 10 ^ p else a in
      let den := if 0 <=? p then Zpos b else Zpos b * 10 ^ (- p) in
      ((2 * num + den) / (2 * den), - p) in
  strip_zeros (Z.to_nat (Z.log2_up s0) + 1) s0 e0.

(** Number::toString for a positive finite number given by its digits [s]
    and exponent [e]. *)
Definition layout (s e : Z) : string :=
  let ds := of_Z_abs s in
  let k := Z.of_nat (String.length ds) in
  let n := k + e in
  if (k <=? n) && (n <=? 21) then
    ds ++ Str.repeat "0" (Z.to_nat (n - k))
  else if (0 <? n) && (n <=? 21) then
    Str.take (Z.to_nat n) ds ++ "." ++ Str.drop (Z.to_nat n) ds
  else if (-6 <? n) && (n <=? 0) then
    "0." ++ Str.repeat "0" (Z.to_nat (- n)) ++ ds
  else
    let ex := (if n - 1 <? 0 then "-" else "+") ++ of_Z_abs (n - 1) in
    if k =? 1 then ds ++ "e" ++ ex
    else Str.take 1 ds ++ "." ++ Str.drop 1 ds ++ "e" ++ ex.

(** Number::toString, radix 10 *)
Definition number (x : number) : string :=
  match x with
  | NaN => "NaN"
  | PosInf => "Infinity"
  | NegInf => "-Infinity"
  | Fin q =>
      match Qnum q with
      | Z0 => "0"
      | Zpos a => let '(s, e) := digits_exponent (Zpos a) (Qden q) in layout s e
      | Zneg a => "-" ++ (let '(s, e) := digits_exponent (Zpos a) (Qden q) in layout s e)
      end
  end.

(** [x.toFixed(f)]: the closest decimal with [f] fraction digits, the larger
    one on a tie; numbers of magnitude [1e21] and more, and those that are not
    finite, are written as [toString] writes them. *)
Definition toFixed (x : Num.number) (f : nat) : string :=
  match x with
  | Fin q =>
      let a := Z.abs (Qnum q) in
      let b := Zpos (Qden q) in
      if 10 ^ 21 * b <=? a then number x
      else
        let n := (2 * a * 10 ^ Z.of_nat f + b) / (2 * b) in
        let ds := if n =? 0 then "0" else of_Z_abs n in
        let padded := Str.repeat "0" (S f - String.length ds) ++ ds in
        let k := (String.length padded - f)%nat in
        (if Qnum q <? 0 then "-" else "") ++
        Str.take k padded ++
        (match f with O => "" | _ => "." ++ Str.drop k padded end)
  | _ => number x
  end.

End Show.

(** ** Values and the conversions between them *)

Inductive value : Type :=
| VUndefined
| VNull
| VBool (b : bool)
| VNum (n : number)
| VStr (s : string).

Definition ToString (v : value) : string :=
  match v with
  | VUndefined => "undefined"
  | VNull => "null"
  | VBool true => "true"
  | VBool false => "false"
  | VNum n => Show.number n
  | VStr s => s
  end.

Definition ToNumber (v : value) : number :=
  match v with
  | VUndefined => NaN
  | VNull => of_Z 0
  | VBool true => of_Z 1
  | VBool false => of_Z 0
  | VNum n => n
  | VStr s => Lex.StringToNumber s
  end.

Definition num_truthy (n : number) : bool := negb (is_nan n || is_zero n).

Definition ToBoolean (v : value) : bool :=
  match v with
  | VUndefined | VNull => false
  | VBool b => b
  | VNum n => num_truthy n
  | VStr s => negb (Str.is_empty s)
  end.

(** [a || b] and [a ?? b] *)
Definition or_else (a b : value) : value := if ToBoolean a then a else b.

Definition is_nullish (v : value) : bool :=
  match v with VUndefined | VNull => true | _ => false end.

Definition nullish_else (a b : value) : value := if is_nullish a then b else a.

Infix "|||" := or_else (at level 50, left associativity).
Infix "???" := nullish_else (at level 50, left associativity).

(** [n || m] where both sides already are numbers *)
Definition num_or_else (n m : number) : number := if num_truthy n then n else m.

(** The global [isNaN], [Number.isNaN], [parseFloat], [parseInt], [Number],
    and [typeof v === 'number']. *)
Definition isNaN (v : value) : bool := is_nan (ToNumber v).

Definition Number_isNaN (v : value) : bool :=
  match v with VNum NaN => true | _ => false end.

Definition parseFloat (v : value) : number := Lex.parseFloat (ToString v).

Definition parseInt (v : value) : number := Lex.parseInt (ToString v).

Definition is_number (v : value) : bool :=
  match v with VNum _ => true | _ => false end.

(** [a === b] and [a == b] *)
Definition strict_eq (a b : value) : bool :=
  match a, b with
  | VUndefined, VUndefined | VNull, VNull => true
  | VBool x, VBool y => Bool.eqb x y
  | VNum x, VNum y => Num.eqb x y
  | VStr x, VStr y => String.eqb x y
  | _, _ => false
  end.

Definition loose_eq (a b : value) : bool :=
  match a, b with
  | (VUndefined | VNull), (VUndefined | VNull) => true
  | (VUndefined | VNull), _ | _, (VUndefined | VNull) => false
  | VStr x, VStr y => String.eqb x y
  | _, _ => Num.eqb (ToNumber a) (ToNumber b)
  end.

(** ** [Date.parse] *)

Module Date.

Local Open Scope Z_scope.

Definition fixed_digits (n : nat) (s : string) : option (Z * string) :=
  let '(ds, _) := Lex.digits 10 (Str.take n s) in
  if (List.length ds =? n)%nat then Some (Lex.value 10 ds, Str.drop n s) else None.

Definition InLeapYear (y : Z) : bool :=
  ((y mod 4 =? 0) && negb (y mod 100 =? 0)) || (y mod 400 =? 0).

Definition DayFromYear (y : Z) : Z :=
  365 * (y - 1970) + (y - 1969) / 4 - (y - 1901) / 100 + (y - 1601) / 400.

Definition month_lengths (y : Z) : list Z :=
  [31; if InLeapYear y then 29 else 28; 31; 30; 31; 30; 31; 31; 30; 31; 30; 31].

Definition DaysInMonth (y m : Z) : Z :=
  List.nth (Z.to_nat (m - 1)) (month_lengths y) 0.

Definition MakeDay (y m d : Z) : Z :=
  DayFromYear y + fold_right Z.add 0 (firstn (Z.to_nat (m - 1)) (month_lengths y)) + (d - 1).

Definition msPerDay : Z := 86400000.

(** The year: four digits, or a sign and six digits (but not [-000000]). *)
Definition year (s : string) : option (Z * string) :=
  match s with
  | String "+" r => fixed_digits 6 r
  | String "-" r =>
      match fixed_digits 6 r with
      | Some (y, r') => if y =? 0 then None else Some (- y, r')
      | None => None
      end
  | _ => fixed_digits 4 s
  end.

(** [-MM] and then [-DD], each only when it is there. *)
Definition month_day (s : string) : option (Z * Z * string) :=
  match s with
  | String "-" r =>
      match fixed_digits 2 r with
      | Some (m, String "-" r') =>
          match fixed_digits 2 r' with
          | Some (d, r'') => Some (m, d, r'')
          | None => None
          end
      | Some (m, r') => Some (m, 1, r')
      | None => None
      end
  | _ => Some (1, 1, s)
  end.

(** [HH:mm], [HH:mm:ss] or [HH:mm:ss.sss], as milliseconds. *)
Definition time_of_day (s : string) : option (Z * string) :=
  match fixed_digits 2 s with
  | Some (h, String ":" r) =>
      match fixed_digits 2 r with
      | Some (mi, r1) =>
          if (h <=? 23) && (mi <=? 59) then
            match r1 with
            | String ":" r2 =>
                match fixed_digits 2 r2 with
                | Some (sec, r3) =>
                    if sec <=? 59 then
                      match r3 with
                      | String "." r4 =>
                          match fixed_digits 3 r4 with
                          | Some (ms, r5) =>
                              Some (((h * 60 + mi) * 60 + sec) * 1000 + ms, r5)
                          | None => None
                          end
                      | _ => Some (((h * 60 + mi) * 60 + sec) * 1000, r3)
                      end
                    else None
                | None => None
                end
            | _ => Some ((h * 60 + mi) * 60000, r1)
            end
          else None
      | None => None
      end
  | _ => None
  end.

(** The UTC offset that ends a date-time: [Z], or a sign and [HH:mm]; in
    milliseconds. *)
Definition utc_offset (s : string) : option Z :=
  match s with
  | String "Z" EmptyString => Some 0
  | String c r =>
      match fixed_digits 2 r with
      | Some (h, String ":" r1) =>
          match fixed_digits 2 r1 with
          | Some (mi, EmptyString) =>
              if (h <=? 23) && (mi <=? 59) then
                if Lex.code c =? 43 then Some ((h * 60 + mi) * 60000)
                else if Lex.code c =? 45 then Some (- ((h * 60 + mi) * 60000))
                else None
              else None
          | _ => None
          end
      | _ => None
      end
  | EmptyString => None
  end.

(** The strings of the Date Time String Format whose meaning does not depend
    on the host: a date alone (which is UTC), or a date and a time with an
    explicit UTC offset, every element within its bounds. *)
Definition interchange (s : string) : option Z :=
  match year s with
  | Some (y, r) =>
      match month_day r with
      | Some (m, d, r1) =>
          if (1 <=? m) && (m <=? 12) && (1 <=? d) && (d <=? DaysInMonth y m) then
            match r1 with
            | EmptyString => Some (MakeDay y m d * msPerDay)
            | String "T" r2 =>
                match time_of_day r2 with
                | Some (t, r3) =>
                    match utc_offset r3 with
                    | Some off => Some (MakeDay y m d * msPerDay + t - off)
                    | None => None
                    end
                | None => None
                end
            | _ => None
            end
          else None
      | None => None
      end
  | None => None
  end.

Definition TimeClip (t : Z) : number :=
  if Z.abs t <=? 8640000000000000 then of_Z t else NaN.

Section Host.

(** What the host makes of a string outside that format (date-times without
    an offset, which are local time, and every format of the host's own):
    a time value, or nothing for [NaN]. *)
Variable host_date : string -> option Z.

Definition parse (v : value) : number :=
  let s := ToString v in
  match interchange s with
  | Some t => TimeClip t
  | None =>
      match host_date s with
      | Some t => of_Z t
      | None => NaN
      end
  end.

End Host.

(** A host that accepts nothing beyond the interchange format. *)
Definition strict_host : string -> option Z := fun _ => None.

End Date.

(** ** Rows *)

(** A row is a flat object; reading a property it does not have gives
    [undefined]. *)
Abbreviation row := (gmap string value).

Definition prop (r : row) (k : string) : value := default VUndefined (r !! k).

(** The result of a function that may end with a [TypeError]. *)
Inductive completion (A : Type) : Type :=
| Normal (a : A)
| TypeError.

Arguments Normal {A} a.
Arguments TypeError {A}.

#[global] Instance completion_ret : MRet completion := fun A a => Normal a.

#[global] Instance completion_bind : MBind completion := fun A B k c =>
  match c with
  | Normal a => k a
  | TypeError => TypeError
  end.

(** [l.filter(p)] for a callback that may throw: elements are visited in
    order and the first exception ends the call. *)
Fixpoint filter_throwing {A} (p : A -> completion bool) (l : list A) : completion (list A) :=
  match l with
  | [] => Normal []
  | a :: l' =>
      keep ← p a;
      rest ← filter_throwing p l';
      Normal (if keep : bool then a :: rest else rest)
  end.

(** [SameValueZero], the equality of [Set] and [Map] keys: strict equality,
    except that [NaN] is the same as itself. *)
Definition same_value_zero (a b : value) : bool :=
  match a, b with
  | VNum NaN, VNum NaN => true
  | _, _ => strict_eq a b
  end.

Fixpoint mem_svz (v : value) (l : list value) : bool :=
  match l with
  | [] => false
  | x :: l' => same_value_zero x v || mem_svz v l'
  end.

(** The elements of [new Set(l)], in insertion order. *)
Definition Set_of (l : list value) : list value :=
  fold_left (fun acc v => if mem_svz v acc then acc else (acc ++ [v])%list) l [].

(** ** The dashboard state and the per-machine record *)

Record DashboardData : Type := {
  machines : number;
  readings : number;
  critical : number;
  warnings : number;
  normal : number;
  health : number;
  alerts : list row;
  sensorData : list row;
  insights : option row
}.

Definition set_machines (v : number) (d : DashboardData) : DashboardData :=
  {| machines := v; readings := readings d; critical := critical d;
     warnings := warnings d; normal := normal d; health := health d;
     alerts := alerts d; sensorData := sensorData d; insights := insights d |}.

Definition set_readings (v : number) (d : DashboardData) : DashboardData :=
  {| machines := machines d; readings := v; critical := critical d;
     warnings := warnings d; normal := normal d; health := health d;
     alerts := alerts d; sensorData := sensorData d; insights := insights d |}.

Definition set_critical (v : number) (d : DashboardData) : DashboardData :=
  {| machines := machines d; readings := readings d; critical := v;
     warnings := warnings d; normal := normal d; health := health d;
     alerts := alerts d; sensorData := sensorData d; insights := insights d |}.

Definition set_warnings (v : number) (d : DashboardData) : DashboardData :=
  {| machines := machines d; readings := readings d; critical := critical d;
     warnings := v; normal := normal d; health := health d;
     alerts := alerts d; sensorData := sensorData d; insights := insights d |}.

Definition set_normal (v : number) (d : DashboardData) : DashboardData :=
  {| machines := machines d; readings := readings d; critical := critical d;
     warnings := warnings d; normal := v; health := health d;
     alerts := alerts d; sensorData := sensorData d; insights := insights d |}.

Definition set_health (v : number) (d : DashboardData) : DashboardData :=
  {| machines := machines d; readings := readings d; critical := critical d;
     warnings := warnings d; normal := normal d; health := v;
     alerts := alerts d; sensorData := sensorData d; insights := insights d |}.

Definition set_alerts (v : list row) (d : DashboardData) : DashboardData :=
  {| machines := machines d; readings := readings d; critical := critical d;
     warnings := warnings d; normal := normal d; health := health d;
     alerts := v; sensorData := sensorData d; insights := insights d |}.

Definition set_sensorData (v : list row) (d : DashboardData) : DashboardData :=
  {| machines := machines d; readings := readings d; critical := critical d;
     warnings := warnings d; normal := normal d; health := health d;
     alerts := alerts d; sensorData := v; insights := insights d |}.

(** The dashboard state the script starts with. *)
Definition initial_dashboard : DashboardData :=
  {| machines := of_Z 0; readings := of_Z 0; critical := of_Z 0;
     warnings := of_Z 0; normal := of_Z 0; health := of_Z 0;
     alerts := []; sensorData := []; insights := None |}.

Module Machine.

Record t : Type := {
  id : value;
  readings : number;
  avgTemp : number;
  avgVibration : number;
  lastTemp : value;
  lastVibration : value;
  alerts : number;
  status : string;
  healthScore : number;
  riskScore : number
}.

End Machine.

(** A [Map] is the list of its entries in insertion order; keys are compared
    with [SameValueZero]. *)
Fixpoint Map_has {A} (k : value) (m : list (value * A)) : bool :=
  match m with
  | [] => false
  | (k', _) :: m' => same_value_zero k' k || Map_has k m'
  end.

Fixpoint Map_set {A} (k : value) (a : A) (m : list (value * A)) : list (value * A) :=
  match m with
  | [] => [(k, a)]
  | (k', a') :: m' =>
      if same_value_zero k' k then (k', a) :: m' else (k', a') :: Map_set k a m'
  end.

(** [f] applied in place to the object [m.get(k)], when there is one. *)
Fixpoint Map_update {A} (k : value) (f : A -> A) (m : list (value * A)) : list (value * A) :=
  match m with
  | [] => []
  | (k', a') :: m' =>
      if same_value_zero k' k then (k', f a') :: m' else (k', a') :: Map_update k f m'
  end.

(** * The program *)

Section Dashboard.

Variable host_date : string -> option Z.

(** ** [normalizeTimestamp] *)

Definition normalizeTimestamp (v : value) : number :=
  if is_nullish v then of_Z 0
  else if is_number v && negb (Number_isNaN v) then Num.floor (ToNumber v)
  else
    let numeric := ToNumber v in
    if negb (is_nan numeric) then Num.floor numeric
    else
      let parsed := Date.parse host_date v in
      if negb (is_nan parsed) then Num.floor (parsed / of_Z 1000)
      else of_Z 0.

(** ** [normalizeData] *)

Definition normalize_alert (r : row) : row :=
  let tempStr :=
    Str.trim (Str.replace "K" "" (ToString (prop r "Temp" ||| prop r "temperature" ||| VStr ""))) in
  let temp := if negb (Str.is_empty tempStr) then VNum (Lex.parseFloat tempStr) else VNull in
  let vib := prop r "Vibration" ||| prop r "vibration" in
  {[ "machine_id" := prop r "Machine" ||| prop r "machine_id" ||| VNull;
     "timestamp" := prop r "Time" ||| prop r "timestamp" ||| VNull;
     "temperature" :=
       if negb (strict_eq temp VNull) && negb (isNaN temp) then temp else VNull;
     "vibration" :=
       if negb (strict_eq vib VNull) && negb (strict_eq vib VUndefined) && negb (isNaN vib)
       then VNum (parseFloat vib) else VNull;
     "Alert" := prop r "Alert" ||| prop r "alert" ||| VStr "Unknown";
     "alert_type" := prop r "Alert" ||| prop r "alert_type" ||| VStr "Unknown" ]}.

Definition normalize_sensor (r : row) : row :=
  {[ "machine_id" := VNum (num_or_else (parseInt (prop r "machine_id")) (of_Z 0));
     "temperature" := VNum (num_or_else (parseFloat (prop r "temperature")) (of_Z 0));
     "vibration" := VNum (num_or_else (parseFloat (prop r "vibration")) (of_Z 0));
     "timestamp" := VNum (normalizeTimestamp (prop r "timestamp")) ]}.

Definition normalizeData (data : list row) (filepath : string) : list row :=
  match data with
  | [] => data
  | _ =>
      if Str.includes "alerts" filepath then List.map normalize_alert data
      else List.map normalize_sensor data
  end.

(** ** [generateMockData] *)

(** [Math.random] is read from a source of numbers: [random k] is what the
    [k]-th call returns.  A computation that draws from it carries the number
    of calls made so far. *)
Variable random : nat -> Q.

Definition Rand (A : Type) : Type := nat -> A * nat.

Definition Math_random : Rand number := fun k => (fin (random k), S k).

Definition mock_sensor_row (i : nat) : Rand row := fun k =>
  let '(r1, k) := Math_random k in
  let '(r2, k) := Math_random k in
  let '(r3, k) := Math_random k in
  ({[ "machine_id" := VNum (Num.floor (r1 * of_Z 100) + of_Z 1);
      "temperature" := VNum (of_Z 295 + r2 * of_Z 30);
      "vibration" := VNum (of_Z 1200 + r3 * of_Z 1000);
      "timestamp" := VNum (of_nat i) ]}, k).

Definition mock_alert_row (i : nat) : Rand row := fun k =>
  let '(r1, k) := Math_random k in
  let temp := (of_Z 295 + r1 * of_Z 30)%num in
  let '(r2, k) := Math_random k in
  let vib := (of_Z 1200 + r2 * of_Z 1000)%num in
  let '(alert, k) :=
    if Num.gtb temp (of_Z 320) then ("🔥 CRITICAL: High Temperature", k)
    else if Num.gtb vib (of_Z 2000) then ("🔥 CRITICAL: Excessive Vibration", k)
    else
      let '(r3, k) := Math_random k in
      if Num.gtb r3 (Fin (9 # 10)) then ("⚠️ WARNING: Sudden Temperature Spike", k)
      else ("✅ Normal Operation", k) in
  let '(r4, k) := Math_random k in
  let '(r5, k) := Math_random k in
  ({[ "Machine" := VNum (Num.floor (r4 * of_Z 100) + of_Z 1);
      "Time" := VNum (of_nat i);
      "Temp" := VStr (Show.toFixed temp 1 ++ "K");
      "Vibration" := VStr (Show.toFixed vib 0);
      "Avg_Temp" := VStr (Show.toFixed (temp - of_Z 2) 1 ++ "K");
      "Temp_Dev" := VStr (Show.number (r5 * of_Z 10) ++ "K");
      "Alert" := VStr alert ]}, k).

(** [for (let i = first; ...; i++) data.push(body(i))], [count] times *)
Fixpoint push_rows (body : nat -> Rand row) (count first : nat) (data : list row)
  : Rand (list row) := fun k =>
  match count with
  | O => (data, k)
  | S count' =>
      let '(r, k) := body first k in
      push_rows body count' (S first) (data ++ [r])%list k
  end.

Definition generateMockData (filepath : string) : Rand (list row) :=
  if Str.includes "sensor_data" filepath then push_rows mock_sensor_row 1000 1 []
  else if Str.includes "alerts" filepath then push_rows mock_alert_row 1000 1 []
  else fun k => ([], k).

(** ** [loadCSV] *)

(** What the request for a dataset came back with: a JSON array of rows, the
    JSON value [null], any other JSON value, or no usable answer at all (a
    status outside 2xx, a body that is not JSON, a network error, the
    timeout). *)
Inductive fetched : Type :=
| JsonArray (data : list row)
| JsonNull
| JsonOther
| Failed.

(** The rows the promise resolves with; with a [null] body it never
    resolves. *)
Definition loadCSV (filepath : string) (answer : fetched) : Rand (option (list row)) :=
  fun k =>
  match answer with
  | JsonArray data => (Some (normalizeData data filepath), k)
  | JsonNull => (None, k)
  | JsonOther | Failed => let '(rows, k) := generateMockData filepath k in (Some rows, k)
  end.

(** ** [calculateStatistics] *)

(** [a.Alert && a.Alert.includes(token)], as the filter reads it: a string
    label has [includes]; any other truthy label has not, and the call
    throws. *)
Definition label_includes (token : string) (a : row) : completion bool :=
  let label := prop a "Alert" in
  if ToBoolean label then
    match label with
    | VStr s => Normal (Str.includes token s)
    | _ => TypeError
    end
  else Normal false.

Definition count_alerts (p : row -> completion bool) (alerts : list row) : completion number :=
  kept ← filter_throwing p alerts;
  Normal (of_nat (List.length kept)).

Definition calculateStatistics (d : DashboardData) : DashboardData * completion unit :=
  let uniqueMachines := Set_of (List.map (fun r => prop r "machine_id") (sensorData d)) in
  let d := set_machines (num_or_else (of_nat (List.length uniqueMachines)) (of_Z 100)) d in
  let d := set_readings (num_or_else (of_nat (List.length (sensorData d))) (of_Z 10000)) d in
  match count_alerts (label_includes "CRITICAL") (alerts d) with
  | TypeError => (d, TypeError)
  | Normal c =>
      let d := set_critical c d in
      match count_alerts (label_includes "WARNING") (alerts d) with
      | TypeError => (d, TypeError)
      | Normal w =>
          let d := set_warnings w d in
          match count_alerts (label_includes "Normal") (alerts d) with
          | TypeError => (d, TypeError)
          | Normal n =>
              let d := set_normal n d in
              let totalAnomalies := (critical d + warnings d)%num in
              let anomalyRate := (totalAnomalies / readings d * of_Z 100)%num in
              (set_health (Num.max (of_Z 0) (of_Z 100 - anomalyRate)) d, Normal tt)
          end
      end
  end.

(** ** [loadDashboardData], up to the statistics *)

(** Both datasets are requested at once and the function waits for both; the
    draws of the two mock generators are taken in the order of the requests.
    Nothing is returned when one of the promises never resolves. *)
Definition loadDashboardData (sensorAnswer alertsAnswer : fetched) (d : DashboardData)
  : Rand (option (DashboardData * completion unit)) := fun k =>
  let '(sensor, k) := loadCSV "sensor_data" sensorAnswer k in
  let '(alerts, k) := loadCSV "alerts" alertsAnswer k in
  match sensor, alerts with
  | Some sensorData, Some alerts =>
      (Some (calculateStatistics (set_alerts alerts (set_sensorData sensorData d))), k)
  | _, _ => (None, k)
  end.

(** ** The per-machine aggregation of [showMachinesPage] *)

Definition new_machine (id : value) : Machine.t :=
  {| Machine.id := id;
     Machine.readings := of_Z 0;
     Machine.avgTemp := of_Z 0;
     Machine.avgVibration := of_Z 0;
     Machine.lastTemp := VNull;
     Machine.lastVibration := VNull;
     Machine.alerts := of_Z 0;
     Machine.status := "normal";
     Machine.healthScore := of_Z 0;
     Machine.riskScore := of_Z 0 |}.

(** The body of [machines.forEach]: the machine of the reading is created
    when the map does not have it, then updated in place. *)
Definition add_reading (machineMap : list (value * Machine.t)) (reading : row)
  : list (value * Machine.t) :=
  let id := prop reading "machine_id" in
  let machineMap :=
    if negb (Map_has id machineMap) then Map_set id (new_machine id) machineMap
    else machineMap in
  Map_update id (fun machine =>
    {| Machine.id := Machine.id machine;
       Machine.readings := (Machine.readings machine + of_Z 1)%num;
       Machine.avgTemp := (Machine.avgTemp machine + parseFloat (prop reading "temperature"))%num;
       Machine.avgVibration :=
         (Machine.avgVibration machine + parseFloat (prop reading "vibration"))%num;
       Machine.lastTemp := VNum (parseFloat (prop reading "temperature"));
       Machine.lastVibration := VNum (parseFloat (prop reading "vibration"));
       Machine.alerts := Machine.alerts machine;
       Machine.status := Machine.status machine;
       Machine.healthScore := Machine.healthScore machine;
       Machine.riskScore := Machine.riskScore machine |}) machineMap.

(** [(a.machine_id ?? a.Machine) == id] *)
Definition of_machine (id : value) (a : row) : bool :=
  loose_eq (prop a "machine_id" ??? prop a "Machine") id.

(** [(a.machine_id ?? a.Machine) == id && a.Alert && a.Alert.includes(token)] *)
Definition machine_alert (token : string) (id : value) (a : row) : completion bool :=
  if of_machine id a then label_includes token a else Normal false.

(** The body of [machineMap.forEach]. *)
Definition score_machine (alerts : list row) (id : value) (machine : Machine.t)
  : completion Machine.t :=
  let avgTemp := (Machine.avgTemp machine / Machine.readings machine)%num in
  let avgVibration := (Machine.avgVibration machine / Machine.readings machine)%num in
  let alertCount := of_nat (List.length (List.filter (of_machine id) alerts)) in
  criticalAlerts ← count_alerts (machine_alert "CRITICAL" id) alerts;
  warningAlerts ← count_alerts (machine_alert "WARNING" id) alerts;
  let status :=
    if Num.gtb criticalAlerts (of_Z 0) then "critical"
    else if Num.gtb warningAlerts (of_Z 0) then "warning"
    else "normal" in
  let tempDevPct :=
    if num_truthy avgTemp
    then (Num.abs (ToNumber (Machine.lastTemp machine) - avgTemp) / avgTemp * of_Z 100)%num
    else of_Z 0 in
  let vibDevPct :=
    if num_truthy avgVibration
    then (Num.abs (ToNumber (Machine.lastVibration machine) - avgVibration) / avgVibration
          * of_Z 100)%num
    else of_Z 0 in
  let healthScore := Num.max (of_Z 0) (of_Z 100 - (tempDevPct + vibDevPct)) in
  let riskScore :=
    Num.min (of_Z 100)
      (Num.round ((of_Z 100 - healthScore) + criticalAlerts * of_Z 5 + warningAlerts * of_Z 2)) in
  Normal
    {| Machine.id := Machine.id machine;
       Machine.readings := Machine.readings machine;
       Machine.avgTemp := avgTemp;
       Machine.avgVibration := avgVibration;
       Machine.lastTemp := Machine.lastTemp machine;
       Machine.lastVibration := Machine.lastVibration machine;
       Machine.alerts := alertCount;
       Machine.status := status;
       Machine.healthScore := healthScore;
       Machine.riskScore := riskScore |}.

Fixpoint score_machines (alerts : list row) (machineMap : list (value * Machine.t))
  : completion (list (value * Machine.t)) :=
  match machineMap with
  | [] => Normal []
  | (id, machine) :: rest =>
      machine' ← score_machine alerts id machine;
      rest' ← score_machines alerts rest;
      Normal ((id, machine') :: rest')
  end.

(** The machine map [showMachinesPage] builds from the dashboard data and
    then renders. *)
Definition showMachinesPage (d : DashboardData) : completion (list (value * Machine.t)) :=
  let machines := sensorData d in
  let alerts := alerts d in
  let machineMap := fold_left add_reading machines [] in
  score_machines alerts machineMap.

End Dashboard.

(** ** The manual reading form and the refresh interval *)

(** [Number.isInteger] *)
Definition Number_isInteger (n : number) : bool :=
  match n with
  | Fin _ => Num.eqb (Num.floor n) n
  | _ => false
  end.

(** *** [addManualReading], up to the request *)

(** The checks that end the function with a notification. *)
Inductive refusal : Type :=
| FieldsMissing
| FactoryIdNotPositiveInteger
| MachineIdNotPositiveInteger
| TemperatureNotNumber
| TemperatureNotKelvin
| VibrationNotNumber
| VibrationOutOfRange.

(** The arguments are the texts of the form fields; the timestamp field may be
    missing from the page.  The result is the payload that is posted, or the
    check that failed. *)
Definition addManualReading
    (factoryIdInput machineIdInput temperatureInput vibrationInput : string)
    (timestampInput : option string) : refusal + row :=
  let factoryId := Str.trim factoryIdInput in
  let machineId := Str.trim machineIdInput in
  let temperature := Str.trim temperatureInput in
  let vibration := Str.trim vibrationInput in
  let timestamp := match timestampInput with Some s => Str.trim s | None => "" end in
  if negb (ToBoolean (VStr factoryId)) || negb (ToBoolean (VStr machineId))
     || negb (ToBoolean (VStr temperature)) || negb (ToBoolean (VStr vibration))
  then inl FieldsMissing
  else
    let factoryIdNum := ToNumber (VStr factoryId) in
    if negb (Number_isInteger factoryIdNum) || Num.ltb factoryIdNum (of_Z 1)
    then inl FactoryIdNotPositiveInteger
    else
      let machineIdNum := ToNumber (VStr machineId) in
      if negb (Number_isInteger machineIdNum) || Num.ltb machineIdNum (of_Z 1)
      then inl MachineIdNotPositiveInteger
      else
        let temperatureNum := ToNumber (VStr temperature) in
        if isNaN (VNum temperatureNum) then inl TemperatureNotNumber
        else if Num.ltb temperatureNum (of_Z 200) || Num.gtb temperatureNum (of_Z 500)
        then inl TemperatureNotKelvin
        else
          let vibrationNum := ToNumber (VStr vibration) in
          if isNaN (VNum vibrationNum) then inl VibrationNotNumber
          else if Num.ltb vibrationNum (of_Z 0) || Num.gtb vibrationNum (of_Z 5000)
          then inl VibrationOutOfRange
          else
            let payload : row :=
              {[ "factory_id" := VNum factoryIdNum;
                 "machine_id" := VNum machineIdNum;
                 "temperature" := VNum temperatureNum;
                 "vibration" := VNum vibrationNum ]} in
            inr (if ToBoolean (VStr timestamp)
                 then <[ "timestamp" := VStr timestamp ]> payload
                 else payload).

(** *** [getRefreshIntervalSeconds] *)

(** [parseInt(v, 10)]: with the radix given as 10 no [0x] prefix is read. *)
Definition parseInt_10 (v : value) : number :=
  let s0 := Str.trimStart (ToString v) in
  let '(negative, s1) :=
    match s0 with
    | String "+" r => (false, r)
    | String "-" r => (true, r)
    | _ => (false, s0)
    end in
  let '(ds, _) := Lex.digits 10 s1 in
  if Lex.is_nil ds then NaN
  else
    let n := Lex.value 10 ds in
    if (binary64_overflow <=? n)%Z then inf_of_sign negative
    else of_Z (if negative then - n else n)%Z.

(** The argument is what [localStorage.getItem('refreshInterval')] returns: a
    string, or [null] when nothing is stored. *)
Definition getRefreshIntervalSeconds (item : value) : number :=
  let stored := parseInt_10 item in
  if Number_isNaN (VNum stored) then of_Z 5 else Num.max (of_Z 1) stored.

(** The delay in milliseconds that [startRealTimeUpdates] gives to
    [setInterval]. *)
Definition refresh_delay (item : value) : number :=
  Num.overflow (getRefreshIntervalSeconds item * of_Z 1000)%num.

(** ** The alerts table *)

(** [map] for a callback that may throw. *)
Fixpoint map_throwing {A B} (f : A -> completion B) (l : list A) : completion (list B) :=
  match l with
  | [] => Normal []
  | a :: l' =>
      b ← f a;
      rest ← map_throwing f l';
      Normal (b :: rest)
  end.

(** [v.includes(token)] and [v.toFixed(f)]: the first is a method of strings
    only, the second of numbers only. *)
Definition method_includes (v : value) (token : string) : completion bool :=
  match v with
  | VStr s => Normal (Str.includes token s)
  | _ => TypeError
  end.

Definition method_toFixed (v : value) (f : nat) : completion string :=
  match v with
  | VNum n => Normal (Show.toFixed n f)
  | _ => TypeError
  end.

(** The cells of a row of the table, as texts. *)
Record table_row : Type := {
  alertClass : string;
  machineId : string;
  timeVal : string;
  tempText : string;
  vibText : string;
  alertText : string
}.

(** The callback of the filter of [updateAlertsTable]. *)
Definition critical_or_warning (a : row) : completion bool :=
  let label := prop a "Alert" in
  if ToBoolean label then
    isCritical ← method_includes label "CRITICAL";
    if isCritical : bool then Normal true else method_includes label "WARNING"
  else Normal false.

(** The callback of its [map]. *)
Definition alert_table_row (alert : row) : completion table_row :=
  isCritical ← method_includes (prop alert "Alert") "CRITICAL";
  let alertClass := if isCritical : bool then "critical" else "warning" in
  let machineId := prop alert "machine_id" ??? prop alert "Machine" ??? VStr "N/A" in
  let timeVal := prop alert "timestamp" ??? prop alert "Time" ??? VStr "N/A" in
  let tempVal :=
    prop alert "temperature" ???
    VNum (parseFloat (VStr (Str.replace "K" "" (ToString (prop alert "Temp" ||| VStr ""))))) in
  let vibVal :=
    prop alert "vibration" ???
    VNum (parseFloat (VStr (Str.replace "RPM" "" (ToString (prop alert "Vibration" ||| VStr ""))))) in
  tempText ←
    (if negb (strict_eq tempVal VNull) && negb (strict_eq tempVal VUndefined)
        && negb (isNaN tempVal)
     then fixed ← method_toFixed tempVal 1; Normal (fixed ++ "K")
     else Normal "N/A");
  let vibText :=
    if negb (strict_eq vibVal VNull) && negb (strict_eq vibVal VUndefined)
       && negb (isNaN vibVal)
    then Show.number (Num.round (ToNumber vibVal)) ++ " RPM"
    else "N/A" in
  Normal {| alertClass := alertClass;
            machineId := ToString machineId;
            timeVal := ToString timeVal;
            tempText := tempText;
            vibText := vibText;
            alertText := ToString (prop alert "Alert") |}.

(** The rows written to the table; none stands for the one line that says
    there are no alerts. *)
Definition updateAlertsTable (d : DashboardData) : completion (list table_row) :=
  criticalAndWarningAlerts ← filter_throwing critical_or_warning (alerts d);
  map_throwing alert_table_row criticalAndWarningAlerts.

(** ** The risk gauge *)

(** [Number.isFinite], and [x >= y] on numbers. *)
Definition Number_isFinite (v : value) : bool :=
  match v with
  | VNum n => is_finite n
  | _ => false
  end.

Definition geb (x y : number) : bool :=
  match x, y with
  | NaN, _ | _, NaN => false
  | _, _ => negb (Num.ltb x y)
  end.

(** [initRiskScoreGauge]: the score and the level that are shown, which are
    the same with and without the charting library. *)
Definition initRiskScoreGauge (d : DashboardData) : number * string :=
  let systemHealth := if Number_isFinite (VNum (health d)) then health d else of_Z 75 in
  let riskScore :=
    Num.min (Num.max (Num.round (of_Z 100 - systemHealth)) (of_Z 0)) (of_Z 100) in
  let riskLevel :=
    if geb riskScore (of_Z 70) then "HIGH RISK"
    else if geb riskScore (of_Z 40) then "MODERATE"
    else "LOW RISK" in
  (riskScore, riskLevel).

(** ** [charts.js] *)

(** The charts read the same dashboard state.  A chart is modelled by the
    data handed to the charting library; the canvas and the library are taken
    to be there. *)
Module Charts.

(** [text.includes(token)]: only a string has the method. *)
Definition includes (text : value) (token : string) : completion bool :=
  match text with
  | VStr s => Normal (Str.includes token s)
  | _ => TypeError
  end.

(** [l.forEach(f)] for a callback that updates [s] and may throw. *)
Fixpoint forEach {A S} (f : S -> A -> completion S) (l : list A) (s : S) : completion S :=
  match l with
  | [] => Normal s
  | a :: l' => s' ← f s a; forEach f l' s'
  end.

(** *** [initStatusChart] *)

(** The callback of the first loop: a machine is given a status by the first
    alert that names it. *)
Definition record_status (machineStatus : list (value * string)) (alert : row)
  : completion (list (value * string)) :=
  let machine := or_else (prop alert "Machine") (prop alert "machine_id") in
  let alertText := or_else (prop alert "Alert") (VStr "") in
  if negb (Map_has machine machineStatus) then
    isCritical ← includes alertText "CRITICAL";
    if isCritical : bool then Normal (Map_set machine "critical" machineStatus)
    else
      isWarning ← includes alertText "WARNING";
      if isWarning : bool then Normal (Map_set machine "warning" machineStatus)
      else Normal (Map_set machine "normal" machineStatus)
  else Normal machineStatus.

Record machinesByStatus : Type := {
  critical : nat;
  warning : nat;
  normal : nat
}.

(** The callback of the second loop. *)
Definition tally (m : machinesByStatus) (status : string) : machinesByStatus :=
  if String.eqb status "critical" then
    {| critical := S (critical m); warning := warning m; normal := normal m |}
  else if String.eqb status "warning" then
    {| critical := critical m; warning := S (warning m); normal := normal m |}
  else
    {| critical := critical m; warning := warning m; normal := S (normal m) |}.

(** The bar heights of the chart, or nothing when there is no alert and the
    chart is left as it was. *)
Definition initStatusChart (d : DashboardData) : completion (option machinesByStatus) :=
  if Nat.eqb (List.length (alerts d)) 0 then Normal None
  else
    machineStatus ← forEach record_status (alerts d) [];
    Normal (Some (fold_left tally (List.map snd machineStatus)
                    {| critical := 0; warning := 0; normal := 0 |})).

(** *** The line charts *)

(** [l.slice(-n)]: the last [n] elements, all of them when there are fewer. *)
Definition slice_last {A} (n : nat) (l : list A) : list A :=
  skipn (List.length l - n) l.

(** [l.map((d, idx) => f(d, idx))], counting from [idx]. *)
Fixpoint map_index {A B} (f : A -> nat -> B) (idx : nat) (l : list A) : list B :=
  match l with
  | [] => []
  | d :: l' => f d idx :: map_index f (S idx) l'
  end.

(** A point of a series: [x], a position counted from 1, and [y]. *)
Definition point : Type := nat * number.

Definition series (field : string) (sampleData : list row) : list point :=
  List.filter (fun point => negb (isNaN (VNum (snd point))))
    (map_index (fun d idx => ((idx + 1)%nat, parseFloat (prop d field))) 0 sampleData).

(** The temperature series that is drawn, or nothing when the function
    returns before drawing.  Without sensor data the alerts stand in. *)
Definition initTemperatureChart (d : DashboardData) : option (list point) :=
  let sourceData := sensorData d in
  let sourceData :=
    if Nat.eqb (List.length sourceData) 0 && Nat.ltb 0 (List.length (alerts d)) then
      List.filter (fun item => negb (isNaN (prop item "temperature")))
        (List.map (fun item : row =>
           ({[ "temperature" :=
                 prop item "temperature" ???
                 VNum (parseFloat (VStr (Str.replace "K" ""
                        (ToString (prop item "Temp" ||| VStr ""))))) ]} : row))
           (alerts d))
    else sourceData in
  if Nat.eqb (List.length sourceData) 0 then None
  else
    let sampleData := slice_last 50 sourceData in
    let data := series "temperature" sampleData in
    if Nat.eqb (List.length data) 0 then None else Some data.

(** [updateChartsWithNewData]: the series handed to the temperature chart and
    to the vibration chart, each only when it has a point.  The argument of
    the function is not used. *)
Definition updateChartsWithNewData (d : DashboardData)
  : option (list point) * option (list point) :=
  let sourceData := sensorData d in
  if Nat.eqb (List.length sourceData) 0 then (None, None)
  else
    let sampleData := slice_last 50 sourceData in
    let tempSeries := series "temperature" sampleData in
    let vibSeries := series "vibration" sampleData in
    (if Nat.ltb 0 (List.length tempSeries) then Some tempSeries else None,
     if Nat.ltb 0 (List.length vibSeries) then Some vibSeries else None).

End Charts.

(** * Statements of the specification, in its own words *)

(** The timestamp fallback with the tests the specification names: a finite
    number, a string that reads as a finite number, a calendar date. *)
Definition normalizeTimestamp_as_specified (host_date : string -> option Z) (v : value)
  : number :=
  let as_date :=
    match Date.parse host_date v with
    | Fin ms => Num.floor (Fin ms / of_Z 1000)
    | _ => of_Z 0
    end in
  match v with
  | VUndefined | VNull => of_Z 0
  | VNum (Fin q) => Num.floor (Fin q)
  | VStr s =>
      match Lex.StringToNumber s with
      | Fin q => Num.floor (Fin q)
      | _ => as_date
      end
  | _ => as_date
  end.

(** A field that holds a number other than [NaN], and one that holds a finite
    number. *)
Definition number_field (r : row) (k : string) : Prop :=
  exists n, r !! k = Some (VNum n) /\ is_nan n = false.

Definition finite_field (r : row) (k : string) : Prop :=
  exists q, r !! k = Some (VNum (Fin q)).

Definition sensor_fields : list string :=
  ["machine_id"; "temperature"; "vibration"; "timestamp"].

(** The temperature of an alert as the specification words it: the raw
    field as a string, a trailing [K] and the white space around it taken
    off, read as a float; [null] when the field is absent or empty or what is
    left is not a number. *)
Definition strip_trailing_K (s : string) : string :=
  match Str.strip_prefix "K" (Str.rev s) with
  | Some r => Str.rev r
  | None => s
  end.

Definition alert_temperature_as_specified (raw : value) : value :=
  match raw with
  | VUndefined | VNull | VStr EmptyString => VNull
  | _ =>
      let text := Str.trim (strip_trailing_K (Str.trim (ToString raw))) in
      if is_nan (Lex.parseFloat text) then VNull else VNum (Lex.parseFloat text)
  end.

(** A raw field is present when it is there and is not the empty string;
    it is zero-like when it is a number or boolean that counts as false. *)
Definition present (v : value) : bool :=
  match v with
  | VUndefined | VNull | VStr EmptyString => false
  | _ => true
  end.

Definition zero_like (v : value) : bool :=
  match v with
  | VNum n => negb (num_truthy n)
  | VBool b => negb b
  | _ => false
  end.

(** The field the temperature is read from: [Temp] when present, else
    [temperature] when present, else nothing. *)
Definition temperature_source (r : row) : value :=
  if present (prop r "Temp") then prop r "Temp"
  else if present (prop r "temperature") then prop r "temperature"
  else VStr "".

(** An alert whose label is a string holding the token, and an alert whose
    label can be classified at all: a string, or a value that counts as
    false. *)
Definition has_token (token : string) (a : row) : bool :=
  match prop a "Alert" with
  | VStr s => negb (Str.is_empty s) && Str.includes token s
  | _ => false
  end.

Definition label_ok (a : row) : Prop :=
  ToBoolean (prop a "Alert") = false \/ exists s, prop a "Alert" = VStr s.

(** A list without two values that [SameValueZero] identifies. *)
Fixpoint distinct (l : list value) : bool :=
  match l with
  | [] => true
  | x :: l' => negb (mem_svz x l') && distinct l'
  end.

(** The rows of the end-to-end example of the specification. *)
Definition example_alert : row :=
  {[ "Machine" := VNum (of_Z 1); "Time" := VNum (of_Z 5); "Temp" := VStr "330.0K";
     "Vibration" := VStr "2100"; "Alert" := VStr "🔥 CRITICAL: High Temperature" ]}.

Definition example_reading : row :=
  {[ "machine_id" := VNum (of_Z 1); "temperature" := VNum (of_Z 330);
     "vibration" := VNum (of_Z 2100); "timestamp" := VNum (of_Z 5) ]}.

(** The share of anomalies among the readings, as a rational. *)
Definition ratio (c w r : nat) : Q :=
  ((inject_Z (Z.of_nat c) + inject_Z (Z.of_nat w)) / inject_Z (Z.of_nat r))%Q.

(** The deviation of the last reading from the average, in percent of the
    average, as [showMachinesPage] computes it. *)
Definition deviation_pct (last : value) (avg : number) : number :=
  if num_truthy avg then (Num.abs (ToNumber last - avg) / avg * of_Z 100)%num
  else of_Z 0.

Definition machine_has (token : string) (id : value) (a : row) : bool :=
  of_machine id a && has_token token a.


(** Readings of one machine with temperatures below zero, as the API may
    send them. *)
Definition cold_readings : list row :=
  [ {[ "machine_id" := VNum (of_Z 1); "temperature" := VNum (of_Z (-1));
       "vibration" := VNum (of_Z 0); "timestamp" := VNum (of_Z 1) ]};
    {[ "machine_id" := VNum (of_Z 1); "temperature" := VNum (of_Z (-3));
       "vibration" := VNum (of_Z 0); "timestamp" := VNum (of_Z 2) ]} ].

(** The labels the mock generator gives its alerts. *)
Definition mock_labels : list string :=
  [ "✅ Normal Operation"; "🔥 CRITICAL: High Temperature"; "🔥 CRITICAL: Excessive Vibration"; "⚠️ WARNING: Sudden Temperature Spike" ].

(** What holds of every alert row the normaliser returns, and what holds of
    every alert row the mock generator returns. *)
Definition normalized_alert_shape (r : row) : Prop :=
  is_Some (r !! "machine_id") /\ is_Some (r !! "timestamp") /\
  (r !! "temperature" = Some VNull \/ number_field r "temperature") /\
  (r !! "vibration" = Some VNull \/ exists n, r !! "vibration" = Some (VNum n)) /\
  (exists v, r !! "Alert" = Some v /\ ToBoolean v = true) /\
  (exists v, r !! "alert_type" = Some v /\ ToBoolean v = true).

Definition mock_alert_shape (r : row) : Prop :=
  finite_field r "Machine" /\ finite_field r "Time" /\
  (exists s, r !! "Temp" = Some (VStr s)) /\
  (exists s, r !! "Vibration" = Some (VStr s)) /\
  (exists s, r !! "Avg_Temp" = Some (VStr s)) /\
  (exists s, r !! "Temp_Dev" = Some (VStr s)) /\
  (exists s, r !! "Alert" = Some (VStr s) /\ List.In s mock_labels) /\
  r !! "machine_id" = None /\ r !! "timestamp" = None /\
  r !! "temperature" = None /\ r !! "vibration" = None /\ r !! "alert_type" = None.

(** Records of the shape [normalizeData] returns. *)
Definition sensor_record (machine_id temperature vibration timestamp : number) : row :=
  {[ "machine_id" := VNum machine_id; "temperature" := VNum temperature;
     "vibration" := VNum vibration; "timestamp" := VNum timestamp ]}.

Definition alert_record (machine_id timestamp temperature vibration label alert_type : value)
  : row :=
  {[ "machine_id" := machine_id; "timestamp" := timestamp; "temperature" := temperature;
     "vibration" := vibration; "Alert" := label; "alert_type" := alert_type ]}.

(** ** Decimal digit strings *)

(** Strings of decimal digits, and the digits they hold. *)
Definition is_digit (c : ascii) : bool :=
  (48 <=? Lex.code c)%Z && (Lex.code c <=? 57)%Z.

Fixpoint all_digits (s : string) : bool :=
  match s with
  | EmptyString => true
  | String c r => is_digit c && all_digits r
  end.

Fixpoint digit_values (s : string) : list Z :=
  match s with
  | EmptyString => []
  | String c r => (Lex.code c - 48)%Z :: digit_values r
  end.

(** The exponent part that [Number::toString] writes for the exponent [X]:
    none, or [e], a sign and digits. *)
Definition exponent_part (xs : string) (X : Z) : Prop :=
  (xs = "" /\ X = 0%Z) \/
  exists E, all_digits E = true /\ E <> "" /\
    ((xs = "e+" ++ E /\ X = Lex.value 10 (digit_values E)) \/
     (xs = "e-" ++ E /\ X = (- Lex.value 10 (digit_values E))%Z)).

(** A number that a decimal literal denotes: an infinity, or a fraction in
    lowest terms whose denominator divides a power of ten.  Every binary64
    that is not [NaN] is one. *)
Definition decimal_fraction (q : Q) : Prop :=
  Qred q = q /\ exists j : nat, (Zpos (Qden q) | 10 ^ Z.of_nat j)%Z.

Definition decimal (n : number) : Prop :=
  match n with
  | NaN => False
  | PosInf | NegInf => True
  | Fin q => decimal_fraction q
  end.

(** A printable ASCII character other than [K], and the strings made of
    them: what [Number::toString] writes is one. *)
Definition plain (c : ascii) : bool :=
  (33 <=? Lex.code c)%Z && (Lex.code c <=? 126)%Z && negb (Lex.code c =? 75)%Z.

Fixpoint all_plain (s : string) : bool :=
  match s with
  | EmptyString => true
  | String c r => plain c && all_plain r
  end.

(** ** Canonical records *)

(** The output shape of [normalizeData] for each dataset.  A canonical
    sensor record has the four fields: a [machine_id] that is whole or
    infinite, a [temperature] and a [vibration] that are numbers, and a
    [timestamp] that is whole or infinite.  A canonical alert record has the six fields: [machine_id] and
    [timestamp] that are [null] or count as true, a [temperature] that is
    [null] or a number, a [vibration] that is [null], a number or [NaN], and
    labels that count as true. *)
Definition canonical_sensor (r : row) : Prop :=
  exists m t v ts : number,
    r = sensor_record m t v ts /\
    (m = PosInf \/ m = NegInf \/ exists z : Z, m = of_Z z) /\
    decimal t /\ decimal v /\
    (ts = PosInf \/ ts = NegInf \/ exists w : Z, ts = of_Z w).

Definition canonical_alert (r : row) : Prop :=
  exists M T th V A A' : value,
    r = alert_record M T th V A A' /\
    (M = VNull \/ ToBoolean M = true) /\
    (T = VNull \/ ToBoolean T = true) /\
    (th = VNull \/ exists n, th = VNum n /\ decimal n) /\
    (V = VNull \/ exists n, V = VNum n /\ (n = NaN \/ decimal n)) /\
    ToBoolean A = true /\ ToBoolean A' = true.

(** The conditions under which a canonical record is left as it is: a
    whole machine id that is written with all its digits, and an alert whose
    temperature is not zero, whose vibration is not [NaN] and whose
    [alert_type] is its label. *)
Definition small_id (r : row) : Prop :=
  exists z : Z, r !! "machine_id" = Some (VNum (of_Z z)) /\ (Z.abs z < 10 ^ 21)%Z.

Definition settled_alert (r : row) : Prop :=
  (forall n, r !! "temperature" = Some (VNum n) -> is_zero n = false) /\
  r !! "vibration" <> Some (VNum NaN) /\
  r !! "alert_type" = r !! "Alert".

(** Raw rows of the two datasets, as a CSV parser gives them. *)
Definition raw_sensor_rows : list row :=
  [ {[ "machine_id" := VStr "7"; "temperature" := VStr "330.5"; "vibration" := VStr "2100";
       "timestamp" := VStr "5" ]};
    {[ "machine_id" := VStr "x"; "temperature" := VStr "1e-7" ]} ].

Definition raw_alert_rows : list row :=
  [ {[ "Machine" := VStr "7"; "Time" := VStr "5"; "Temp" := VStr "330.25K";
       "Vibration" := VStr "1800"; "Alert" := VStr "WARNING: vibration" ]};
    {[ "Machine" := VStr "8"; "Alert" := VStr "Normal" ]} ].

(** An alert at zero kelvin whose label comes under the name [alert], and a
    reading whose machine id is ten to the twenty-first. *)
Definition zero_kelvin_alert : row :=
  {[ "Machine" := VNum (of_Z 1); "Time" := VNum (of_Z 5); "Temp" := VStr "0K";
     "Vibration" := VStr "2100"; "alert" := VStr "check" ]}.

Definition huge_id_reading : row :=
  {[ "machine_id" := VStr "1000000000000000000000"; "temperature" := VNum (of_Z 330);
     "vibration" := VNum (of_Z 2100); "timestamp" := VNum (of_Z 5) ]}.

(** What one reading adds to the record of its machine, the readings of one
    machine among a list of readings, and the sum [showMachinesPage] keeps of
    one of their fields. *)
Definition accumulate (machine : Machine.t) (reading : row) : Machine.t :=
  {| Machine.id := Machine.id machine;
     Machine.readings := (Machine.readings machine + of_Z 1)%num;
     Machine.avgTemp := (Machine.avgTemp machine + parseFloat (prop reading "temperature"))%num;
     Machine.avgVibration :=
       (Machine.avgVibration machine + parseFloat (prop reading "vibration"))%num;
     Machine.lastTemp := VNum (parseFloat (prop reading "temperature"));
     Machine.lastVibration := VNum (parseFloat (prop reading "vibration"));
     Machine.alerts := Machine.alerts machine;
     Machine.status := Machine.status machine;
     Machine.healthScore := Machine.healthScore machine;
     Machine.riskScore := Machine.riskScore machine |}.

Definition readings_of (id : value) (readings : list row) : list row :=
  List.filter (fun r => same_value_zero id (prop r "machine_id")) readings.

Definition sum_of (field : string) (readings : list row) : number :=
  fold_left (fun acc r => (acc + parseFloat (prop r field))%num) readings (of_Z 0).

(** The machine map after the readings [seen]: its keys are the distinct
    machine ids, and each record is what the readings of its machine add up
    to. *)
Definition grouped (seen : list row) (machineMap : list (value * Machine.t)) : Prop :=
  List.map fst machineMap = Set_of (List.map (fun r => prop r "machine_id") seen) /\
  forall k m, List.In (k, m) machineMap ->
    readings_of k seen <> [] /\
    m = fold_left accumulate (readings_of k seen) (new_machine k).

(** ** Predicates of the further properties *)

(** The machine an alert is charted under, the first alert of a list that
    names a machine, and the status its label gives. *)
Definition charted_machine (a : row) : value :=
  or_else (prop a "Machine") (prop a "machine_id").

Definition first_alert (machine : value) (alerts : list row) : option row :=
  List.find (fun a => same_value_zero (charted_machine a) machine) alerts.

Definition label_status (a : row) : string :=
  if has_token "CRITICAL" a then "critical"
  else if has_token "WARNING" a then "warning"
  else "normal".

Definition first_status (alerts : list row) (machine : value) : string :=
  match first_alert machine alerts with
  | Some a => label_status a
  | None => "normal"
  end.

Definition charted_machines (alerts : list row) : list value :=
  Set_of (List.map charted_machine alerts).

Definition machines_with (status : string) (alerts : list row) : nat :=
  List.length (List.filter (fun machine => String.eqb (first_status alerts machine) status)
                 (charted_machines alerts)).

(** A machine whose first alert is normal and whose second is critical. *)
Definition recovering_alerts : list row :=
  [ {[ "Machine" := VNum (of_Z 7); "Alert" := VStr "Normal" ]};
    {[ "Machine" := VNum (of_Z 7); "Alert" := VStr "CRITICAL: overheating" ]} ].

(** A series as the line charts can draw it: at least one and at most [n]
    points, positions between 1 and [n] that increase along the series, and no
    [NaN] among the values. *)
Definition drawable (n : nat) (data : list Charts.point) : Prop :=
  (1 <= List.length data <= n)%nat /\
  Forall (fun p => (1 <= fst p <= n)%nat /\ is_nan (snd p) = false) data /\
  StronglySorted (fun p q => (fst p < fst q)%nat) data.

(** Three readings, the second without a temperature that can be read. *)
Definition patchy_readings : list row :=
  [ {[ "temperature" := VNum (of_Z 300) ]};
    {[ "temperature" := VStr "n/a" ]};
    {[ "temperature" := VStr "310.5K" ]} ].

(** A raw alert row whose label fields are texts, as a CSV parser gives
    them, or are missing. *)
Definition text_or_falsy (v : value) : Prop :=
  ToBoolean v = false \/ exists s, v = VStr s.

Definition raw_alert_labels (r : row) : Prop :=
  text_or_falsy (prop r "Alert") /\ text_or_falsy (prop r "alert").

(** Two raw alerts, one with both tokens in its label. *)
Definition raw_alerts : list row :=
  [ {[ "Machine" := VStr "7"; "Temp" := VStr "330.25K"; "Vibration" := VStr "1800RPM";
       "Alert" := VStr "CRITICAL after WARNING" ]};
    {[ "Machine" := VStr "8"; "Alert" := VStr "Normal" ]} ].

(** * Properties *)

Ltac split_all := repeat match goal with |- _ /\ _ => split end.

(** ** Numbers *)

Lemma is_nan_floor x : is_nan (Num.floor x) = is_nan x.
Proof. destruct x; reflexivity. Qed.

Lemma is_nan_num_or_else x z : is_nan (num_or_else x (of_Z z)) = false.
Proof.
  unfold num_or_else, num_truthy.
  destruct x as [| | |q]; simpl; try reflexivity.
  destruct (Qis_zero q); reflexivity.
Qed.

Lemma Qfloor_Qred q : Qfloor (Qred q) = Qfloor q.
Proof. apply Qfloor_comp, Qred_correct. Qed.

Lemma floor_div_1000 t : Num.floor (of_Z t / of_Z 1000) = of_Z (t / 1000).
Proof.
  unfold Num.div, of_Z, fin, Num.floor. simpl.
  unfold of_Z. f_equal. f_equal. rewrite Qfloor_Qred.
  unfold Qdiv, Qmult, Qinv. simpl. unfold Qfloor. now rewrite Z.mul_1_r.
Qed.

Lemma Date_parse_cases host v :
  Date.parse host v = NaN \/ exists t, Date.parse host v = of_Z t.
Proof.
  unfold Date.parse.
  destruct (Date.interchange (ToString v)) as [t|].
  - unfold Date.TimeClip. destruct (Z.abs t <=? 8640000000000000)%Z; eauto.
  - destruct (host (ToString v)); eauto.
Qed.

Lemma normalizeTimestamp_nullish host v :
  is_nullish v = true -> normalizeTimestamp host v = of_Z 0.
Proof. unfold normalizeTimestamp. now intros ->. Qed.

Lemma normalizeTimestamp_numeric host v :
  is_nullish v = false -> is_nan (ToNumber v) = false ->
  normalizeTimestamp host v = Num.floor (ToNumber v).
Proof.
  unfold normalizeTimestamp. intros -> Hn. rewrite Hn. simpl.
  now destruct (is_number v && negb (Number_isNaN v)).
Qed.

Lemma normalizeTimestamp_date host v :
  is_nullish v = false -> ToNumber v = NaN ->
  normalizeTimestamp host v =
    if is_nan (Date.parse host v) then of_Z 0
    else Num.floor (Date.parse host v / of_Z 1000).
Proof.
  unfold normalizeTimestamp. intros -> Hn. rewrite Hn. simpl.
  assert (is_number v && negb (Number_isNaN v) = false) as ->.
  { destruct v as [| | |n|]; try reflexivity. simpl in Hn. now subst n. }
  now destruct (is_nan (Date.parse host v)).
Qed.

Lemma is_nan_normalizeTimestamp host v : is_nan (normalizeTimestamp host v) = false.
Proof.
  destruct (is_nullish v) eqn:Hv.
  - now rewrite normalizeTimestamp_nullish.
  - destruct (is_nan (ToNumber v)) eqn:Hn.
    + rewrite normalizeTimestamp_date; auto.
      2:{ now destruct (ToNumber v). }
      destruct (Date_parse_cases host v) as [-> | [t ->]]; [reflexivity|].
      change (is_nan (of_Z t)) with false. cbv iota.
      now rewrite floor_div_1000.
    + rewrite normalizeTimestamp_numeric; auto. now rewrite is_nan_floor.
Qed.

(** ** Timestamps *)

(** C1, as amended.  [normalizeTimestamp] follows this ordered fallback:
    [null] and [undefined] give 0; otherwise, when [Number(v)] is not [NaN]
    (a number other than [NaN], a boolean, a string that reads as a number),
    the result is its floor, an infinite value staying as it is; otherwise,
    when [Date.parse(v)] is a time value, the result is the floor of its
    thousandth; otherwise 0.  The five examples of the specification hold. *)
Theorem normalizeTimestamp_ordered_fallback (host : string -> option Z) :
  (forall v, is_nullish v = true -> normalizeTimestamp host v = of_Z 0) /\
  (forall v q, is_nullish v = false -> ToNumber v = Fin q ->
     normalizeTimestamp host v = of_Z (Qfloor q)) /\
  (forall v, is_nullish v = false -> ToNumber v = PosInf ->
     normalizeTimestamp host v = PosInf) /\
  (forall v, is_nullish v = false -> ToNumber v = NegInf ->
     normalizeTimestamp host v = NegInf) /\
  (forall v t, is_nullish v = false -> ToNumber v = NaN ->
     Date.parse host v = of_Z t -> normalizeTimestamp host v = of_Z (t / 1000)) /\
  (forall v, is_nullish v = false -> ToNumber v = NaN ->
     Date.parse host v = NaN -> normalizeTimestamp host v = of_Z 0) /\
  normalizeTimestamp host (VNum (of_Z 1700000000)) = of_Z 1700000000 /\
  normalizeTimestamp host (VStr "1700000000") = of_Z 1700000000 /\
  normalizeTimestamp host (VStr "2023-11-14T00:00:00Z") = of_Z 1699920000 /\
  normalizeTimestamp host VNull = of_Z 0 /\
  (host "not-a-date" = None -> normalizeTimestamp host (VStr "not-a-date") = of_Z 0).
Proof.
  split_all.
  - apply normalizeTimestamp_nullish.
  - intros v q Hv Hq. rewrite normalizeTimestamp_numeric, Hq; auto. now rewrite Hq.
  - intros v Hv Hq. rewrite normalizeTimestamp_numeric, Hq; auto. now rewrite Hq.
  - intros v Hv Hq. rewrite normalizeTimestamp_numeric, Hq; auto. now rewrite Hq.
  - intros v t Hv Hn Hp. rewrite normalizeTimestamp_date, Hp; auto.
    change (is_nan (of_Z t)) with false. cbv iota. apply floor_div_1000.
  - intros v Hv Hn Hp. rewrite normalizeTimestamp_date, Hp; auto.
  - rewrite normalizeTimestamp_numeric; reflexivity.
  - rewrite normalizeTimestamp_numeric; [|reflexivity|];
      assert (ToNumber (VStr "1700000000") = of_Z 1700000000) as -> by (vm_compute; reflexivity);
      reflexivity.
  - assert (ToNumber (VStr "2023-11-14T00:00:00Z") = NaN) as Hn by (vm_compute; reflexivity).
    rewrite normalizeTimestamp_date; [|reflexivity|exact Hn].
    assert (Date.parse host (VStr "2023-11-14T00:00:00Z") = of_Z 1699920000000) as ->.
    { unfold Date.parse.
      assert (Date.interchange (ToString (VStr "2023-11-14T00:00:00Z")) = Some 1699920000000%Z)
        as -> by (vm_compute; reflexivity).
      reflexivity. }
    change (is_nan (of_Z 1699920000000)) with false. cbv iota.
    now rewrite floor_div_1000.
  - reflexivity.
  - intros Hh.
    assert (ToNumber (VStr "not-a-date") = NaN) as Hn by (vm_compute; reflexivity).
    rewrite normalizeTimestamp_date; [|reflexivity|exact Hn].
    assert (Date.parse host (VStr "not-a-date") = NaN) as ->; [|reflexivity].
    unfold Date.parse.
    assert (Date.interchange (ToString (VStr "not-a-date")) = None)
      as -> by (vm_compute; reflexivity).
    simpl. now rewrite Hh.
Qed.

Lemma normalizeTimestamp_ordered_fallback_witness :
  normalizeTimestamp Date.strict_host (VStr "not-a-date") = of_Z 0 /\
  normalizeTimestamp Date.strict_host (VBool true) = of_Z 1.
Proof.
  destruct (normalizeTimestamp_ordered_fallback Date.strict_host)
    as (_ & Hfinite & _ & _ & _ & _ & _ & _ & _ & _ & Hword).
  split.
  - apply Hword. reflexivity.
  - apply (Hfinite (VBool true) 1%Q); reflexivity.
Defined.

(** C1, as the specification states it, fails: an infinite number, the
    string [Infinity] and [true] are neither finite numbers nor strings that
    read as finite numbers nor dates, so the stated fallback ends at 0, but the
    function returns [Infinity], [Infinity] and 1. *)
Lemma normalizeTimestamp_as_specified_fails :
  normalizeTimestamp Date.strict_host (VNum PosInf) = PosInf /\
  normalizeTimestamp_as_specified Date.strict_host (VNum PosInf) = of_Z 0 /\
  normalizeTimestamp Date.strict_host (VStr "Infinity") = PosInf /\
  normalizeTimestamp_as_specified Date.strict_host (VStr "Infinity") = of_Z 0 /\
  normalizeTimestamp Date.strict_host (VBool true) = of_Z 1 /\
  normalizeTimestamp_as_specified Date.strict_host (VBool true) = of_Z 0.
Proof. split_all; vm_compute; reflexivity. Qed.

(** ** Sensor rows *)

Lemma number_field_intro (r : row) k n :
  r !! k = Some (VNum n) -> is_nan n = false -> number_field r k.
Proof. intros H1 H2. exists n. now split. Qed.

(** C2, as amended.  Every field of a normalised sensor row is a number and
    never [null], [undefined] or [NaN]: [machine_id] is [parseInt] of the raw
    field or 0, [temperature] and [vibration] are [parseFloat] of theirs or 0,
    [timestamp] is [normalizeTimestamp] of its raw field, and a field that
    [parseInt] or [parseFloat] cannot read is 0.  (The number may be infinite.)
    Every row [normalizeData] returns for a dataset other than the alerts is
    such a row. *)
Theorem normalize_sensor_fields (host : string -> option Z) :
  (forall r : row,
     normalize_sensor host r !! "machine_id"
       = Some (VNum (num_or_else (parseInt (prop r "machine_id")) (of_Z 0))) /\
     normalize_sensor host r !! "temperature"
       = Some (VNum (num_or_else (parseFloat (prop r "temperature")) (of_Z 0))) /\
     normalize_sensor host r !! "vibration"
       = Some (VNum (num_or_else (parseFloat (prop r "vibration")) (of_Z 0))) /\
     normalize_sensor host r !! "timestamp"
       = Some (VNum (normalizeTimestamp host (prop r "timestamp"))) /\
     (forall k, List.In k sensor_fields -> number_field (normalize_sensor host r) k) /\
     (parseInt (prop r "machine_id") = NaN ->
        normalize_sensor host r !! "machine_id" = Some (VNum (of_Z 0))) /\
     (parseFloat (prop r "temperature") = NaN ->
        normalize_sensor host r !! "temperature" = Some (VNum (of_Z 0))) /\
     (parseFloat (prop r "vibration") = NaN ->
        normalize_sensor host r !! "vibration" = Some (VNum (of_Z 0)))) /\
  (forall (data : list row) filepath (r' : row),
     Str.includes "alerts" filepath = false ->
     List.In r' (normalizeData host data filepath) ->
     exists r, List.In r data /\ r' = normalize_sensor host r).
Proof.
  split.
  - intros r. split_all; try reflexivity.
    + intros k [<-|[<-|[<-|[<-|[]]]]].
      * eapply number_field_intro; [reflexivity|apply is_nan_num_or_else].
      * eapply number_field_intro; [reflexivity|apply is_nan_num_or_else].
      * eapply number_field_intro; [reflexivity|apply is_nan_num_or_else].
      * eapply number_field_intro; [reflexivity|apply is_nan_normalizeTimestamp].
    + intros H. change (normalize_sensor host r !! "machine_id")
        with (Some (VNum (num_or_else (parseInt (prop r "machine_id")) (of_Z 0)))).
      now rewrite H.
    + intros H. change (normalize_sensor host r !! "temperature")
        with (Some (VNum (num_or_else (parseFloat (prop r "temperature")) (of_Z 0)))).
      now rewrite H.
    + intros H. change (normalize_sensor host r !! "vibration")
        with (Some (VNum (num_or_else (parseFloat (prop r "vibration")) (of_Z 0)))).
      now rewrite H.
  - intros data fp r' Hfp Hin. unfold normalizeData in Hin. rewrite Hfp in Hin.
    destruct data as [|r0 data]; [destruct Hin|].
    apply in_map_iff in Hin. destruct Hin as [r [<- Hr]]. eauto.
Qed.

Lemma normalize_sensor_fields_witness :
  normalize_sensor Date.strict_host {[ "machine_id" := VStr "n/a"; "temperature" := VStr "hot" ]}
    !! "temperature" = Some (VNum (of_Z 0)) /\
  number_field
    (normalize_sensor Date.strict_host {[ "machine_id" := VStr "n/a"; "temperature" := VStr "hot" ]})
    "timestamp".
Proof.
  destruct (normalize_sensor_fields Date.strict_host) as [H _].
  destruct (H {[ "machine_id" := VStr "n/a"; "temperature" := VStr "hot" ]})
    as (_ & _ & _ & _ & Hnumber & _ & Htemperature & _).
  split.
  - apply Htemperature. vm_compute. reflexivity.
  - apply Hnumber. simpl. auto.
Defined.

(** C2, as the specification states it, fails: the fields need not be
    finite.  [parseFloat] reads the string [Infinity] and [normalizeTimestamp]
    lets an infinite value through. *)
Lemma normalize_sensor_not_finite :
  ~ finite_field
      (normalize_sensor Date.strict_host
         {[ "machine_id" := VNum (of_Z 1); "temperature" := VStr "Infinity";
            "vibration" := VNum (of_Z 2100); "timestamp" := VStr "Infinity" ]})
      "temperature" /\
  ~ finite_field
      (normalize_sensor Date.strict_host
         {[ "machine_id" := VNum (of_Z 1); "temperature" := VStr "Infinity";
            "vibration" := VNum (of_Z 2100); "timestamp" := VStr "Infinity" ]})
      "timestamp".
Proof.
  split; intros [q Hq]; vm_compute in Hq; discriminate Hq.
Qed.

(** ** Alert rows *)

Lemma ToBoolean_present v : zero_like v = false -> ToBoolean v = present v.
Proof.
  destruct v as [| |b|n|s]; simpl; try reflexivity.
  - now intros ->%negb_false_iff.
  - intros H%negb_false_iff. now rewrite H.
  - now destruct s.
Qed.

Lemma or_else_falsy a b : ToBoolean a = false -> a ||| b = b.
Proof. unfold or_else. now intros ->. Qed.

Lemma is_empty_true s : Str.is_empty s = true <-> s = "".
Proof. destruct s; simpl; split; congruence. Qed.

Lemma is_nan_true x : is_nan x = true <-> x = NaN.
Proof. destruct x; simpl; split; congruence. Qed.

(** The [temperature] field in terms of the text that is parsed. *)
Lemma normalize_alert_temperature (r : row) :
  normalize_alert r !! "temperature" =
    let text :=
      Str.trim (Str.replace "K" ""
        (ToString (prop r "Temp" ||| prop r "temperature" ||| VStr ""))) in
    Some (if Str.is_empty text || is_nan (Lex.parseFloat text) then VNull
          else VNum (Lex.parseFloat text)).
Proof.
  change (normalize_alert r !! "temperature") with
    (let tempStr :=
       Str.trim (Str.replace "K" ""
         (ToString (prop r "Temp" ||| prop r "temperature" ||| VStr ""))) in
     let temp := if negb (Str.is_empty tempStr) then VNum (Lex.parseFloat tempStr) else VNull in
     Some (if negb (strict_eq temp VNull) && negb (isNaN temp) then temp else VNull)).
  cbv zeta.
  destruct (Str.is_empty _); simpl; [reflexivity|].
  unfold isNaN. simpl. now destruct (is_nan _).
Qed.

(** C3, as amended.  For an alert row whose [Temp] and [temperature] are
    not zero-like (each is absent, a string, or a value that counts as true),
    the temperature is read from the first of the two that is present: the
    field as a string, its first [K] removed wherever it stands, white space
    trimmed, parsed as a float.  The result is [null] exactly when that text is
    empty or does not parse, and is the parsed number otherwise; zero is never
    put in place of a missing value. *)
Theorem normalize_alert_temperature_null_iff (r : row) :
  zero_like (prop r "Temp") = false ->
  zero_like (prop r "temperature") = false ->
  let text := Str.trim (Str.replace "K" "" (ToString (temperature_source r))) in
  (normalize_alert r !! "temperature" = Some VNull <->
     text = "" \/ Lex.parseFloat text = NaN) /\
  (normalize_alert r !! "temperature" <> Some VNull ->
     normalize_alert r !! "temperature" = Some (VNum (Lex.parseFloat text))) /\
  (normalize_alert r !! "temperature" = Some (VNum (of_Z 0)) ->
     Lex.parseFloat text = of_Z 0).
Proof.
  intros H1 H2 text.
  assert (prop r "Temp" ||| prop r "temperature" ||| VStr "" = temperature_source r) as Hsrc.
  { unfold or_else, temperature_source.
    rewrite <- (ToBoolean_present _ H1), <- (ToBoolean_present _ H2).
    destruct (ToBoolean (prop r "Temp")) eqn:E1; cbv iota; rewrite ?E1; [reflexivity|].
    destruct (ToBoolean (prop r "temperature")) eqn:E2; cbv iota; rewrite ?E2; reflexivity. }
  rewrite normalize_alert_temperature. cbv zeta. rewrite Hsrc. fold text.
  destruct (Str.is_empty text) eqn:He; simpl.
  - apply is_empty_true in He. split_all; try congruence. tauto.
  - destruct (is_nan (Lex.parseFloat text)) eqn:Hn.
    + apply is_nan_true in Hn. split_all; try congruence. tauto.
    + split_all; try congruence.
      split; [discriminate|]. intros [Ht|Ht].
      * rewrite Ht in He. discriminate.
      * rewrite Ht in Hn. discriminate.
Qed.

Lemma normalize_alert_temperature_null_iff_witness :
  normalize_alert {[ "Machine" := VNum (of_Z 1); "Temp" := VStr "330.0K" ]} !! "temperature"
    = Some (VNum (of_Z 330)) /\
  normalize_alert {[ "Machine" := VNum (of_Z 1); "temperature" := VStr "n/a" ]} !! "temperature"
    = Some VNull.
Proof.
  split.
  - pose proof (normalize_alert_temperature_null_iff
                  {[ "Machine" := VNum (of_Z 1); "Temp" := VStr "330.0K" ]}
                  eq_refl eq_refl) as [_ [H _]].
    apply H. vm_compute. discriminate.
  - pose proof (normalize_alert_temperature_null_iff
                  {[ "Machine" := VNum (of_Z 1); "temperature" := VStr "n/a" ]}
                  eq_refl eq_refl) as [[_ H] _].
    apply H. right. vm_compute. reflexivity.
Defined.

(** C3, as the specification states it, fails.  The unit marker is removed
    where it first occurs, not at the end ([3K30] is read as 330, not 3), and
    a numeric 0, which is neither empty nor non-numeric, gives [null]. *)
Lemma normalize_alert_temperature_not_as_specified :
  normalize_alert {[ "Temp" := VStr "3K30" ]} !! "temperature" = Some (VNum (of_Z 330)) /\
  alert_temperature_as_specified (VStr "3K30") = VNum (of_Z 3) /\
  normalize_alert {[ "Temp" := VNum (of_Z 0) ]} !! "temperature" = Some VNull /\
  alert_temperature_as_specified (VNum (of_Z 0)) = VNum (of_Z 0).
Proof. split_all; vm_compute; reflexivity. Qed.

Lemma prop_insert_eq (r : row) k v : prop (<[k := v]> r) k = v.
Proof. unfold prop. now rewrite lookup_insert_eq. Qed.

Lemma prop_insert_ne (r : row) k k' v : k <> k' -> prop (<[k := v]> r) k' = prop r k'.
Proof. intros H. unfold prop. now rewrite lookup_insert_ne. Qed.

Lemma prop_delete_eq (r : row) k : prop (delete k r) k = VUndefined.
Proof. unfold prop. now rewrite lookup_delete_eq. Qed.

Lemma prop_delete_ne (r : row) k k' : k <> k' -> prop (delete k r) k' = prop r k'.
Proof. intros H. unfold prop. now rewrite lookup_delete_ne. Qed.

Lemma normalize_alert_unfold r :
  normalize_alert r =
  alert_record (prop r "Machine" ||| prop r "machine_id" ||| VNull)
    (prop r "Time" ||| prop r "timestamp" ||| VNull)
    (let tempStr :=
       Str.trim (Str.replace "K" "" (ToString (prop r "Temp" ||| prop r "temperature" ||| VStr ""))) in
     let temp := if negb (Str.is_empty tempStr) then VNum (Lex.parseFloat tempStr) else VNull in
     if negb (strict_eq temp VNull) && negb (isNaN temp) then temp else VNull)
    (let vib := prop r "Vibration" ||| prop r "vibration" in
     if negb (strict_eq vib VNull) && negb (strict_eq vib VUndefined) && negb (isNaN vib)
     then VNum (parseFloat vib) else VNull)
    (prop r "Alert" ||| prop r "alert" ||| VStr "Unknown")
    (prop r "Alert" ||| prop r "alert_type" ||| VStr "Unknown").
Proof. reflexivity. Qed.

Lemma truthy_not_null v : ToBoolean v = true -> v <> VNull.
Proof. intros H ->. discriminate. Qed.

Lemma or_else_null_iff a b :
  a ||| b ||| VNull = VNull <-> ToBoolean a = false /\ ToBoolean b = false.
Proof.
  unfold or_else. destruct (ToBoolean a) eqn:Ha; cbv iota; rewrite ?Ha.
  - split; [intros E; now apply truthy_not_null in Ha|intros [? _]; discriminate].
  - destruct (ToBoolean b) eqn:Hb; cbv iota; rewrite ?Hb.
    + split; [intros E; now apply truthy_not_null in Hb|intros [_ ?]; discriminate].
    + split; auto.
Qed.

Lemma ToBoolean_false v :
  ToBoolean v = false <->
  v = VUndefined \/ v = VNull \/ v = VBool false \/ v = VStr "" \/
  exists n, v = VNum n /\ (is_nan n = true \/ is_zero n = true).
Proof.
  destruct v as [| |b|n|s]; cbn [ToBoolean].
  - split; auto.
  - split; auto.
  - split.
    + intros ->. auto.
    + intros [H|[H|[H|[H|(n & H & _)]]]]; congruence.
  - unfold num_truthy. rewrite negb_false_iff, orb_true_iff. split.
    + intros H. right; right; right; right. eauto.
    + intros [H|[H|[H|[H|(n' & [= <-] & H)]]]]; try discriminate. exact H.
  - split.
    + intros H. apply negb_false_iff, is_empty_true in H. subst. auto.
    + intros [H|[H|[H|[H|(n' & H & _)]]]]; try discriminate. now injection H as ->.
Qed.

(** C10, as amended.  The alternate names of an alert field are resolved by
    truthiness.  The normalised [machine_id] is [null] exactly when the values
    under both of its names count as false, and so is the [timestamp]; the
    temperature is [null] when both count as false; a label is [Unknown] when
    both count as false.  A value under the first name that counts as false
    gives the same row as no value under that name, so the second name is
    used.  The values that count as false are [undefined], [null], [false],
    the empty string, zero and [NaN]. *)
Theorem normalize_alert_falsy_as_absent (r : row) :
  (normalize_alert r !! "machine_id" = Some VNull <->
     ToBoolean (prop r "Machine") = false /\ ToBoolean (prop r "machine_id") = false) /\
  (normalize_alert r !! "timestamp" = Some VNull <->
     ToBoolean (prop r "Time") = false /\ ToBoolean (prop r "timestamp") = false) /\
  (ToBoolean (prop r "Temp") = false -> ToBoolean (prop r "temperature") = false ->
     normalize_alert r !! "temperature" = Some VNull) /\
  (ToBoolean (prop r "Alert") = false -> ToBoolean (prop r "alert") = false ->
     normalize_alert r !! "Alert" = Some (VStr "Unknown")) /\
  (ToBoolean (prop r "Alert") = false -> ToBoolean (prop r "alert_type") = false ->
     normalize_alert r !! "alert_type" = Some (VStr "Unknown")) /\
  (forall first, List.In first ["Machine"; "Time"; "Temp"; "Vibration"; "Alert"] ->
     ToBoolean (prop r first) = false ->
     normalize_alert r = normalize_alert (delete first r)) /\
  (ToBoolean (prop r "Machine") = true ->
     normalize_alert r !! "machine_id" = Some (prop r "Machine")) /\
  (ToBoolean (prop r "Machine") = false -> ToBoolean (prop r "machine_id") = true ->
     normalize_alert r !! "machine_id" = Some (prop r "machine_id")) /\
  (forall v, ToBoolean v = false <->
     v = VUndefined \/ v = VNull \/ v = VBool false \/ v = VStr "" \/
     exists n, v = VNum n /\ (is_nan n = true \/ is_zero n = true)).
Proof.
  split_all.
  - change (normalize_alert r !! "machine_id")
      with (Some (prop r "Machine" ||| prop r "machine_id" ||| VNull)).
    rewrite <- or_else_null_iff. split; congruence.
  - change (normalize_alert r !! "timestamp")
      with (Some (prop r "Time" ||| prop r "timestamp" ||| VNull)).
    rewrite <- or_else_null_iff. split; congruence.
  - intros H1 H2. rewrite normalize_alert_temperature. cbv zeta.
    now rewrite (or_else_falsy _ _ H1), (or_else_falsy _ _ H2).
  - intros H1 H2.
    change (normalize_alert r !! "Alert")
      with (Some (prop r "Alert" ||| prop r "alert" ||| VStr "Unknown")).
    now rewrite (or_else_falsy _ _ H1), (or_else_falsy _ _ H2).
  - intros H1 H2.
    change (normalize_alert r !! "alert_type")
      with (Some (prop r "Alert" ||| prop r "alert_type" ||| VStr "Unknown")).
    now rewrite (or_else_falsy _ _ H1), (or_else_falsy _ _ H2).
  - intros first Hin Hf. rewrite !normalize_alert_unfold.
    destruct Hin as [<-|[<-|[<-|[<-|[<-|[]]]]]];
      rewrite prop_delete_eq, !prop_delete_ne by discriminate;
      now rewrite !(or_else_falsy _ _ Hf).
  - intros H.
    change (normalize_alert r !! "machine_id")
      with (Some (prop r "Machine" ||| prop r "machine_id" ||| VNull)).
    unfold or_else. now rewrite H, H.
  - intros H1 H2.
    change (normalize_alert r !! "machine_id")
      with (Some (prop r "Machine" ||| prop r "machine_id" ||| VNull)).
    rewrite (or_else_falsy _ _ H1). unfold or_else. now rewrite H2.
  - apply ToBoolean_false.
Qed.

Lemma normalize_alert_falsy_as_absent_witness :
  normalize_alert {[ "Machine" := VNull; "machine_id" := VNum (of_Z 0);
                     "Temp" := VNum (of_Z 0); "Alert" := VStr "" ]}
    !! "machine_id" = Some VNull /\
  normalize_alert {[ "Machine" := VNull; "machine_id" := VNum (of_Z 0);
                     "Temp" := VNum (of_Z 0); "Alert" := VStr "" ]}
    !! "temperature" = Some VNull /\
  normalize_alert {[ "Machine" := VNull; "machine_id" := VNum (of_Z 0);
                     "Temp" := VNum (of_Z 0); "Alert" := VStr "" ]}
    !! "Alert" = Some (VStr "Unknown").
Proof.
  pose proof (normalize_alert_falsy_as_absent
                {[ "Machine" := VNull; "machine_id" := VNum (of_Z 0);
                   "Temp" := VNum (of_Z 0); "Alert" := VStr "" ]})
    as [H1 [_ [H3 [H4 _]]]].
  split_all.
  - apply H1. split; reflexivity.
  - apply H3; reflexivity.
  - apply H4; reflexivity.
Defined.

(** C10, as the specification states it, fails.  A row whose [Machine] is 0
    gets the value under the other name, not [null]; so does a row whose
    [Temp] is 0; and an empty [Alert] gets the label under the other name, not
    [Unknown]. *)
Lemma normalize_alert_zero_not_null :
  (prop {[ "Machine" := VNum (of_Z 0); "machine_id" := VNum (of_Z 7) ]} "Machine" = VNum (of_Z 0) /\
   normalize_alert {[ "Machine" := VNum (of_Z 0); "machine_id" := VNum (of_Z 7) ]}
     !! "machine_id" = Some (VNum (of_Z 7))) /\
  (prop {[ "Time" := VNum (of_Z 0); "timestamp" := VNum (of_Z 5) ]} "Time" = VNum (of_Z 0) /\
   normalize_alert {[ "Time" := VNum (of_Z 0); "timestamp" := VNum (of_Z 5) ]}
     !! "timestamp" = Some (VNum (of_Z 5))) /\
  (prop {[ "Temp" := VNum (of_Z 0); "temperature" := VStr "300K" ]} "Temp" = VNum (of_Z 0) /\
   normalize_alert {[ "Temp" := VNum (of_Z 0); "temperature" := VStr "300K" ]}
     !! "temperature" = Some (VNum (of_Z 300))) /\
  normalize_alert {[ "Alert" := VStr ""; "alert" := VStr "overheating" ]}
    !! "Alert" = Some (VStr "overheating").
Proof. split_all; vm_compute; reflexivity. Qed.

(** ** Statistics *)

Lemma Qltb_lt a b : Qltb a b = true <-> (a < b)%Q.
Proof. unfold Qltb, Qlt. apply Z.ltb_lt. Qed.

Lemma Qltb_ge a b : Qltb a b = false <-> (b <= a)%Q.
Proof. unfold Qltb, Qle. rewrite Z.ltb_ge. reflexivity. Qed.

Lemma Qeqb_eq a b : Qeqb a b = true <-> (a == b)%Q.
Proof. unfold Qeqb, Qeq. apply Z.eqb_eq. Qed.

Lemma Qis_zero_of_nat n : Qis_zero (inject_Z (Z.of_nat n)) = (n =? 0)%nat.
Proof. unfold Qis_zero. simpl. destruct n; reflexivity. Qed.

Lemma num_or_else_of_nat n z :
  num_or_else (of_nat n) (of_Z z) = if (n =? 0)%nat then of_Z z else of_nat n.
Proof.
  unfold num_or_else, num_truthy, of_nat, of_Z. simpl.
  rewrite Qis_zero_of_nat. now destruct (n =? 0)%nat.
Qed.

Lemma filter_throwing_pure {A} (p : A -> completion bool) (q : A -> bool) l :
  Forall (fun a => p a = Normal (q a)) l ->
  filter_throwing p l = Normal (List.filter q l).
Proof.
  induction 1 as [|a l Ha _ IH]; [reflexivity|].
  simpl. rewrite Ha. simpl. rewrite IH. simpl. now destruct (q a).
Qed.

Lemma filter_throwing_normal {A} (p : A -> completion bool) l kept :
  filter_throwing p l = Normal kept -> Forall (fun a => exists b, p a = Normal b) l.
Proof.
  revert kept. induction l as [|a l IH]; intros kept H; [constructor|].
  simpl in H. destruct (p a) as [b|] eqn:Ha; [|discriminate].
  simpl in H. destruct (filter_throwing p l) as [rest|] eqn:Hl; [|discriminate].
  constructor; eauto.
Qed.

Lemma label_includes_ok token a :
  label_ok a -> label_includes token a = Normal (has_token token a).
Proof.
  unfold label_includes, has_token. intros [H|[s H]].
  - rewrite H. destruct (prop a "Alert") as [| | | |s]; try reflexivity.
    destruct s; [reflexivity|discriminate].
  - rewrite H. simpl. now destruct (Str.is_empty s).
Qed.

Lemma label_includes_normal token a b :
  label_includes token a = Normal b -> label_ok a.
Proof.
  unfold label_includes, label_ok.
  destruct (ToBoolean (prop a "Alert")) eqn:Hb; [|now left].
  destruct (prop a "Alert"); try discriminate. right. eauto.
Qed.

Lemma count_alerts_ok token alerts :
  Forall label_ok alerts ->
  count_alerts (label_includes token) alerts
    = Normal (of_nat (List.length (List.filter (has_token token) alerts))).
Proof.
  intros H. unfold count_alerts.
  rewrite (filter_throwing_pure _ (has_token token)); [reflexivity|].
  eapply List.Forall_impl; [|exact H]. intros a. apply label_includes_ok.
Qed.

Lemma count_alerts_normal token alerts c :
  count_alerts (label_includes token) alerts = Normal c -> Forall label_ok alerts.
Proof.
  unfold count_alerts. intros H.
  destruct (filter_throwing _ alerts) as [kept|] eqn:Hk; [|discriminate].
  apply filter_throwing_normal in Hk.
  eapply List.Forall_impl; [|exact Hk]. intros a [b Hb]. eapply label_includes_normal, Hb.
Qed.

(** What [calculateStatistics] leaves in the dashboard when no label makes
    it throw. *)
Lemma calculateStatistics_ok d :
  Forall label_ok (alerts d) ->
  let m := List.length (Set_of (List.map (fun r => prop r "machine_id") (sensorData d))) in
  let r := num_or_else (of_nat (List.length (sensorData d))) (of_Z 10000) in
  let c := of_nat (List.length (List.filter (has_token "CRITICAL") (alerts d))) in
  let w := of_nat (List.length (List.filter (has_token "WARNING") (alerts d))) in
  let n := of_nat (List.length (List.filter (has_token "Normal") (alerts d))) in
  calculateStatistics d =
    ({| machines := num_or_else (of_nat m) (of_Z 100);
        readings := r; critical := c; warnings := w; normal := n;
        health := Num.max (of_Z 0) (of_Z 100 - (c + w) / r * of_Z 100);
        alerts := alerts d; sensorData := sensorData d; insights := insights d |},
     Normal tt).
Proof.
  intros H. cbv zeta. unfold calculateStatistics. simpl.
  rewrite !count_alerts_ok by exact H. reflexivity.
Qed.

Lemma calculateStatistics_normal d d' :
  calculateStatistics d = (d', Normal tt) -> Forall label_ok (alerts d).
Proof.
  unfold calculateStatistics. simpl.
  destruct (count_alerts (label_includes "CRITICAL") (alerts d)) eqn:H; [|discriminate].
  intros _. eapply count_alerts_normal, H.
Qed.

(** ** Substrings *)




Lemma health_shape c w r : (0 < r)%nat ->
  Num.max (of_Z 0) (of_Z 100 - (of_nat c + of_nat w) / of_nat r * of_Z 100) =
  let y := Qred (100 + Qred (- Qred (Qred (Qred (inject_Z (Z.of_nat c) + inject_Z (Z.of_nat w)) / inject_Z (Z.of_nat r)) * 100))) in
  if Qltb 0 y then Fin y else of_Z 0.
Proof.
  intros Hr. unfold of_nat, of_Z, Num.sub, Num.add, Num.div, Num.mul, Num.neg, fin.
  rewrite Qis_zero_of_nat. destruct (Nat.eqb_spec r 0) as [->|_]; [lia|].
  reflexivity.
Qed.

Lemma ratio_bounds c w r : (0 < r)%nat ->
  (0 <= ratio c w r)%Q /\
  ((c + w <= r)%nat -> (ratio c w r <= 1)%Q) /\
  ((r <= c + w)%nat -> (1 <= ratio c w r)%Q) /\
  (c = 0%nat -> w = 0%nat -> (ratio c w r == 0)%Q).
Proof.
  intros Hr. unfold ratio.
  assert (0 < inject_Z (Z.of_nat r))%Q as HR.
  { change 0%Q with (inject_Z 0). rewrite <- Zlt_Qlt. lia. }
  rewrite <- inject_Z_plus.
  split_all.
  - apply Qle_shift_div_l; [exact HR|]. rewrite Qmult_0_l.
    change 0%Q with (inject_Z 0). rewrite <- Zle_Qle. lia.
  - intros H. apply Qle_shift_div_r; [exact HR|]. rewrite Qmult_1_l.
    rewrite <- Zle_Qle. lia.
  - intros H. apply Qle_shift_div_l; [exact HR|]. rewrite Qmult_1_l.
    rewrite <- Zle_Qle. lia.
  - intros -> ->. simpl. unfold Qdiv. now rewrite Qmult_0_l.
Qed.

Lemma health_value c w r : (0 < r)%nat ->
  exists h : Q,
    Num.max (of_Z 0) (of_Z 100 - (of_nat c + of_nat w) / of_nat r * of_Z 100) = Fin h /\
    (0 <= h <= 100)%Q /\
    ((c + w <= r)%nat -> (h == 100 - ratio c w r * 100)%Q) /\
    ((r <= c + w)%nat -> h = 0%Q) /\
    (c = 0%nat -> w = 0%nat -> h = 100%Q).
Proof.
  intros Hr. rewrite health_shape by exact Hr. cbv zeta.
  destruct (ratio_bounds c w r Hr) as (B0 & B1 & B2 & B3).
  set (y := Qred _).
  assert (y == 100 - ratio c w r * 100)%Q as Hy.
  { unfold y, ratio. rewrite !Qred_correct. reflexivity. }
  destruct (Qltb 0 y) eqn:Hlt.
  - apply Qltb_lt in Hlt. exists y. split_all; try reflexivity.
    + lra.
    + lra.
    + intros _. exact Hy.
    + intros H. specialize (B2 H). lra.
    + intros Hc Hw. specialize (B3 Hc Hw).
      assert (y == 100)%Q as Hy' by lra.
      unfold y. unfold y in Hy'. rewrite Qred_correct in Hy'.
      apply Qred_complete in Hy'. exact Hy'.
  - apply Qltb_ge in Hlt. exists 0%Q. split_all; try reflexivity.
    + lra.
    + lra.
    + intros H. specialize (B1 H). lra.
    + intros Hc Hw. specialize (B3 Hc Hw). lra.
Qed.

Lemma Num_eqb_sym x y : Num.eqb x y = Num.eqb y x.
Proof.
  destruct x, y; simpl; try reflexivity. unfold Qeqb. apply Z.eqb_sym.
Qed.

Lemma Num_eqb_trans x y z : Num.eqb x y = true -> Num.eqb y z = true -> Num.eqb x z = true.
Proof.
  destruct x, y, z; simpl; try discriminate; try reflexivity.
  rewrite !Qeqb_eq. intros H1 H2. now rewrite H1.
Qed.

Ltac destruct_numbers :=
  repeat match goal with n : number |- _ => destruct n end.

Lemma same_value_zero_sym a b : same_value_zero a b = same_value_zero b a.
Proof.
  destruct a as [| |x|x|x]; destruct b as [| |y|y|y]; destruct_numbers;
    try reflexivity; simpl.
  - now destruct x, y.
  - unfold Qeqb. apply Z.eqb_sym.
  - apply String.eqb_sym.
Qed.

Lemma same_value_zero_trans a b c :
  same_value_zero a b = true -> same_value_zero b c = true -> same_value_zero a c = true.
Proof.
  destruct a as [| |x|x|x]; destruct b as [| |y|y|y]; destruct c as [| |z|z|z];
    destruct_numbers; try discriminate; try reflexivity; simpl.
  - destruct x, y, z; simpl; congruence.
  - rewrite !Qeqb_eq. intros H1 H2. now rewrite H1.
  - rewrite !String.eqb_eq. congruence.
Qed.

Lemma mem_svz_app v l1 l2 : mem_svz v (l1 ++ l2) = mem_svz v l1 || mem_svz v l2.
Proof.
  induction l1 as [|x l1 IH]; simpl; [reflexivity|]. rewrite IH. apply orb_assoc.
Qed.

Lemma mem_svz_proper u v l :
  same_value_zero u v = true -> mem_svz u l = true -> mem_svz v l = true.
Proof.
  intros Huv. induction l as [|x l IH]; simpl; [discriminate|].
  intros [H|H]%orb_true_iff; apply orb_true_iff; [left|right; auto].
  eapply same_value_zero_trans; eauto.
Qed.

Lemma distinct_snoc acc v :
  distinct acc = true -> mem_svz v acc = false -> distinct (acc ++ [v]) = true.
Proof.
  induction acc as [|x acc IH]; simpl; [reflexivity|].
  intros [Hx Hd]%andb_true_iff [Hv Hm]%orb_false_iff.
  apply andb_true_iff. split; [|auto].
  rewrite mem_svz_app. simpl. rewrite orb_false_r.
  apply negb_true_iff in Hx. rewrite Hx. simpl.
  rewrite same_value_zero_sym, Hv. reflexivity.
Qed.

Lemma Set_fold_spec l acc :
  distinct acc = true ->
  let s := fold_left (fun acc v => if mem_svz v acc then acc else (acc ++ [v])%list) l acc in
  distinct s = true /\ forall v, mem_svz v s = mem_svz v acc || mem_svz v l.
Proof.
  revert acc. induction l as [|x l IH]; intros acc Hd; simpl.
  - split; [exact Hd|]. intros v. now rewrite orb_false_r.
  - destruct (mem_svz x acc) eqn:Hx.
    + destruct (IH acc Hd) as [H1 H2]. split; [exact H1|].
      intros v. rewrite H2.
      destruct (mem_svz v acc) eqn:Hv; [reflexivity|]. simpl.
      destruct (same_value_zero x v) eqn:Hxv; [|reflexivity]. simpl.
      pose proof (mem_svz_proper x v acc Hxv Hx). congruence.
    + destruct (IH (acc ++ [x])%list (distinct_snoc _ _ Hd Hx)) as [H1 H2].
      split; [exact H1|]. intros v. rewrite H2, mem_svz_app. simpl.
      rewrite orb_false_r. now rewrite orb_assoc.
Qed.

Lemma Set_of_spec l :
  distinct (Set_of l) = true /\ forall v, mem_svz v (Set_of l) = mem_svz v l.
Proof. exact (Set_fold_spec l [] eq_refl). Qed.

(** The number of readings the health formula divides by is positive. *)
Lemma readings_positive n :
  exists r, num_or_else (of_nat n) (of_Z 10000) = of_nat r /\ (0 < r)%nat.
Proof.
  exists (if (n =? 0)%nat then Z.to_nat 10000 else n).
  rewrite num_or_else_of_nat.
  destruct (Nat.eqb_spec n 0); split; try reflexivity; lia.
Qed.

(** C4.  When every alert label can be classified, [calculateStatistics]
    completes.  With [c] the number of alerts whose label holds [CRITICAL],
    [w] the number of those whose label holds [WARNING] and [r] the number of
    readings, or 10000 when there is none, it leaves
    [health = max(0, 100 - (c + w) / r * 100)]: a number between 0 and 100,
    which is [100 - (c + w) / r * 100] when [c + w <= r], 0 when
    [c + w >= r], and 100 when there are no critical and no warning
    alerts. *)
Theorem calculateStatistics_health (d : DashboardData) :
  Forall label_ok (alerts d) ->
  let c := List.length (List.filter (has_token "CRITICAL") (alerts d)) in
  let w := List.length (List.filter (has_token "WARNING") (alerts d)) in
  let r := if (List.length (sensorData d) =? 0)%nat then Z.to_nat 10000
           else List.length (sensorData d) in
  exists (d' : DashboardData) (h : Q),
    calculateStatistics d = (d', Normal tt) /\
    critical d' = of_nat c /\ warnings d' = of_nat w /\ readings d' = of_nat r /\
    (0 < r)%nat /\
    health d' = Num.max (of_Z 0) (of_Z 100 - (of_nat c + of_nat w) / of_nat r * of_Z 100) /\
    health d' = Fin h /\
    (0 <= h <= 100)%Q /\
    ((c + w <= r)%nat -> (h == 100 - ratio c w r * 100)%Q) /\
    ((r <= c + w)%nat -> health d' = of_Z 0) /\
    (c = 0%nat -> w = 0%nat -> health d' = of_Z 100).
Proof.
  intros H. cbv zeta. rewrite (calculateStatistics_ok d H). cbv zeta.
  set (c := List.length (List.filter (has_token "CRITICAL") (alerts d))).
  set (w := List.length (List.filter (has_token "WARNING") (alerts d))).
  set (r := if (List.length (sensorData d) =? 0)%nat then Z.to_nat 10000
            else List.length (sensorData d)).
  assert (num_or_else (of_nat (List.length (sensorData d))) (of_Z 10000) = of_nat r) as ->.
  { rewrite num_or_else_of_nat. unfold r. now destruct (List.length (sensorData d) =? 0)%nat. }
  assert (0 < r)%nat as Hpos.
  { unfold r. destruct (Nat.eqb_spec (List.length (sensorData d)) 0); lia. }
  destruct (health_value c w r Hpos) as (h & Hh & Hb & H1 & H2 & H3).
  eexists _, h. split; [reflexivity|].
  cbn [critical warnings readings health].
  split_all; auto; try apply Hb.
  - intros Hge. rewrite Hh, (H2 Hge). reflexivity.
  - intros Hc Hw. rewrite Hh, (H3 Hc Hw). reflexivity.
Qed.

Lemma calculateStatistics_health_witness :
  exists d' h,
    calculateStatistics
      (set_alerts [example_alert]
         (set_sensorData [example_reading; example_reading; example_reading; example_reading]
            initial_dashboard))
      = (d', Normal tt) /\
    critical d' = of_Z 1 /\ warnings d' = of_Z 0 /\ readings d' = of_Z 4 /\
    health d' = Fin h /\ (h == 75)%Q.
Proof.
  assert (Forall label_ok [example_alert]) as Hok
    by (constructor; [right; eexists; reflexivity | constructor]).
  pose proof (calculateStatistics_health
                (set_alerts [example_alert]
                   (set_sensorData [example_reading; example_reading; example_reading;
                                    example_reading] initial_dashboard)) Hok) as P.
  cbv zeta in P. cbn [alerts sensorData set_alerts set_sensorData] in P.
  destruct P as (d' & h & E & Hc & Hw & Hr & _ & _ & Hh & _ & Hrat & _).
  exists d', h. split; [exact E|].
  split_all.
  - rewrite Hc. vm_compute. reflexivity.
  - rewrite Hw. vm_compute. reflexivity.
  - rewrite Hr. vm_compute. reflexivity.
  - exact Hh.
  - rewrite Hrat; [vm_compute; reflexivity|]. vm_compute. lia.
Defined.

(** C5.  [calculateStatistics] sets [machines] to the number of distinct
    [machine_id] values of the readings, or 100 when there is none, and
    [readings] to the number of readings, or 10000 when there is none; this
    holds however the call ends.  So the divisor of the health formula is never
    0 and the health that is computed is never [NaN]. *)
Theorem calculateStatistics_counts (d : DashboardData) :
  let d' := fst (calculateStatistics d) in
  let ids := List.map (fun r => prop r "machine_id") (sensorData d) in
  let n := List.length (sensorData d) in
  distinct (Set_of ids) = true /\
  (forall v, mem_svz v (Set_of ids) = mem_svz v ids) /\
  machines d' =
    (if (List.length (Set_of ids) =? 0)%nat then of_Z 100
     else of_nat (List.length (Set_of ids))) /\
  readings d' = (if (n =? 0)%nat then of_Z 10000 else of_nat n) /\
  is_zero (readings d') = false /\
  Num.ltb (of_Z 0) (readings d') = true /\
  (snd (calculateStatistics d) = Normal tt -> is_nan (health d') = false).
Proof.
  cbv zeta.
  assert (machines (fst (calculateStatistics d)) =
            num_or_else
              (of_nat (List.length
                 (Set_of (List.map (fun r => prop r "machine_id") (sensorData d)))))
              (of_Z 100) /\
          readings (fst (calculateStatistics d)) =
            num_or_else (of_nat (List.length (sensorData d))) (of_Z 10000)) as [Hm Hr].
  { unfold calculateStatistics. simpl.
    destruct (count_alerts (label_includes "CRITICAL") (alerts d)); [|now split].
    destruct (count_alerts (label_includes "WARNING") (alerts d)); [|now split].
    destruct (count_alerts (label_includes "Normal") (alerts d)); now split. }
  rewrite Hm, Hr, !num_or_else_of_nat.
  destruct (Set_of_spec (List.map (fun r => prop r "machine_id") (sensorData d))) as [Hd Hmem].
  split_all; auto.
  - destruct (Nat.eqb_spec (List.length (sensorData d)) 0) as [|Hn]; [reflexivity|].
    unfold of_nat, of_Z, is_zero. rewrite Qis_zero_of_nat.
    now apply Nat.eqb_neq.
  - destruct (Nat.eqb_spec (List.length (sensorData d)) 0) as [|Hn]; [reflexivity|].
    unfold of_nat, of_Z, Num.ltb. apply Qltb_lt.
    change 0%Q with (inject_Z 0). rewrite <- Zlt_Qlt. lia.
  - intros Hs.
    assert (Forall label_ok (alerts d)) as Hok.
    { apply (calculateStatistics_normal d (fst (calculateStatistics d))).
      rewrite <- Hs. now destruct (calculateStatistics d). }
    rewrite (calculateStatistics_ok d Hok). cbv zeta. cbn [fst health].
    destruct (readings_positive (List.length (sensorData d))) as (r & -> & Hpos).
    now destruct (health_value
                    (List.length (List.filter (has_token "CRITICAL") (alerts d)))
                    (List.length (List.filter (has_token "WARNING") (alerts d)))
                    r Hpos) as (h & -> & _).
Qed.



(** ** Arithmetic on finite numbers *)

Lemma add_Fin a b : exists q, (Fin a + Fin b)%num = Fin q /\ (q == a + b)%Q.
Proof. eexists. split; [reflexivity|]. apply Qred_correct. Qed.

Lemma sub_Fin a b : exists q, (Fin a - Fin b)%num = Fin q /\ (q == a - b)%Q.
Proof.
  eexists. split; [reflexivity|]. rewrite !Qred_correct. reflexivity.
Qed.

Lemma mul_Fin a b : exists q, (Fin a * Fin b)%num = Fin q /\ (q == a * b)%Q.
Proof. eexists. split; [reflexivity|]. apply Qred_correct. Qed.

Lemma Qis_zero_false q : Qis_zero q = false <-> ~ (q == 0)%Q.
Proof.
  unfold Qis_zero, Qeq. simpl. rewrite Z.mul_1_r, Z.eqb_neq. reflexivity.
Qed.

Lemma div_Fin a b :
  Qis_zero b = false -> exists q, (Fin a / Fin b)%num = Fin q /\ (q == a / b)%Q.
Proof.
  intros H. eexists. unfold Num.div. rewrite H. split; [reflexivity|]. apply Qred_correct.
Qed.

Lemma abs_Fin a : exists q, Num.abs (Fin a) = Fin q /\ (q == Qabs a)%Q.
Proof. eexists. split; [reflexivity|]. apply Qred_correct. Qed.

Lemma max_Fin a b : exists q, Num.max (Fin a) (Fin b) = Fin q /\ (a <= q)%Q /\ (b <= q)%Q /\ (q == a \/ q == b)%Q.
Proof.
  unfold Num.max, Num.ltb. destruct (Qltb a b) eqn:H.
  - apply Qltb_lt in H. exists b. split_all; try reflexivity; [lra|lra|now right].
  - apply Qltb_ge in H. exists a. split_all; try reflexivity; [lra|lra|now left].
Qed.

Lemma min_Fin a b : exists q, Num.min (Fin a) (Fin b) = Fin q /\ (q <= a)%Q /\ (q <= b)%Q /\ (q == a \/ q == b)%Q.
Proof.
  unfold Num.min, Num.ltb. destruct (Qltb b a) eqn:H.
  - apply Qltb_lt in H. exists b. split_all; try reflexivity; [lra|lra|now right].
  - apply Qltb_ge in H. exists a. split_all; try reflexivity; [lra|lra|now left].
Qed.

Lemma round_Fin a : (0 <= a)%Q -> exists z, Num.round (Fin a) = Fin (inject_Z z) /\ (0 <= z)%Z.
Proof.
  intros H. exists (Qfloor (a + (1 # 2))). split; [reflexivity|].
  change 0%Z with (Qfloor 0). apply Qfloor_resp_le. lra.
Qed.

Lemma min_upper y : Num.min (of_Z 100) y = NaN \/ Num.le (Num.min (of_Z 100) y) (of_Z 100).
Proof.
  destruct y as [| | |q]; simpl; auto; right.
  - apply Qle_refl.
  - unfold Num.min, Num.ltb, of_Z. destruct (Qltb q (inject_Z 100)) eqn:H; simpl.
    + apply Qltb_lt in H. lra.
    + lra.
Qed.

Lemma deviation_nonneg last ql qa :
  ToNumber last = Fin ql -> (0 <= qa)%Q ->
  exists dq, deviation_pct last (Fin qa) = Fin dq /\ (0 <= dq)%Q.
Proof.
  intros Hl Ha. unfold deviation_pct, num_truthy. simpl.
  destruct (Qis_zero qa) eqn:Hz; simpl.
  - exists 0%Q. split; [reflexivity|lra].
  - rewrite Hl.
    destruct (sub_Fin ql qa) as (s & -> & Hs).
    destruct (abs_Fin s) as (t & -> & Ht).
    destruct (div_Fin t qa Hz) as (u & -> & Hu).
    destruct (mul_Fin u (inject_Z 100)) as (v & Hv & Hv'). unfold of_Z. rewrite Hv.
    exists v. split; [reflexivity|].
    apply Qis_zero_false in Hz.
    assert (0 < qa)%Q as Hpos by (destruct (Qlt_le_dec 0 qa); [assumption|exfalso; apply Hz; lra]).
    assert (0 <= t)%Q by (rewrite Ht; apply Qabs_nonneg).
    assert (0 <= u)%Q.
    { rewrite Hu. apply Qle_shift_div_l; [exact Hpos|]. lra. }
    rewrite Hv'. change (inject_Z 100) with 100%Q. lra.
Qed.

(** ** Per-machine scores *)

Lemma filter_throwing_eq {A} (p : A -> completion bool) (q : A -> bool) l kept :
  (forall a b, p a = Normal b -> b = q a) ->
  filter_throwing p l = Normal kept -> kept = List.filter q l.
Proof.
  intros Hpq. revert kept. induction l as [|a l IH]; intros kept H; simpl in *.
  - now injection H as <-.
  - destruct (p a) as [b|] eqn:Ha; [|discriminate]. simpl in H.
    destruct (filter_throwing p l) as [rest|]; [|discriminate]. simpl in H.
    injection H as <-. rewrite <- (Hpq a b Ha), (IH rest eq_refl). reflexivity.
Qed.

Lemma machine_alert_value token id a b :
  machine_alert token id a = Normal b -> b = machine_has token id a.
Proof.
  unfold machine_alert, machine_has. destruct (of_machine id a); simpl.
  - intros H. pose proof (label_includes_normal _ _ _ H) as Hok.
    rewrite (label_includes_ok _ _ Hok) in H. now injection H.
  - now intros [= <-].
Qed.

Lemma count_machine_alerts token id alerts c :
  count_alerts (machine_alert token id) alerts = Normal c ->
  c = of_nat (List.length (List.filter (machine_has token id) alerts)).
Proof.
  unfold count_alerts. intros H.
  destruct (filter_throwing _ alerts) as [kept|] eqn:Hk; [|discriminate].
  simpl in H. injection H as <-.
  now rewrite (filter_throwing_eq _ (machine_has token id) _ _ (machine_alert_value token id) Hk).
Qed.

Lemma score_machine_inv alerts id machine machine' :
  score_machine alerts id machine = Normal machine' ->
  let c := of_nat (List.length (List.filter (machine_has "CRITICAL" id) alerts)) in
  let w := of_nat (List.length (List.filter (machine_has "WARNING" id) alerts)) in
  Machine.avgTemp machine' = (Machine.avgTemp machine / Machine.readings machine)%num /\
  Machine.avgVibration machine' = (Machine.avgVibration machine / Machine.readings machine)%num /\
  Machine.lastTemp machine' = Machine.lastTemp machine /\
  Machine.lastVibration machine' = Machine.lastVibration machine /\
  Machine.status machine' =
    (if Num.gtb c (of_Z 0) then "critical" else if Num.gtb w (of_Z 0) then "warning" else "normal") /\
  Machine.healthScore machine' =
    Num.max (of_Z 0)
      (of_Z 100 - (deviation_pct (Machine.lastTemp machine') (Machine.avgTemp machine')
                   + deviation_pct (Machine.lastVibration machine') (Machine.avgVibration machine'))) /\
  Machine.riskScore machine' =
    Num.min (of_Z 100)
      (Num.round ((of_Z 100 - Machine.healthScore machine') + c * of_Z 5 + w * of_Z 2)).
Proof.
  unfold score_machine. intros H.
  destruct (count_alerts (machine_alert "CRITICAL" id) alerts) as [c|] eqn:Hc; [|discriminate].
  destruct (count_alerts (machine_alert "WARNING" id) alerts) as [w|] eqn:Hw; [|discriminate].
  apply count_machine_alerts in Hc, Hw. subst c w.
  simpl in H. injection H as <-. cbv zeta. split_all; reflexivity.
Qed.

Lemma score_machines_In alerts machineMap result id machine' :
  score_machines alerts machineMap = Normal result ->
  List.In (id, machine') result ->
  exists machine, List.In (id, machine) machineMap /\
                  score_machine alerts id machine = Normal machine'.
Proof.
  revert result. induction machineMap as [|[k m] rest IH]; intros result H Hin; simpl in H.
  - injection H as <-. destruct Hin.
  - destruct (score_machine alerts k m) as [m'|] eqn:Hm; [|discriminate]. simpl in H.
    destruct (score_machines alerts rest) as [rest'|]; [|discriminate]. simpl in H.
    injection H as <-. destruct Hin as [[= <- <-]|Hin].
    + exists m. split; [now left|exact Hm].
    + destruct (IH rest' eq_refl Hin) as (m0 & H1 & H2). exists m0. split; [now right|exact H2].
Qed.

Lemma of_nat_mul_nonneg n z : (0 <= z)%Z ->
  exists q, (Fin (inject_Z (Z.of_nat n)) * Fin (inject_Z z))%num = Fin q /\ (0 <= q)%Q.
Proof.
  intros Hz. destruct (mul_Fin (inject_Z (Z.of_nat n)) (inject_Z z)) as (q & Hq & Hq').
  exists q. split; [exact Hq|]. rewrite Hq', <- inject_Z_mult.
  change 0%Q with (inject_Z 0). rewrite <- Zle_Qle. lia.
Qed.

Lemma scores_in_range d1 d2 n1 n2 :
  (0 <= d1)%Q -> (0 <= d2)%Q ->
  let health := Num.max (of_Z 0) (of_Z 100 - (Fin d1 + Fin d2)) in
  let risk := Num.min (of_Z 100)
                (Num.round ((of_Z 100 - health) + of_nat n1 * of_Z 5 + of_nat n2 * of_Z 2)) in
  Num.le (of_Z 0) health /\ Num.le health (of_Z 100) /\
  Num.le (of_Z 0) risk /\ Num.le risk (of_Z 100).
Proof.
  intros H1 H2. cbv zeta. unfold of_nat, of_Z.
  destruct (add_Fin d1 d2) as (s & -> & Hs).
  destruct (sub_Fin (inject_Z 100) s) as (t & -> & Ht').
  destruct (max_Fin (inject_Z 0) t) as (h & -> & Hh1 & Hh2 & Hh3).
  assert (0 <= h <= 100)%Q as Hb.
  { change (inject_Z 0) with 0%Q in *. change (inject_Z 100) with 100%Q in *.
    destruct Hh3; lra. }
  destruct (sub_Fin (inject_Z 100) h) as (x & -> & Hx').
  destruct (of_nat_mul_nonneg n1 5 ltac:(lia)) as (a & -> & Ha).
  destruct (of_nat_mul_nonneg n2 2 ltac:(lia)) as (b & -> & Hb2).
  destruct (add_Fin x a) as (y & -> & Hy).
  destruct (add_Fin y b) as (z & -> & Hz).
  change (inject_Z 100) with 100%Q in *.
  assert (0 <= z)%Q as Hz0 by lra.
  destruct (round_Fin z Hz0) as (k & -> & Hk).
  destruct (min_Fin 100 (inject_Z k)) as (r & -> & Hr1 & Hr2 & Hr3).
  simpl.
  change (inject_Z 0) with 0%Q.
  assert (0 <= inject_Z k)%Q by (change 0%Q with (inject_Z 0); now rewrite <- Zle_Qle).
  split_all; lra.
Qed.

(** C6, as amended.  For every machine of the map [showMachinesPage]
    builds: [healthScore = max(0, 100 - (tdev + vdev))], where a deviation is
    [|last - avg| / avg * 100], or 0 when the average is zero (or [NaN]);
    [riskScore = min(100, round((100 - healthScore) + 5 * critical + 2 *
    warning))] with the numbers of the machine's critical and warning alerts.
    The risk score never exceeds 100, whatever the number of alerts; when the
    machine's averages are finite and not negative and its last readings are
    finite, both scores lie between 0 and 100. *)
Theorem showMachinesPage_scores (d : DashboardData) machineMap id machine :
  showMachinesPage d = Normal machineMap ->
  List.In (id, machine) machineMap ->
  let c := of_nat (List.length (List.filter (machine_has "CRITICAL" id) (alerts d))) in
  let w := of_nat (List.length (List.filter (machine_has "WARNING" id) (alerts d))) in
  Machine.healthScore machine =
    Num.max (of_Z 0)
      (of_Z 100 - (deviation_pct (Machine.lastTemp machine) (Machine.avgTemp machine)
                   + deviation_pct (Machine.lastVibration machine)
                       (Machine.avgVibration machine))) /\
  Machine.riskScore machine =
    Num.min (of_Z 100)
      (Num.round ((of_Z 100 - Machine.healthScore machine) + c * of_Z 5 + w * of_Z 2)) /\
  (Machine.riskScore machine = NaN \/ Num.le (Machine.riskScore machine) (of_Z 100)) /\
  (forall avgT avgV lastT lastV,
     Machine.avgTemp machine = Fin avgT -> (0 <= avgT)%Q ->
     Machine.avgVibration machine = Fin avgV -> (0 <= avgV)%Q ->
     ToNumber (Machine.lastTemp machine) = Fin lastT ->
     ToNumber (Machine.lastVibration machine) = Fin lastV ->
     Num.le (of_Z 0) (Machine.healthScore machine) /\
     Num.le (Machine.healthScore machine) (of_Z 100) /\
     Num.le (of_Z 0) (Machine.riskScore machine) /\
     Num.le (Machine.riskScore machine) (of_Z 100)).
Proof.
  unfold showMachinesPage. intros Hd Hin.
  destruct (score_machines_In _ _ _ _ _ Hd Hin) as (m0 & _ & Hm).
  destruct (score_machine_inv _ _ _ _ Hm) as (_ & _ & _ & _ & _ & Hh & Hr).
  cbv zeta in *. split_all.
  - exact Hh.
  - exact Hr.
  - rewrite Hr. apply min_upper.
  - intros avgT avgV lastT lastV HaT HT HaV HV HlT HlV.
    rewrite Hr, Hh, HaT, HaV.
    destruct (deviation_nonneg _ _ _ HlT HT) as (d1 & -> & Hd1).
    destruct (deviation_nonneg _ _ _ HlV HV) as (d2 & -> & Hd2).
    apply scores_in_range; assumption.
Qed.

Lemma showMachinesPage_scores_witness :
  exists machine,
    showMachinesPage (set_alerts [example_alert] (set_sensorData [example_reading] initial_dashboard))
      = Normal [(VNum (of_Z 1), machine)] /\
    Num.le (of_Z 0) (Machine.riskScore machine) /\
    Num.le (Machine.riskScore machine) (of_Z 100).
Proof.
  eexists. split; [vm_compute; reflexivity|].
  match goal with
  | |- Num.le _ (Machine.riskScore ?m) /\ _ =>
      pose proof (showMachinesPage_scores
                    (set_alerts [example_alert] (set_sensorData [example_reading] initial_dashboard))
                    [(VNum (of_Z 1), m)] (VNum (of_Z 1)) m) as H
  end.
  destruct H as (_ & _ & _ & H).
  - vm_compute. reflexivity.
  - left. reflexivity.
  - destruct (H 330%Q 2100%Q 330%Q 2100%Q) as (_ & _ & H3 & H4);
      try reflexivity; try (unfold Qle; simpl; lia).
    split; assumption.
Defined.

(** C6, as the specification states it, fails: the risk score is clamped
    from above only.  Two readings of -1 and -3 give machine 1 an average
    temperature of -2, a deviation of -50 percent, a health score of 150 and a
    risk score of -50. *)
Lemma riskScore_below_zero :
  exists d machine,
    loadDashboardData Date.strict_host (fun _ => 0%Q) (JsonArray cold_readings) (JsonArray [])
      initial_dashboard 0 = (Some (d, Normal tt), 0%nat) /\
    showMachinesPage d = Normal [(VNum (of_Z 1), machine)] /\
    Machine.healthScore machine = of_Z 150 /\
    Machine.riskScore machine = of_Z (-50) /\
    ~ Num.le (of_Z 0) (Machine.riskScore machine).
Proof.
  eexists. eexists. split_all.
  - vm_compute. reflexivity.
  - vm_compute. reflexivity.
  - reflexivity.
  - reflexivity.
  - simpl. unfold Qle. simpl. lia.
Qed.

(** ** Mock data *)

Lemma push_rows_spec (body : nat -> Rand row) count first data k :
  let rows := fst (push_rows body count first data k) in
  List.length rows = (List.length data + count)%nat /\
  (forall r, List.In r data -> List.In r rows) /\
  (forall r, List.In r rows ->
     List.In r data \/ exists i k', (first <= i < first + count)%nat /\ r = fst (body i k')).
Proof.
  revert first data k.
  induction count as [|count IH]; intros first data k; simpl.
  - split_all; auto; lia.
  - destruct (body first k) as [r0 k0] eqn:Hb.
    destruct (IH (S first) (data ++ [r0])%list k0) as (H1 & H2 & H3).
    split_all.
    + rewrite H1, length_app. simpl. lia.
    + intros r Hr. apply H2, in_or_app. now left.
    + intros r Hr. destruct (H3 r Hr) as [Hin|(i & k' & Hi & ->)].
      * apply in_app_or in Hin. destruct Hin as [Hin|[<-|[]]]; [now left|].
        right. exists first, k. rewrite Hb. split; [lia|reflexivity].
      * right. exists i, k'. split; [lia|reflexivity].
Qed.

Lemma push_rows_first (body : nat -> Rand row) count first data k :
  List.In (fst (body first k)) (fst (push_rows body (S count) first data k)).
Proof.
  simpl. destruct (body first k) as [r0 k0].
  apply push_rows_spec, in_or_app. right. now left.
Qed.

Lemma mock_sensor_row_fields random i k key :
  List.In key sensor_fields -> finite_field (fst (mock_sensor_row random i k)) key.
Proof.
  intros [<-|[<-|[<-|[<-|[]]]]]; eexists; reflexivity.
Qed.

Lemma mock_alert_row_shape random i k : mock_alert_shape (fst (mock_alert_row random i k)).
Proof.
  unfold mock_alert_row, Math_random.
  destruct (Num.gtb _ _);
    [|destruct (Num.gtb _ _); [|destruct (Num.gtb _ _)]];
    (unfold mock_alert_shape, finite_field; cbn [fst];
     split_all; try reflexivity; try (eexists; reflexivity);
     eexists; (split; [reflexivity|]); simpl; tauto).
Qed.

Lemma or_else_truthy a b : ToBoolean b = true -> ToBoolean (a ||| b) = true.
Proof. unfold or_else. intros H. now destruct (ToBoolean a) eqn:Ha. Qed.

(** Every alert row the normaliser returns has the six fields, a
    temperature that is [null] or a number other than [NaN], a vibration that
    is [null] or a number, and labels that count as true. *)
Lemma normalize_alert_shape (r : row) : normalized_alert_shape (normalize_alert r).
Proof.
  unfold normalized_alert_shape, number_field. split_all.
  - eexists. reflexivity.
  - eexists. reflexivity.
  - rewrite normalize_alert_temperature. cbv zeta.
    set (text := Str.trim _).
    destruct (Str.is_empty text || is_nan (Lex.parseFloat text)) eqn:E; [now left|].
    right. exists (Lex.parseFloat text). split; [reflexivity|].
    apply orb_false_iff in E. tauto.
  - change (normalize_alert r !! "vibration") with
      (Some (let vib := prop r "Vibration" ||| prop r "vibration" in
             if negb (strict_eq vib VNull) && negb (strict_eq vib VUndefined) && negb (isNaN vib)
             then VNum (parseFloat vib) else VNull)).
    cbv zeta. destruct (_ && _); [right; eauto|now left].
  - eexists. split; [reflexivity|]. apply or_else_truthy. reflexivity.
  - eexists. split; [reflexivity|]. apply or_else_truthy. reflexivity.
Qed.

(** C9, as amended.  The mock generator takes no count: it returns exactly
    1000 rows for a file name that holds [sensor_data], exactly 1000 rows for
    any other file name that holds [alerts], and none otherwise, and [loadCSV]
    hands these rows on as they are when the request gives no usable answer.
    A mock sensor row has the four fields of a normalised one, each a finite
    number.  A mock alert row has the fields of a raw alert row, not of a
    normalised one: finite numbers [Machine] and [Time], strings [Temp],
    [Vibration], [Avg_Temp] and [Temp_Dev], and one of the four labels as
    [Alert]. *)
Theorem generateMockData_rows (host : string -> option Z) (random : nat -> Q) filepath k :
  let rows := fst (generateMockData random filepath k) in
  (Str.includes "sensor_data" filepath = true ->
     List.length rows = 1000%nat /\
     forall r, List.In r rows ->
       forall key, List.In key sensor_fields -> finite_field r key) /\
  (Str.includes "sensor_data" filepath = false -> Str.includes "alerts" filepath = true ->
     List.length rows = 1000%nat /\
     forall r, List.In r rows -> mock_alert_shape r) /\
  (Str.includes "sensor_data" filepath = false -> Str.includes "alerts" filepath = false ->
     rows = []) /\
  fst (loadCSV host random filepath Failed k) = Some rows /\
  fst (loadCSV host random filepath JsonOther k) = Some rows.
Proof.
  cbv zeta. unfold loadCSV, generateMockData. split_all.
  - intros ->.
    destruct (push_rows_spec (mock_sensor_row random) 1000 1 [] k) as (H1 & _ & H3).
    split; [exact H1|]. intros r Hr key Hkey.
    destruct (H3 r Hr) as [[]|(i & k' & _ & ->)].
    apply mock_sensor_row_fields. exact Hkey.
  - intros -> ->.
    destruct (push_rows_spec (mock_alert_row random) 1000 1 [] k) as (H1 & _ & H3).
    split; [exact H1|]. intros r Hr.
    destruct (H3 r Hr) as [[]|(i & k' & _ & ->)]. apply mock_alert_row_shape.
  - intros -> ->. reflexivity.
  - now destruct (if Str.includes "sensor_data" filepath then _ else _).
  - now destruct (if Str.includes "sensor_data" filepath then _ else _).
Qed.

Lemma generateMockData_rows_witness :
  List.length (fst (generateMockData (fun _ => 0%Q) "sensor_data" 0)) = 1000%nat /\
  List.length (fst (generateMockData (fun _ => 0%Q) "alerts" 0)) = 1000%nat.
Proof.
  split.
  - exact (proj1 (proj1 (generateMockData_rows Date.strict_host (fun _ => 0%Q)
                           "sensor_data" 0%nat) eq_refl)).
  - exact (proj1 (proj1 (proj2 (generateMockData_rows Date.strict_host (fun _ => 0%Q)
                                  "alerts" 0%nat)) eq_refl eq_refl)).
Defined.

(** C9, as the specification states it, fails for the alerts: a mock alert
    row does not have the fields of a normalised alert row.  It has no
    [machine_id] (nor [temperature]); its temperature is the string [Temp]. *)
Lemma mock_alert_not_normalized :
  exists r,
    List.In r (fst (generateMockData (fun _ => 0%Q) "alerts" 0)) /\
    r !! "Temp" = Some (VStr "295.0K") /\
    ~ normalized_alert_shape r.
Proof.
  exists (fst (mock_alert_row (fun _ => 0%Q) 1 0)). split_all.
  - change (generateMockData (fun _ => 0%Q) "alerts")
      with (push_rows (mock_alert_row (fun _ => 0%Q)) 1000 1 []).
    apply push_rows_first.
  - vm_compute. reflexivity.
  - intros ([v Hv] & _). vm_compute in Hv. discriminate Hv.
Qed.

(** ** Normalising twice *)

Lemma Qred_zero q : Qis_zero (Qred q) = true -> Qred q = 0%Q.
Proof.
  intros H.
  rewrite <- (Qred_complete _ _ (Qred_correct q)).
  change 0%Q with (Qred 0). apply Qred_complete.
  unfold Qis_zero in H. apply Z.eqb_eq in H.
  unfold Qeq. simpl. rewrite H. reflexivity.
Qed.

Lemma num_or_else_fin q : num_or_else (fin q) (of_Z 0) = fin q.
Proof.
  unfold num_or_else, num_truthy, fin. simpl.
  destruct (Qis_zero (Qred q)) eqn:H; [|reflexivity].
  simpl. now rewrite (Qred_zero q H).
Qed.

Lemma num_or_else_of_Z z : num_or_else (of_Z z) (of_Z 0) = of_Z z.
Proof.
  unfold num_or_else, num_truthy, of_Z. simpl. unfold Qis_zero. simpl.
  destruct (Z.eqb_spec z 0) as [->|]; reflexivity.
Qed.

Lemma parseInt_cases s :
  Lex.parseInt s = NaN \/ Lex.parseInt s = PosInf \/ Lex.parseInt s = NegInf \/
  exists z, Lex.parseInt s = of_Z z.
Proof.
  unfold Lex.parseInt.
  generalize (Str.trimStart s) as s0. intros s0.
  destruct (match s0 with
            | String "+" r => (false, r)
            | String "-" r => (true, r)
            | _ => (false, s0)
            end) as [negative s1].
  destruct (match s1 with
            | String "0" (String c r) =>
                if ((Lex.code c =? 120) || (Lex.code c =? 88))%Z then (16%Z, r) else (10%Z, s1)
            | _ => (10%Z, s1)
            end) as [radix s2].
  destruct (Lex.digits radix s2) as [ds rest].
  destruct (Lex.is_nil ds); [now left|]. cbv zeta.
  destruct (binary64_overflow <=? Lex.value radix ds)%Z.
  - destruct negative; auto.
  - right; right; right. eauto.
Qed.

Lemma parseFloat_cases s :
  Lex.parseFloat s = NaN \/ Lex.parseFloat s = PosInf \/ Lex.parseFloat s = NegInf \/
  exists q, Lex.parseFloat s = fin q.
Proof.
  unfold Lex.parseFloat, Lex.decimal_literal.
  destruct (Str.trimStart s) as [|c s0].
  - destruct (Str.strip_prefix "Infinity" ""); [now right; left|].
    destruct (Lex.unsigned_decimal "") as [[q r]|]; [|now left].
    right; right; right. eauto.
  - match goal with
    | |- context [let '(_, _) := ?e in _] => destruct e as [negative s1]
    end.
    destruct (Str.strip_prefix "Infinity" s1).
    + destruct negative; simpl; auto.
    + destruct (Lex.unsigned_decimal s1) as [[q r]|]; [|now left].
      right; right; right. eauto.
Qed.

Lemma normalize_sensor_record host m t v ts :
  normalize_sensor host (sensor_record m t v ts) =
  sensor_record (num_or_else (parseInt (VNum m)) (of_Z 0))
                (num_or_else (parseFloat (VNum t)) (of_Z 0))
                (num_or_else (parseFloat (VNum v)) (of_Z 0))
                (normalizeTimestamp host (VNum ts)).
Proof. reflexivity. Qed.

Lemma normalize_alert_record M T th V A A' :
  normalize_alert (alert_record M T th V A A') =
  alert_record (VUndefined ||| M ||| VNull) (VUndefined ||| T ||| VNull)
    (let tempStr := Str.trim (Str.replace "K" "" (ToString (VUndefined ||| th ||| VStr ""))) in
     let temp := if negb (Str.is_empty tempStr) then VNum (Lex.parseFloat tempStr) else VNull in
     if negb (strict_eq temp VNull) && negb (isNaN temp) then temp else VNull)
    (let vib := VUndefined ||| V in
     if negb (strict_eq vib VNull) && negb (strict_eq vib VUndefined) && negb (isNaN vib)
       then VNum (parseFloat vib) else VNull)
    (A ||| VUndefined ||| VStr "Unknown") (A ||| A' ||| VStr "Unknown").
Proof. reflexivity. Qed.

Lemma or_else_null_or_truthy v : v = VNull \/ ToBoolean v = true -> VUndefined ||| v ||| VNull = v.
Proof.
  unfold or_else. simpl. intros [->|H]; [reflexivity|]. now rewrite H.
Qed.

Lemma or_else_null_shape a b :
  a ||| b ||| VNull = VNull \/ ToBoolean (a ||| b ||| VNull) = true.
Proof.
  unfold or_else.
  destruct (ToBoolean a) eqn:Ha; cbv iota; rewrite ?Ha; [now right|].
  destruct (ToBoolean b) eqn:Hb; cbv iota; rewrite ?Hb; [now right|now left].
Qed.

Lemma floor_floor x : Num.floor (Num.floor x) = Num.floor x.
Proof.
  destruct x; try reflexivity. unfold Num.floor, of_Z. now rewrite Qfloor_Z.
Qed.

(** A normalised timestamp is a whole number or infinite. *)
Lemma normalizeTimestamp_integral host v :
  Num.floor (normalizeTimestamp host v) = normalizeTimestamp host v.
Proof.
  destruct (is_nullish v) eqn:Hv.
  { now rewrite normalizeTimestamp_nullish. }
  destruct (is_nan (ToNumber v)) eqn:Hn.
  - rewrite normalizeTimestamp_date; auto.
    2:{ now destruct (ToNumber v). }
    destruct (is_nan (Date.parse host v)); [reflexivity|apply floor_floor].
  - rewrite normalizeTimestamp_numeric; auto. apply floor_floor.
Qed.

Lemma append_nil_l (s : string) : "" ++ s = s.
Proof. reflexivity. Qed.

Lemma append_nil_r (s : string) : s ++ "" = s.
Proof. induction s as [|c s IH]; [reflexivity|]. change (String c (s ++ "") = String c s). now rewrite IH. Qed.

Lemma append_cons c (s t : string) : String c s ++ t = String c (s ++ t).
Proof. reflexivity. Qed.

Lemma digit_is_digit c : is_digit c = true -> Lex.digit 10 c = Some (Lex.code c - 48)%Z.
Proof.
  unfold is_digit, Lex.digit. intros H. rewrite H.
  apply andb_true_iff in H. destruct H as [H1 H2].
  apply Z.leb_le in H1, H2.
  destruct (Z.ltb_spec (Lex.code c - 48) 10); [reflexivity|lia].
Qed.

Lemma digits_app s rest :
  all_digits s = true ->
  Lex.digits 10 (s ++ rest) =
    ((digit_values s ++ fst (Lex.digits 10 rest))%list, snd (Lex.digits 10 rest)).
Proof.
  induction s as [|c s IH]; intros H.
  - rewrite append_nil_l. now destruct (Lex.digits 10 rest).
  - simpl in H. apply andb_true_iff in H. destruct H as [Hc Hs].
    rewrite append_cons. cbn [Lex.digits digit_values].
    rewrite (digit_is_digit c Hc), (IH Hs). reflexivity.
Qed.

Lemma digits_all s :
  all_digits s = true -> Lex.digits 10 s = (digit_values s, "").
Proof.
  intros H. rewrite <- (append_nil_r s) at 1. rewrite digits_app by exact H.
  simpl. now rewrite app_nil_r.
Qed.

Lemma all_digits_app s t : all_digits (s ++ t) = all_digits s && all_digits t.
Proof.
  induction s as [|c s IH]; [reflexivity|].
  rewrite append_cons. cbn [all_digits]. now rewrite IH, andb_assoc.
Qed.

Lemma digit_values_app s t : digit_values (s ++ t) = (digit_values s ++ digit_values t)%list.
Proof.
  induction s as [|c s IH]; [reflexivity|].
  rewrite append_cons. cbn [digit_values]. now rewrite IH.
Qed.

Lemma digit_values_length s : List.length (digit_values s) = String.length s.
Proof. induction s as [|c s IH]; simpl; [reflexivity|]. now rewrite IH. Qed.

Lemma str_take_drop n s : Str.take n s ++ Str.drop n s = s.
Proof.
  revert s. induction n as [|n IH]; intros [|c s]; try reflexivity.
  cbn [Str.take Str.drop]. rewrite append_cons. now rewrite IH.
Qed.

Lemma str_drop_length n s : String.length (Str.drop n s) = (String.length s - n)%nat.
Proof.
  revert s. induction n as [|n IH]; intros [|c s]; simpl; try reflexivity. apply IH.
Qed.

Lemma all_digits_repeat n : all_digits (Str.repeat "0" n) = true.
Proof. induction n as [|n IH]; simpl; [reflexivity|exact IH]. Qed.

Lemma digit_values_repeat n : digit_values (Str.repeat "0" n) = List.repeat 0%Z n.
Proof. induction n as [|n IH]; simpl; [reflexivity|]. now rewrite IH. Qed.

Lemma str_repeat_length c n : String.length (Str.repeat c n) = n.
Proof. induction n as [|n IH]; simpl; [reflexivity|]. now rewrite IH. Qed.

Lemma str_app_length s t : String.length (s ++ t) = (String.length s + String.length t)%nat.
Proof.
  induction s as [|c s IH]; [reflexivity|].
  rewrite append_cons. cbn [String.length]. now rewrite IH.
Qed.

(** The value of a list of digits. *)
Lemma value_fold (l : list Z) (acc : Z) :
  fold_left (fun acc d => 10 * acc + d)%Z l acc =
  (acc * 10 ^ Z.of_nat (List.length l) + Lex.value 10 l)%Z.
Proof.
  unfold Lex.value. revert acc. induction l as [|d l IH]; intros acc.
  - simpl. lia.
  - cbn [fold_left List.length]. rewrite IH, (IH (10 * 0 + d)%Z).
    rewrite Nat2Z.inj_succ, Z.pow_succ_r by lia. ring.
Qed.

Lemma value_app l1 l2 :
  Lex.value 10 (l1 ++ l2) =
  (Lex.value 10 l1 * 10 ^ Z.of_nat (List.length l2) + Lex.value 10 l2)%Z.
Proof.
  unfold Lex.value at 1. rewrite fold_left_app. fold (Lex.value 10 l1). apply value_fold.
Qed.

Lemma value_zeros n : Lex.value 10 (List.repeat 0%Z n) = 0%Z.
Proof.
  induction n as [|n IH]; [reflexivity|].
  change (List.repeat 0%Z (S n)) with ([0%Z] ++ List.repeat 0%Z n)%list.
  rewrite value_app, IH. reflexivity.
Qed.

Lemma value_nonneg s : all_digits s = true -> (0 <= Lex.value 10 (digit_values s))%Z.
Proof.
  induction s as [|c s IH]; simpl; intros H; [reflexivity|].
  apply andb_true_iff in H. destruct H as [Hc Hs].
  change ((Lex.code c - 48)%Z :: digit_values s) with ([(Lex.code c - 48)%Z] ++ digit_values s)%list.
  rewrite value_app. specialize (IH Hs).
  unfold is_digit in Hc. apply andb_true_iff in Hc. destruct Hc as [H1 H2].
  apply Z.leb_le in H1, H2. unfold Lex.value at 1. simpl fold_left.
  assert (0 <= 10 ^ Z.of_nat (List.length (digit_values s)))%Z by (apply Z.pow_nonneg; lia).
  nia.
Qed.

(** The digits of a number, as [Number::toString] writes them. *)
Lemma uint_digits d :
  all_digits (NilEmpty.string_of_uint d) = true /\
  forall d', fold_left (fun acc x => 10 * acc + x)%Z
               (digit_values (NilEmpty.string_of_uint d)) (Z.of_N (Unsigned.of_lu d'))
             = Z.of_N (Unsigned.of_lu (revapp d d')).
Proof.
  induction d as [|d [IH1 IH2]|d [IH1 IH2]|d [IH1 IH2]|d [IH1 IH2]|d [IH1 IH2]
                  |d [IH1 IH2]|d [IH1 IH2]|d [IH1 IH2]|d [IH1 IH2]|d [IH1 IH2]];
    (split; [try reflexivity; exact IH1|]); intros d'; try reflexivity;
    cbn [NilEmpty.string_of_uint digit_values fold_left revapp];
    rewrite <- IH2; f_equal; cbn [Unsigned.of_lu]; vm_compute (Lex.code _ - 48)%Z; lia.
Qed.

Lemma of_N_digits n :
  all_digits (Show.of_N n) = true /\ Show.of_N n <> "" /\
  Lex.value 10 (digit_values (Show.of_N n)) = Z.of_N n.
Proof.
  unfold Show.of_N, NilZero.string_of_uint.
  destruct (N.to_uint n) as [|d|d|d|d|d|d|d|d|d|d] eqn:E.
  1:{ destruct n; [discriminate|]. now apply Unsigned.to_uint_nonnil in E. }
  all: rewrite <- E; split_all;
    [apply uint_digits
    |rewrite E; discriminate
    |pose proof (proj2 (uint_digits (N.to_uint n)) Nil) as H;
     change (Z.of_N (Unsigned.of_lu Nil)) with 0%Z in H;
     unfold Lex.value; rewrite H;
     change (revapp (N.to_uint n) Nil) with (Decimal.rev (N.to_uint n));
     rewrite <- Unsigned.of_uint_alt;
     change (Pos.of_uint (N.to_uint n)) with (N.of_uint (N.to_uint n));
     now rewrite DecimalN.Unsigned.of_to].
Qed.

(** ** Reading what [Number::toString] writes *)

Lemma exponent_part_spec xs X :
  exponent_part xs X ->
  Lex.exponent xs = (X, "") /\ Lex.digits 10 xs = ([], xs) /\
  match xs with String "." _ => False | _ => True end.
Proof.
  intros [[-> ->]|(E & HE & Hne & [[-> ->]|[-> ->]])].
  - split_all; reflexivity || exact I.
  - split_all; [|reflexivity|exact I].
    change ("e+" ++ E) with (String "e" (String "+" E)).
    cbn [Lex.exponent]. change (Lex.code "e" =? 101)%Z with true. cbn [orb].
    rewrite (digits_all E HE).
    destruct E as [|c E]; [congruence|]. reflexivity.
  - split_all; [|reflexivity|exact I].
    change ("e-" ++ E) with (String "e" (String "-" E)).
    cbn [Lex.exponent]. change (Lex.code "e" =? 101)%Z with true. cbn [orb].
    rewrite (digits_all E HE).
    destruct E as [|c E]; [congruence|]. reflexivity.
Qed.

Lemma unsigned_decimal_whole I xs X :
  all_digits I = true -> I <> "" -> exponent_part xs X ->
  exists q, Lex.unsigned_decimal (I ++ xs) = Some (q, "") /\
            (q == inject_Z (Lex.value 10 (digit_values I)) * Qpower 10 X)%Q.
Proof.
  intros HI Hne Hx. destruct (exponent_part_spec xs X Hx) as (He & Hd & Hdot).
  unfold Lex.unsigned_decimal. rewrite (digits_app I xs HI), Hd. cbn [fst snd].
  rewrite app_nil_r.
  assert (match xs with
          | String "." r => Lex.digits 10 r
          | _ => ([], xs)
          end = ([], xs)) as ->.
  { destruct xs as [|c xs']; [reflexivity|].
    destruct c as [[] [] [] [] [] [] [] []]; try reflexivity. destruct Hdot. }
  destruct (digit_values I) as [|d l] eqn:E.
  { destruct I; [congruence|discriminate]. }
  cbn [Lex.is_nil andb]. rewrite He. eexists. split; [reflexivity|].
  rewrite app_nil_r. cbn [List.length Z.of_nat]. now rewrite Z.sub_0_r.
Qed.

Lemma unsigned_decimal_fraction I F xs X :
  all_digits I = true -> I <> "" -> all_digits F = true -> exponent_part xs X ->
  exists q, Lex.unsigned_decimal (I ++ "." ++ F ++ xs) = Some (q, "") /\
            (q == inject_Z (Lex.value 10 (digit_values (I ++ F)))
                  * Qpower 10 (X - Z.of_nat (String.length F)))%Q.
Proof.
  intros HI Hne HF Hx. destruct (exponent_part_spec xs X Hx) as (He & Hd & Hdot).
  unfold Lex.unsigned_decimal. rewrite (digits_app I _ HI).
  change ("." ++ F ++ xs) with (String "." (F ++ xs)).
  change (Lex.digits 10 (String "." (F ++ xs))) with (@nil Z, String "." (F ++ xs)).
  cbn [fst snd]. rewrite app_nil_r.
  rewrite (digits_app F xs HF), Hd. cbn [fst snd]. rewrite app_nil_r.
  destruct (digit_values I) as [|d l] eqn:E.
  { destruct I; [congruence|discriminate]. }
  cbn [Lex.is_nil andb]. rewrite He. eexists. split; [reflexivity|].
  rewrite digit_values_app, E, digit_values_length. reflexivity.
Qed.

Lemma decimal_literal_digit c r :
  is_digit c = true ->
  Lex.decimal_literal (String c r) =
  match Lex.unsigned_decimal (String c r) with
  | Some (q, r') => Some (fin q, r')
  | None => None
  end.
Proof.
  intros H. destruct c as [[] [] [] [] [] [] [] []];
    vm_compute in H; try discriminate H; clear H; reflexivity.
Qed.

Lemma decimal_literal_minus c r :
  is_digit c = true ->
  Lex.decimal_literal (String "-" (String c r)) =
  match Lex.unsigned_decimal (String c r) with
  | Some (q, r') => Some (fin (- q), r')
  | None => None
  end.
Proof.
  intros H. destruct c as [[] [] [] [] [] [] [] []];
    vm_compute in H; try discriminate H; clear H; reflexivity.
Qed.

Lemma trimStart_digit c r :
  is_digit c = true \/ c = "-"%char -> Str.trimStart (String c r) = String c r.
Proof.
  intros [H| ->]; [|reflexivity].
  destruct c as [[] [] [] [] [] [] [] []];
    vm_compute in H; try discriminate H; clear H; reflexivity.
Qed.

(** ** Decimal fractions *)

Lemma ten_nonzero : ~ (10 == 0)%Q.
Proof. discriminate. Qed.

Lemma Qpower_10_nat (k : Z) : (0 <= k)%Z -> (Qpower 10 k == inject_Z (10 ^ k))%Q.
Proof. intros H. now rewrite Zpower_Qpower. Qed.

Lemma Qpower_10_pos (k : Z) : (0 < Qpower 10 k)%Q.
Proof. apply Qpower_0_lt. reflexivity. Qed.

(** Digits may move between the mantissa and the exponent. *)
Lemma scale_pow (s e k : Z) :
  (0 <= k)%Z ->
  (inject_Z (s * 10 ^ k) * Qpower 10 (e - k) == inject_Z s * Qpower 10 e)%Q.
Proof.
  intros Hk. rewrite inject_Z_mult, <- (Qpower_10_nat k Hk).
  replace e with ((e - k) + k)%Z at 2 by ring.
  rewrite (Qpower_plus 10 (e - k) k ten_nonzero). ring.
Qed.

Lemma size_nat_bound (b : positive) : (Zpos b < 2 ^ Z.of_nat (Pos.size_nat b))%Z.
Proof.
  induction b as [b IH|b IH|]; cbn [Pos.size_nat].
  - rewrite Nat2Z.inj_succ, Z.pow_succ_r by lia. lia.
  - rewrite Nat2Z.inj_succ, Z.pow_succ_r by lia. lia.
  - reflexivity.
Qed.

(** A positive divisor of a power of a prime is a power of that prime. *)
Lemma prime_power_divisor (p : Z) (k : nat) (b : Z) :
  Z.prime p -> (0 < b)%Z -> (b | p ^ Z.of_nat k)%Z ->
  exists i : nat, b = (p ^ Z.of_nat i)%Z.
Proof.
  intros Hp. revert b. induction k as [|k IH]; intros b Hb Hd.
  - exists 0%nat. simpl in *. apply Z.divide_1_r_nonneg in Hd; lia.
  - assert (0 < p)%Z as Hp0 by (pose proof (Z.prime_ge_2 p Hp); lia).
    destruct (Z.BoolSpec_divide p b) as [[c Hc]|Hn].
    + assert (0 < c)%Z as Hc0 by nia.
      destruct (IH c Hc0) as (i & Hi).
      { rewrite Nat2Z.inj_succ, Z.pow_succ_r in Hd by lia.
        destruct Hd as [x Hx]. exists x.
        apply (Z.mul_cancel_l _ _ p); [lia|]. lia. }
      exists (S i). rewrite Nat2Z.inj_succ, Z.pow_succ_r by lia. subst. ring.
    + exists 0%nat. simpl.
      assert (Z.coprime b (p ^ Z.of_nat (S k))) as Hr.
      { apply Z.coprime_pow_r; [lia|]. unfold Z.coprime. rewrite Z.gcd_comm.
        apply Z.coprime_prime_l; assumption. }
      assert (b | 1)%Z as H1.
      { apply (Z.gauss b (p ^ Z.of_nat (S k)) 1); [now rewrite Z.mul_1_r|exact Hr]. }
      apply Z.divide_1_r_nonneg in H1; lia.
Qed.

Lemma pow_lt_exponent (p : Z) (i m : nat) :
  (2 <= p)%Z -> (p ^ Z.of_nat i < 2 ^ Z.of_nat m)%Z -> (i <= m)%nat.
Proof.
  intros Hp H. destruct (Nat.le_gt_cases i m) as [|Hgt]; [assumption|exfalso].
  assert (2 ^ Z.of_nat m <= 2 ^ Z.of_nat i)%Z by (apply Z.pow_le_mono_r; lia).
  assert (2 ^ Z.of_nat i <= p ^ Z.of_nat i)%Z by (apply Z.pow_le_mono_l; lia).
  lia.
Qed.

Lemma pow_divide_le (p : Z) (i m : nat) : (i <= m)%nat -> (p ^ Z.of_nat i | p ^ Z.of_nat m)%Z.
Proof.
  intros H. exists (p ^ Z.of_nat (m - i))%Z.
  rewrite <- Z.pow_add_r by lia. f_equal. lia.
Qed.

Lemma prime_5 : Z.prime 5.
Proof.
  split; [lia|]. intros n Hn [x Hx].
  assert (n = 2 \/ n = 3 \/ n = 4)%Z as [->|[->| ->]] by lia; lia.
Qed.

Lemma decimal_denominator (b : Z) (j m : nat) :
  (0 < b)%Z -> (b | 10 ^ Z.of_nat j)%Z -> (b < 2 ^ Z.of_nat m)%Z ->
  (b | 10 ^ Z.of_nat m)%Z.
Proof.
  intros Hb Hd Hm.
  change 10%Z with (2 * 5)%Z in *. rewrite Z.pow_mul_l in *.
  remember (Z.gcd b (2 ^ Z.of_nat j)) as g eqn:Eg.
  assert (0 < g)%Z as Hg.
  { assert (0 <= g)%Z by (subst g; apply Z.gcd_nonneg).
    assert (g <> 0)%Z; [|lia]. subst g. rewrite Z.gcd_eq_0. lia. }
  assert (g | b)%Z as [c Hc] by (subst g; apply Z.gcd_divide_l).
  assert (0 < c)%Z as Hc0 by nia.
  assert (g | 2 ^ Z.of_nat j)%Z as Hg2 by (subst g; apply Z.gcd_divide_r).
  assert (c | 5 ^ Z.of_nat j)%Z as Hc5.
  { destruct Hg2 as [t Ht].
    assert (Z.gcd c t = 1)%Z as Hct.
    { pose proof (Z.gcd_div_gcd b (2 ^ Z.of_nat j) g ltac:(lia) Eg) as H.
      rewrite Hc, Z.div_mul in H by lia.
      rewrite Ht, Z.div_mul in H by lia. exact H. }
    apply (Z.gauss c t); [|exact Hct].
    destruct Hd as [x Hx]. exists x.
    apply (Z.mul_cancel_r _ _ g); [lia|]. rewrite Ht, Hc in Hx.
    replace (t * 5 ^ Z.of_nat j * g)%Z with (t * g * 5 ^ Z.of_nat j)%Z by ring.
    rewrite Hx. ring. }
  destruct (prime_power_divisor 2 j g Z.prime_2 Hg Hg2) as (i2 & Hi2).
  destruct (prime_power_divisor 5 j c prime_5 Hc0 Hc5) as (i5 & Hi5).
  assert (g <= b)%Z by nia. assert (c <= b)%Z by nia.
  assert (i2 <= m)%nat by (apply (pow_lt_exponent 2); lia).
  assert (i5 <= m)%nat by (apply (pow_lt_exponent 5); lia).
  rewrite Hc, Hi2, Hi5, Z.mul_comm.
  destruct (pow_divide_le 2 i2 m ltac:(assumption)) as [x2 ->].
  destruct (pow_divide_le 5 i5 m ltac:(assumption)) as [x5 ->].
  exists (x2 * x5)%Z. ring.
Qed.

Lemma Q_cross (a b c d : Z) :
  (0 < b)%Z -> (0 < d)%Z -> (a * d = c * b)%Z ->
  (inject_Z a / inject_Z b == inject_Z c / inject_Z d)%Q.
Proof.
  intros Hb Hd H.
  assert (inject_Z a * inject_Z d == inject_Z c * inject_Z b)%Q as HQ
    by (rewrite <- !inject_Z_mult, H; reflexivity).
  assert (~ inject_Z b == 0)%Q as Hb'.
  { change 0%Q with (inject_Z 0). rewrite inject_Z_injective. lia. }
  assert (~ inject_Z d == 0)%Q as Hd'.
  { change 0%Q with (inject_Z 0). rewrite inject_Z_injective. lia. }
  apply (Qmult_inj_r _ _ (inject_Z b * inject_Z d)).
  { intros E. apply Qmult_integral in E. tauto. }
  transitivity (inject_Z a * inject_Z d)%Q; [field; exact Hb'|].
  rewrite HQ. field. exact Hd'.
Qed.

Lemma strip_zeros_spec fuel s e :
  (0 < s)%Z ->
  (0 < fst (Show.strip_zeros fuel s e))%Z /\
  (e <= snd (Show.strip_zeros fuel s e))%Z /\
  (s = fst (Show.strip_zeros fuel s e) * 10 ^ (snd (Show.strip_zeros fuel s e) - e))%Z /\
  ((0 < fuel)%nat -> (s mod 10 = 0)%Z -> (e < snd (Show.strip_zeros fuel s e))%Z).
Proof.
  revert s e. induction fuel as [|fuel IH]; intros s e Hs; cbn [Show.strip_zeros].
  - cbn [fst snd]. rewrite Z.sub_diag. split_all; lia.
  - destruct (Z.eqb_spec (s mod 10) 0) as [Hm|Hm]; cbn [andb].
    + destruct (Z.eqb_spec s 0) as [|_]; [lia|]. cbn [negb].
      assert (s = 10 * (s / 10))%Z as Hdiv.
      { rewrite (Z.div_mod s 10) at 1 by lia. lia. }
      destruct (IH (s / 10)%Z (e + 1)%Z ltac:(lia)) as (H1 & H2 & H3 & _).
      split_all; try lia.
      rewrite Hdiv at 1. rewrite H3 at 1.
      replace (snd (Show.strip_zeros fuel (s / 10) (e + 1)) - e)%Z
        with (Z.succ (snd (Show.strip_zeros fuel (s / 10) (e + 1)) - (e + 1)))%Z by lia.
      rewrite Z.pow_succ_r by lia. ring.
    + cbn [fst snd]. rewrite Z.sub_diag. split_all; lia.
Qed.

(** The digits and the exponent of a decimal fraction denote it. *)
Lemma digits_exponent_spec (p den : positive) (j : nat) :
  (Zpos den | 10 ^ Z.of_nat j)%Z ->
  (0 < fst (Show.digits_exponent (Zpos p) den))%Z /\
  (inject_Z (fst (Show.digits_exponent (Zpos p) den))
   * Qpower 10 (snd (Show.digits_exponent (Zpos p) den)) == Zpos p # den)%Q.
Proof.
  intros Hj. unfold Show.digits_exponent. cbv zeta.
  set (m := Z.of_nat (Pos.size_nat den)).
  assert (0 <= m)%Z as Hm by (unfold m; lia).
  assert (Zpos den | 10 ^ m)%Z as Hden.
  { apply (decimal_denominator _ j); [lia|exact Hj|apply size_nat_bound]. }
  assert (0 < 10 ^ m)%Z as Hpow by (apply Z.pow_pos_nonneg; lia).
  assert (Zpos den | Zpos p * 10 ^ m)%Z as Hdiv by (apply Z.divide_mul_r; exact Hden).
  rewrite (Z.mod0_divide _ _ Hdiv). cbn [Z.eqb].
  destruct Hdiv as [s0 Hs0]. rewrite Hs0, Z.div_mul by lia.
  assert (0 < s0)%Z as Hpos by nia.
  destruct (strip_zeros_spec (Z.to_nat (Z.log2_up s0) + 1) s0 (- m) Hpos) as (H1 & H2 & H3 & _).
  split; [exact H1|].
  set (s := fst _) in *. set (e := snd _) in *.
  rewrite <- (scale_pow s e (e - - m)) by lia. rewrite <- H3.
  replace (e - (e - - m))%Z with (- m)%Z by lia.
  rewrite Qpower_opp, (Qpower_10_nat m Hm), Qmake_Qdiv.
  apply Q_cross; lia.
Qed.

Lemma digits_exponent_whole (p : positive) :
  let s := fst (Show.digits_exponent (Zpos p) 1) in
  let e := snd (Show.digits_exponent (Zpos p) 1) in
  (0 < s)%Z /\ (0 <= e)%Z /\ (Zpos p = s * 10 ^ e)%Z.
Proof.
  unfold Show.digits_exponent. cbv zeta.
  change (Z.of_nat (Pos.size_nat 1)) with 1%Z.
  rewrite Z.mod_1_r. cbn [Z.eqb]. rewrite Z.div_1_r.
  change (10 ^ 1)%Z with 10%Z.
  destruct (strip_zeros_spec (Z.to_nat (Z.log2_up (Zpos p * 10)) + 1) (Zpos p * 10) (- (1))
              ltac:(lia)) as (H1 & H2 & H3 & H4).
  assert (- (1) < snd (Show.strip_zeros (Z.to_nat (Z.log2_up (Zpos p * 10)) + 1)
                          (Zpos p * 10) (- (1))))%Z
    as He by (apply H4; [lia|apply Z.mod_mul; lia]).
  set (s := fst _) in *. set (e := snd _) in *.
  split_all; [exact H1|lia|].
  replace (e - - (1))%Z with (Z.succ e) in H3 by lia.
  rewrite Z.pow_succ_r in H3 by lia. lia.
Qed.

Lemma of_Z_abs_digits (s : Z) :
  all_digits (Show.of_Z_abs s) = true /\ Show.of_Z_abs s <> "" /\
  Lex.value 10 (digit_values (Show.of_Z_abs s)) = Z.abs s.
Proof.
  unfold Show.of_Z_abs. destruct (of_N_digits (Z.abs_N s)) as (H1 & H2 & H3).
  split_all; [exact H1|exact H2|]. rewrite H3. apply N2Z.inj_abs_N.
Qed.

Lemma digit_head I rest :
  all_digits I = true -> I <> "" ->
  exists c r, I ++ rest = String c r /\ is_digit c = true.
Proof.
  destruct I as [|c I]; [congruence|]. intros H _. simpl in H.
  apply andb_true_iff in H. exists c, (I ++ rest). split; [reflexivity|tauto].
Qed.

Lemma exponent_part_of (x : Z) :
  exponent_part ("e" ++ (if (x <? 0)%Z then "-" else "+") ++ Show.of_Z_abs x) x.
Proof.
  destruct (of_Z_abs_digits x) as (H1 & H2 & H3).
  right. exists (Show.of_Z_abs x). split_all; [exact H1|exact H2|].
  destruct (Z.ltb_spec x 0).
  - right. split; [reflexivity|]. rewrite H3. lia.
  - left. split; [reflexivity|]. rewrite H3. lia.
Qed.

(** What [layout] writes is read back as the number it was given. *)
Lemma layout_read (s e : Z) :
  (0 < s)%Z ->
  exists c r q,
    Show.layout s e = String c r /\ is_digit c = true /\
    Lex.unsigned_decimal (Show.layout s e) = Some (q, "") /\
    (q == inject_Z s * Qpower 10 e)%Q.
Proof.
  intros Hs. unfold Show.layout. cbv zeta.
  destruct (of_Z_abs_digits s) as (Hds & Hne & Hval).
  rewrite Z.abs_eq in Hval by lia.
  set (ds := Show.of_Z_abs s) in *.
  assert (1 <= String.length ds)%nat as Hlen by (destruct ds; [congruence|simpl; lia]).
  set (k := Z.of_nat (String.length ds)).
  destruct ((k <=? k + e)%Z && (k + e <=? 21)%Z) eqn:C1.
  { (* the digits, then zeros *)
    apply andb_true_iff in C1. destruct C1 as [C1 _]. apply Z.leb_le in C1.
    set (I := ds ++ Str.repeat "0" (Z.to_nat (k + e - k))).
    assert (all_digits I = true) as HI by (unfold I; now rewrite all_digits_app, Hds, all_digits_repeat).
    assert (I <> "") as HIne by (unfold I; destruct ds; [congruence|discriminate]).
    destruct (digit_head I "" HI HIne) as (c & r & Hc & Hd).
    destruct (unsigned_decimal_whole I "" 0 HI HIne (or_introl (conj eq_refl eq_refl)))
      as (q & Hq & Hv).
    rewrite append_nil_r in Hc, Hq.
    exists c, r, q. split_all; try assumption.
    rewrite Hv. unfold I.
    rewrite digit_values_app, value_app, digit_values_length, str_repeat_length.
    rewrite digit_values_repeat, value_zeros, Hval.
    rewrite Z.add_0_r, Z2Nat.id by lia.
    replace (k + e - k)%Z with e by lia.
    rewrite <- (scale_pow s e e) by lia. now rewrite Z.sub_diag. }
  destruct ((0 <? k + e)%Z && (k + e <=? 21)%Z) eqn:C2.
  { (* a decimal point inside the digits *)
    apply andb_true_iff in C2. destruct C2 as [C2 C2']. apply Z.ltb_lt in C2. apply Z.leb_le in C2'.
    assert (k + e < k)%Z as Hlt.
    { apply andb_false_iff in C1. destruct C1 as [C1|C1]; [apply Z.leb_gt in C1; lia|].
      apply Z.leb_gt in C1. lia. }
    set (n := Z.to_nat (k + e)).
    assert (1 <= n <= String.length ds)%nat as Hn by (unfold n, k in *; lia).
    set (I := Str.take n ds). set (F := Str.drop n ds).
    assert (I ++ F = ds) as HIF by apply str_take_drop.
    assert (all_digits I = true /\ all_digits F = true) as [HI HF].
    { apply andb_true_iff. rewrite <- all_digits_app, HIF. exact Hds. }
    assert (I <> "") as HIne.
    { unfold I. destruct n as [|n']; [lia|]. destruct ds; [congruence|discriminate]. }
    destruct (digit_head I ("." ++ F) HI HIne) as (c & r & Hc & Hd).
    destruct (unsigned_decimal_fraction I F "" 0 HI HIne HF (or_introl (conj eq_refl eq_refl)))
      as (q & Hq & Hv).
    rewrite append_nil_r in Hq.
    exists c, r, q. split_all; try assumption.
    rewrite Hv, HIF, Hval. unfold F. rewrite str_drop_length.
    replace (0 - Z.of_nat (String.length ds - n))%Z with e by (unfold n, k in *; lia).
    reflexivity. }
  destruct ((-6 <? k + e)%Z && (k + e <=? 0)%Z) eqn:C3.
  { (* zeros after the decimal point *)
    apply andb_true_iff in C3. destruct C3 as [_ C3]. apply Z.leb_le in C3.
    set (F := Str.repeat "0" (Z.to_nat (- (k + e))) ++ ds).
    assert (all_digits F = true) as HF by (unfold F; now rewrite all_digits_app, all_digits_repeat).
    destruct (unsigned_decimal_fraction "0" F "" 0 eq_refl ltac:(discriminate) HF
                (or_introl (conj eq_refl eq_refl))) as (q & Hq & Hv).
    rewrite append_nil_r in Hq.
    exists "0"%char, ("." ++ F), q. split_all; try assumption; try reflexivity.
    rewrite Hv. unfold F.
    rewrite !digit_values_app, !value_app, digit_values_repeat, value_zeros, Hval.
    rewrite str_app_length, str_repeat_length.
    change (Lex.value 10 (digit_values "0")) with 0%Z.
    rewrite !Z.mul_0_l, !Z.add_0_l.
    replace (0 - Z.of_nat (Z.to_nat (- (k + e)) + String.length ds))%Z with e
      by (unfold k in *; lia).
    reflexivity. }
  (* exponent notation *)
  pose proof (exponent_part_of (k + e - 1)) as Hx.
  destruct (Z.eqb_spec k 1) as [K|K].
  - destruct (digit_head ds ("e" ++ (if (k + e - 1 <? 0)%Z then "-" else "+")
                                 ++ Show.of_Z_abs (k + e - 1)) Hds Hne)
      as (c & r & Hc & Hd).
    destruct (unsigned_decimal_whole ds _ _ Hds Hne Hx) as (q & Hq & Hv).
    exists c, r, q. split_all; try assumption.
    rewrite Hv, Hval. replace (k + e - 1)%Z with e by lia. reflexivity.
  - set (I := Str.take 1 ds). set (F := Str.drop 1 ds).
    assert (I ++ F = ds) as HIF by apply str_take_drop.
    assert (all_digits I = true /\ all_digits F = true) as [HI HF].
    { apply andb_true_iff. rewrite <- all_digits_app, HIF. exact Hds. }
    assert (I <> "") as HIne.
    { unfold I. destruct ds; [congruence|discriminate]. }
    destruct (digit_head I ("." ++ F ++ "e" ++ (if (k + e - 1 <? 0)%Z then "-" else "+")
                                ++ Show.of_Z_abs (k + e - 1)) HI HIne)
      as (c & r & Hc & Hd).
    destruct (unsigned_decimal_fraction I F _ _ HI HIne HF Hx) as (q & Hq & Hv).
    exists c, r, q. split_all; try assumption.
    rewrite Hv, HIF, Hval. unfold F. rewrite str_drop_length.
    replace (k + e - 1 - Z.of_nat (String.length ds - 1))%Z with e by (unfold k in *; lia).
    reflexivity.
Qed.

Lemma Qred_Qred (q : Q) : Qred (Qred q) = Qred q.
Proof. apply Qred_complete, Qred_correct. Qed.

Lemma Qred_denominator (x : Q) (B : Z) (P : positive) :
  (x == B # P)%Q -> (Zpos (Qden (Qred x)) | Zpos P)%Z.
Proof.
  intros H. rewrite <- (Qred_correct x) in H.
  pose proof (gcd_Qred x) as Hg.
  destruct (Qred x) as [n d]. unfold Qeq in H. cbn [Qnum Qden] in *.
  apply (Z.gauss _ n); [|now rewrite Z.gcd_comm].
  exists B. lia.
Qed.

Lemma decimal_fraction_scaled (V X : Z) :
  decimal_fraction (Qred (inject_Z V * Qpower 10 X)).
Proof.
  split; [apply Qred_Qred|].
  set (k := Z.max 0 (- X)).
  assert (0 <= k)%Z as Hk by lia.
  assert (0 < 10 ^ k)%Z as Hpow by (apply Z.pow_pos_nonneg; lia).
  exists (Z.to_nat k). rewrite Z2Nat.id by lia.
  rewrite <- (Z2Pos.id (10 ^ k)) by exact Hpow.
  apply (Qred_denominator _ (V * 10 ^ (X + k))).
  rewrite (Qmake_Qdiv (V * 10 ^ (X + k)) (Z.to_pos (10 ^ k))), Z2Pos.id by exact Hpow.
  rewrite <- (Qpower_10_nat k Hk). unfold Qdiv. rewrite <- Qpower_opp.
  rewrite <- (scale_pow V X (X + k)) by lia.
  replace (X - (X + k))%Z with (- k)%Z by lia. reflexivity.
Qed.

Lemma decimal_fraction_opp (q : Q) : decimal_fraction q -> decimal_fraction (Qred (- q)).
Proof.
  intros [Hr (j & Hj)]. split; [apply Qred_Qred|].
  exists j. rewrite Qred_opp, Hr. exact Hj.
Qed.

Lemma unsigned_decimal_shape s q r :
  Lex.unsigned_decimal s = Some (q, r) ->
  exists V X, q = (inject_Z V * Qpower 10 X)%Q.
Proof.
  unfold Lex.unsigned_decimal.
  destruct (Lex.digits 10 s) as [ip r1].
  destruct (match r1 with String "." r0 => Lex.digits 10 r0 | _ => ([], r1) end) as [fp r2].
  destruct (Lex.is_nil ip && Lex.is_nil fp); [discriminate|].
  destruct (Lex.exponent r2) as [e r3]. intros [= <- _]. eauto.
Qed.

Lemma decimal_literal_decimal s n r : Lex.decimal_literal s = Some (n, r) -> decimal n.
Proof.
  unfold Lex.decimal_literal.
  destruct (match s with
            | String "+" r0 => (false, r0)
            | String "-" r0 => (true, r0)
            | _ => (false, s)
            end) as [negative s1].
  destruct (Str.strip_prefix "Infinity" s1).
  - intros [= <- _]. now destruct negative.
  - destruct (Lex.unsigned_decimal s1) as [[q r']|] eqn:E; [|discriminate].
    intros [= <- _]. destruct (unsigned_decimal_shape _ _ _ E) as (V & X & ->).
    unfold fin, decimal. destruct negative.
    + rewrite <- (Qred_complete _ _ (Qopp_comp _ _ (Qred_correct (inject_Z V * Qpower 10 X)))).
      apply decimal_fraction_opp, decimal_fraction_scaled.
    + apply decimal_fraction_scaled.
Qed.

(** What [parseFloat] reads is [NaN] or a decimal. *)
Lemma parseFloat_decimal s : Lex.parseFloat s = NaN \/ decimal (Lex.parseFloat s).
Proof.
  unfold Lex.parseFloat.
  destruct (Lex.decimal_literal (Str.trimStart s)) as [[n r]|] eqn:E; [|now left].
  right. exact (decimal_literal_decimal _ _ _ E).
Qed.

(** A decimal fraction is read back from what [Number::toString] writes. *)
Lemma parseFloat_number_fraction (q : Q) :
  decimal_fraction q -> Lex.parseFloat (Show.number (Fin q)) = Fin q.
Proof.
  intros [Hred (j & Hj)]. destruct q as [num den]. cbn [Qden] in Hj.
  cbn [Show.number Qnum Qden]. destruct num as [|p|p].
  - assert (den = 1%positive) as -> by (cbv [Qred] in Hred; cbn in Hred; congruence).
    reflexivity.
  - destruct (digits_exponent_spec p den j Hj) as [Hs Hv].
    destruct (Show.digits_exponent (Zpos p) den) as [s e]. cbn [fst snd] in Hs, Hv.
    destruct (layout_read s e Hs) as (c & r & q' & Hl & Hc & Hq & Hq').
    rewrite Hl in Hq |- *. unfold Lex.parseFloat.
    rewrite trimStart_digit by (now left).
    rewrite (decimal_literal_digit c r Hc), Hq. unfold fin. f_equal.
    rewrite <- Hred. apply Qred_complete. now rewrite Hq', Hv.
  - destruct (digits_exponent_spec p den j Hj) as [Hs Hv].
    destruct (Show.digits_exponent (Zpos p) den) as [s e]. cbn [fst snd] in Hs, Hv.
    destruct (layout_read s e Hs) as (c & r & q' & Hl & Hc & Hq & Hq').
    rewrite Hl in Hq |- *. change ("-" ++ String c r) with (String "-" (String c r)).
    unfold Lex.parseFloat.
    rewrite trimStart_digit by (now right).
    rewrite (decimal_literal_minus c r Hc), Hq. unfold fin. f_equal.
    rewrite <- Hred. apply Qred_complete. rewrite Hq', Hv. reflexivity.
Qed.

Lemma parseFloat_number_decimal (n : number) :
  decimal n -> Lex.parseFloat (Show.number n) = n.
Proof.
  destruct n as [| | |q]; [intros []|reflexivity|reflexivity|apply parseFloat_number_fraction].
Qed.

(** [parseFloat(String(x)) = x] for every [x] that [parseFloat] returns. *)
Lemma parseFloat_number_parseFloat s :
  Lex.parseFloat (Show.number (Lex.parseFloat s)) = Lex.parseFloat s.
Proof.
  destruct (parseFloat_decimal s) as [E|H].
  - rewrite E. reflexivity.
  - apply parseFloat_number_decimal, H.
Qed.

(** ** Whole numbers *)

Lemma nzhead_head d : match nzhead d with D0 _ => False | _ => True end.
Proof. induction d; simpl; auto. Qed.

(** The first digit of a positive number is not 0. *)
Lemma of_N_head (n : N) :
  (0 < n)%N -> exists c r, Show.of_N n = String c r /\ (49 <= Lex.code c)%Z.
Proof.
  intros Hn.
  assert (unorm (N.to_uint n) = N.to_uint n) as Hu.
  { rewrite <- DecimalN.Unsigned.to_of. now rewrite DecimalN.Unsigned.of_to. }
  assert (N.to_uint n <> zero) as Hz.
  { intros E. apply (f_equal N.of_uint) in E. rewrite DecimalN.Unsigned.of_to in E.
    change (N.of_uint zero) with 0%N in E. lia. }
  unfold Show.of_N, NilZero.string_of_uint.
  destruct (N.to_uint n) as [|d|d|d|d|d|d|d|d|d|d] eqn:E;
    try (eexists _, _; split; [reflexivity|vm_compute; discriminate]).
  exfalso. unfold unorm in Hu. cbn [nzhead] in Hu.
  pose proof (nzhead_head d) as Hh.
  destruct (nzhead d) eqn:En; try discriminate Hu.
  - injection Hu as Hu. subst d. now apply Hz.
  - destruct Hh.
Qed.

Lemma digits_lower_bound c r :
  all_digits (String c r) = true -> (49 <= Lex.code c)%Z ->
  (10 ^ Z.of_nat (String.length r) <= Lex.value 10 (digit_values (String c r)))%Z.
Proof.
  intros H Hc. cbn [all_digits] in H. apply andb_true_iff in H. destruct H as [_ Hr].
  cbn [digit_values].
  change ((Lex.code c - 48)%Z :: digit_values r) with ([(Lex.code c - 48)%Z] ++ digit_values r)%list.
  rewrite value_app, digit_values_length.
  pose proof (value_nonneg r Hr).
  assert (0 < 10 ^ Z.of_nat (String.length r))%Z by (apply Z.pow_pos_nonneg; lia).
  change (Lex.value 10 [(Lex.code c - 48)%Z]) with (10 * 0 + (Lex.code c - 48))%Z. nia.
Qed.

(** A whole number below ten to the twenty-first is written with all its
    digits. *)
Lemma layout_whole (s e : Z) :
  (0 < s)%Z -> (0 <= e)%Z -> (s * 10 ^ e < 10 ^ 21)%Z ->
  exists I, Show.layout s e = I /\ all_digits I = true /\ I <> "" /\
            Lex.value 10 (digit_values I) = (s * 10 ^ e)%Z.
Proof.
  intros Hs He Hlt. unfold Show.layout. cbv zeta.
  destruct (of_Z_abs_digits s) as (Hds & Hne & Hval).
  rewrite Z.abs_eq in Hval by lia.
  destruct (of_N_head (Z.abs_N s) ltac:(lia)) as (c & r & Hcr & Hc).
  fold (Show.of_Z_abs s) in Hcr.
  set (ds := Show.of_Z_abs s) in *.
  set (k := Z.of_nat (String.length ds)).
  assert (k + e <= 21)%Z as Hk.
  { rewrite Hcr in Hds, Hval. pose proof (digits_lower_bound c r Hds Hc) as Hb.
    rewrite Hval in Hb.
    assert (10 ^ (Z.of_nat (String.length r) + e) < 10 ^ 21)%Z as Hp.
    { rewrite Z.pow_add_r by lia.
      assert (0 < 10 ^ e)%Z by (apply Z.pow_pos_nonneg; lia). nia. }
    apply Z.pow_lt_mono_r_iff in Hp; [|lia|lia].
    unfold k. rewrite Hcr. cbn [String.length]. lia. }
  destruct (Z.leb_spec k (k + e)); [|lia].
  destruct (Z.leb_spec (k + e) 21); [|lia]. cbn [andb].
  eexists. split; [reflexivity|]. split_all.
  - now rewrite all_digits_app, Hds, all_digits_repeat.
  - destruct ds; [congruence|discriminate].
  - rewrite digit_values_app, value_app, digit_values_length, str_repeat_length.
    rewrite digit_values_repeat, value_zeros, Hval.
    rewrite Z2Nat.id by lia. replace (k + e - k)%Z with e by lia. lia.
Qed.

Lemma parseInt_digits I :
  all_digits I = true -> I <> "" ->
  (Lex.value 10 (digit_values I) < binary64_overflow)%Z ->
  Lex.parseInt I = of_Z (Lex.value 10 (digit_values I)) /\
  Lex.parseInt ("-" ++ I) = of_Z (- Lex.value 10 (digit_values I)).
Proof.
  intros HI Hne Hlt. apply Z.leb_gt in Hlt. destruct I as [|c r]; [congruence|].
  assert (is_digit c = true) as Hc by (simpl in HI; apply andb_true_iff in HI; tauto).
  assert (match r with
          | String c2 r2 => ((Lex.code c2 =? 120) || (Lex.code c2 =? 88))%Z = false
          | EmptyString => True
          end) as Hx.
  { destruct r as [|c2 r2]; [exact I|]. simpl in HI.
    apply andb_true_iff in HI. destruct HI as [_ HI].
    apply andb_true_iff in HI. destruct HI as [H2 _].
    unfold is_digit in H2. apply andb_true_iff in H2. destruct H2 as [_ H2].
    apply Z.leb_le in H2.
    destruct (Z.eqb_spec (Lex.code c2) 120); [lia|].
    destruct (Z.eqb_spec (Lex.code c2) 88); [lia|reflexivity]. }
  pose proof (digits_all _ HI) as Hd.
  assert (Lex.is_nil (digit_values (String c r)) = false) as Hnil by reflexivity.
  change ("-" ++ String c r) with (String "-" (String c r)).
  unfold Lex.parseInt.
  rewrite !trimStart_digit by (auto).
  destruct c as [[] [] [] [] [] [] [] []];
    vm_compute in Hc; try discriminate Hc; clear Hc;
    cbv iota beta;
    try (rewrite Hd, Hnil; cbv zeta; rewrite Hlt; split; reflexivity).
  destruct r as [|c2 r2].
  - split; reflexivity.
  - rewrite Hx, Hd, Hnil. cbv zeta. rewrite Hlt. split; reflexivity.
Qed.

(** [parseInt(String(z)) = z] for a whole number [z] below ten to the
    twenty-first in magnitude. *)
Lemma parseInt_number (z : Z) :
  (Z.abs z < 10 ^ 21)%Z -> Lex.parseInt (Show.number (of_Z z)) = of_Z z.
Proof.
  intros Hz.
  assert (10 ^ 21 < binary64_overflow)%Z as Hbig by (vm_compute; reflexivity).
  unfold of_Z, inject_Z. cbn [Show.number Qnum Qden].
  destruct z as [|p|p]; [reflexivity| |].
  - destruct (digits_exponent_whole p) as (Hs & He & Hp). cbv zeta in *.
    destruct (Show.digits_exponent (Zpos p) 1) as [s e]. cbn [fst snd] in *.
    destruct (layout_whole s e Hs He ltac:(lia)) as (I & -> & HI & Hne & Hv).
    rewrite (proj1 (parseInt_digits I HI Hne ltac:(lia))), Hv, <- Hp. reflexivity.
  - destruct (digits_exponent_whole p) as (Hs & He & Hp). cbv zeta in *.
    destruct (Show.digits_exponent (Zpos p) 1) as [s e]. cbn [fst snd] in *.
    destruct (layout_whole s e Hs He ltac:(lia)) as (I & -> & HI & Hne & Hv).
    rewrite (proj2 (parseInt_digits I HI Hne ltac:(lia))), Hv, <- Hp. reflexivity.
Qed.

Lemma value_upper s :
  all_digits s = true ->
  (Lex.value 10 (digit_values s) < 10 ^ Z.of_nat (String.length s))%Z.
Proof.
  induction s as [|c s IH]; intros H; [reflexivity|].
  cbn [all_digits] in H. apply andb_true_iff in H. destruct H as [Hc Hs].
  specialize (IH Hs). pose proof (value_nonneg s Hs) as H0.
  cbn [digit_values String.length].
  change ((Lex.code c - 48)%Z :: digit_values s)
    with ([(Lex.code c - 48)%Z] ++ digit_values s)%list.
  rewrite value_app, digit_values_length, Nat2Z.inj_succ, Z.pow_succ_r by lia.
  unfold is_digit in Hc. apply andb_true_iff in Hc. destruct Hc as [H1 H2].
  apply Z.leb_le in H1, H2.
  change (Lex.value 10 [(Lex.code c - 48)%Z]) with (10 * 0 + (Lex.code c - 48))%Z.
  nia.
Qed.

(** A whole number of ten to the twenty-first or more is written with an
    exponent: one digit that is not 0, then a point or the letter [e]. *)
Lemma layout_exponent (s e : Z) :
  (0 < s)%Z -> (0 <= e)%Z -> (10 ^ 21 <= s * 10 ^ e)%Z ->
  exists c sep rest,
    Show.layout s e = String c (String sep rest) /\
    ((49 <=? Lex.code c)%Z && (Lex.code c <=? 57)%Z = true) /\
    (sep = "e"%char \/ sep = "."%char).
Proof.
  intros Hs He Hge. unfold Show.layout. cbv zeta.
  destruct (of_Z_abs_digits s) as (Hds & Hne & Hval).
  rewrite Z.abs_eq in Hval by lia.
  destruct (of_N_head (Z.abs_N s) ltac:(lia)) as (c & r & Hcr & Hc).
  fold (Show.of_Z_abs s) in Hcr.
  set (ds := Show.of_Z_abs s) in *.
  set (k := Z.of_nat (String.length ds)).
  assert (21 < k + e)%Z as Hk.
  { pose proof (value_upper ds Hds) as Hb. rewrite Hval in Hb. fold k in Hb.
    assert (10 ^ 21 < 10 ^ (k + e))%Z as Hp.
    { rewrite Z.pow_add_r by lia.
      assert (0 < 10 ^ e)%Z by (apply Z.pow_pos_nonneg; lia). nia. }
    apply Z.pow_lt_mono_r_iff in Hp; lia. }
  assert (is_digit c = true) as Hd.
  { rewrite Hcr in Hds. cbn [all_digits] in Hds. apply andb_true_iff in Hds. tauto. }
  assert ((49 <=? Lex.code c)%Z && (Lex.code c <=? 57)%Z = true) as Hc'.
  { unfold is_digit in Hd. apply andb_true_iff in Hd. destruct Hd as [_ Hd].
    rewrite Hd, andb_true_r. now apply Z.leb_le. }
  destruct (Z.leb_spec (k + e) 21); [lia|].
  rewrite !andb_false_r. cbn [andb].
  destruct (Z.leb_spec (k + e) 0); [lia|]. rewrite andb_false_r.
  destruct (k =? 1)%Z eqn:Ek.
  - apply Z.eqb_eq in Ek. assert (r = "") as ->.
    { unfold k in Ek. rewrite Hcr in Ek. cbn [String.length] in Ek.
      destruct r; [reflexivity|cbn [String.length] in Ek; lia]. }
    rewrite Hcr. exists c, "e"%char. eexists. split; [reflexivity|]. split; [exact Hc'|now left].
  - rewrite Hcr. exists c, "."%char. eexists. split; [|split; [exact Hc'|now right]].
    cbn [Str.take]. reflexivity.
Qed.

Lemma parseInt_head c sep rest :
  (49 <=? Lex.code c)%Z && (Lex.code c <=? 57)%Z = true ->
  sep = "e"%char \/ sep = "."%char ->
  Lex.parseInt (String c (String sep rest)) = of_Z (Lex.code c - 48) /\
  Lex.parseInt (String "-" (String c (String sep rest))) = of_Z (- (Lex.code c - 48)).
Proof.
  intros Hc Hsep.
  destruct c as [[] [] [] [] [] [] [] []];
    vm_compute in Hc; try discriminate Hc; clear Hc;
    destruct Hsep as [-> | ->]; split; vm_compute; reflexivity.
Qed.

(** [parseInt(String(z))] is one digit when [z] is ten to the twenty-first or
    more in magnitude. *)
Lemma parseInt_number_large (z : Z) :
  (10 ^ 21 <= Z.abs z)%Z ->
  exists d, Lex.parseInt (Show.number (of_Z z)) = of_Z d /\ (Z.abs d <= 9)%Z.
Proof.
  intros Hz. unfold of_Z, inject_Z. cbn [Show.number Qnum Qden].
  destruct z as [|p|p]; [cbn in Hz; lia| |].
  - destruct (digits_exponent_whole p) as (Hs & He & Hp). cbv zeta in *.
    destruct (Show.digits_exponent (Zpos p) 1) as [s e]. cbn [fst snd] in *.
    destruct (layout_exponent s e Hs He ltac:(lia)) as (c & sep & rest & -> & Hc & Hsep).
    exists (Lex.code c - 48)%Z. split; [apply (parseInt_head c sep rest Hc Hsep)|].
    apply andb_true_iff in Hc. destruct Hc as [H1 H2]. apply Z.leb_le in H1, H2. lia.
  - destruct (digits_exponent_whole p) as (Hs & He & Hp). cbv zeta in *.
    destruct (Show.digits_exponent (Zpos p) 1) as [s e]. cbn [fst snd] in *.
    destruct (layout_exponent s e Hs He ltac:(lia)) as (c & sep & rest & -> & Hc & Hsep).
    exists (- (Lex.code c - 48))%Z. split; [apply (parseInt_head c sep rest Hc Hsep)|].
    apply andb_true_iff in Hc. destruct Hc as [H1 H2]. apply Z.leb_le in H1, H2. lia.
Qed.

(** ** The text of a number *)

Lemma strip_any_plain c r :
  plain c = true ->
  Str.strip_any Str.white_space (String c r) = None /\
  Str.strip_any (List.map Str.rev Str.white_space) (String c r) = None.
Proof.
  intros H. destruct c as [[] [] [] [] [] [] [] []];
    vm_compute in H; try discriminate H; clear H; split; reflexivity.
Qed.

Lemma replace_plain s : all_plain s = true -> Str.replace "K" "" s = s.
Proof.
  induction s as [|c s IH]; [reflexivity|]. cbn [all_plain]. intros H.
  apply andb_true_iff in H. destruct H as [Hc Hs].
  cbn [Str.replace]. rewrite (IH Hs).
  destruct c as [[] [] [] [] [] [] [] []];
    vm_compute in Hc; try discriminate Hc; reflexivity.
Qed.

Lemma all_plain_app s t : all_plain (s ++ t) = all_plain s && all_plain t.
Proof.
  induction s as [|c s IH]; [reflexivity|].
  rewrite append_cons. cbn [all_plain]. now rewrite IH, andb_assoc.
Qed.

Lemma all_plain_list s : all_plain s = forallb plain (list_ascii_of_string s).
Proof. induction s as [|c s IH]; [reflexivity|]. cbn. now rewrite IH. Qed.

Lemma str_rev_rev s : Str.rev (Str.rev s) = s.
Proof.
  unfold Str.rev. rewrite list_ascii_of_string_of_list_ascii, List.rev_involutive.
  apply string_of_list_ascii_of_string.
Qed.

Lemma rev_plain s : all_plain s = true -> all_plain (Str.rev s) = true.
Proof.
  rewrite !all_plain_list. unfold Str.rev. rewrite list_ascii_of_string_of_list_ascii.
  rewrite !forallb_forall. intros H c Hc. apply H. now apply in_rev.
Qed.

Lemma strip_all_none ps fuel s : Str.strip_any ps s = None -> Str.strip_all ps fuel s = s.
Proof. intros H. destruct fuel; cbn [Str.strip_all]; [reflexivity|now rewrite H]. Qed.

Lemma strip_all_plain s :
  all_plain s = true ->
  Str.strip_all Str.white_space (String.length s) s = s /\
  Str.strip_all (List.map Str.rev Str.white_space) (String.length s) s = s.
Proof.
  intros H. destruct s as [|c r]; [split; reflexivity|].
  cbn [all_plain] in H. apply andb_true_iff in H.
  destruct (strip_any_plain c r (proj1 H)) as [H1 H2].
  split; apply strip_all_none; [exact H1|exact H2].
Qed.

Lemma length_of_list (l : list ascii) : String.length (string_of_list_ascii l) = List.length l.
Proof. induction l as [|c l IH]; [reflexivity|]. cbn. now rewrite IH. Qed.

Lemma length_to_list (s : string) : List.length (list_ascii_of_string s) = String.length s.
Proof. induction s as [|c s IH]; [reflexivity|]. cbn. now rewrite IH. Qed.

Lemma str_rev_length s : String.length (Str.rev s) = String.length s.
Proof. unfold Str.rev. now rewrite length_of_list, length_rev, length_to_list. Qed.

Lemma trim_plain s : all_plain s = true -> Str.trim s = s.
Proof.
  intros H. unfold Str.trim, Str.trimStart, Str.trimEnd.
  rewrite (proj1 (strip_all_plain s H)).
  rewrite <- (str_rev_length s), (proj2 (strip_all_plain _ (rev_plain s H))).
  apply str_rev_rev.
Qed.

Lemma digits_plain s : all_digits s = true -> all_plain s = true.
Proof.
  induction s as [|c s IH]; [reflexivity|]. cbn [all_digits all_plain]. intros H.
  apply andb_true_iff in H. destruct H as [Hc Hs]. rewrite (IH Hs), andb_true_r.
  unfold is_digit in Hc. apply andb_true_iff in Hc. destruct Hc as [H1 H2].
  apply Z.leb_le in H1, H2. unfold plain.
  destruct (Z.leb_spec 33 (Lex.code c)); [|lia].
  destruct (Z.leb_spec (Lex.code c) 126); [|lia].
  destruct (Z.eqb_spec (Lex.code c) 75); [lia|reflexivity].
Qed.

Lemma of_Z_abs_plain z : all_plain (Show.of_Z_abs z) = true.
Proof. apply digits_plain, of_Z_abs_digits. Qed.

Lemma take_drop_plain n s :
  all_plain s = true -> all_plain (Str.take n s) = true /\ all_plain (Str.drop n s) = true.
Proof.
  intros H. apply andb_true_iff. now rewrite <- all_plain_app, str_take_drop.
Qed.

Lemma layout_plain s e : all_plain (Show.layout s e) = true.
Proof.
  unfold Show.layout. cbv zeta.
  pose proof (of_Z_abs_plain s) as Hds.
  repeat match goal with
         | |- context [if ?b then _ else _] => destruct b
         end;
    rewrite ?all_plain_app;
    rewrite ?Hds, ?(proj1 (take_drop_plain _ _ Hds)), ?(proj2 (take_drop_plain _ _ Hds)),
      ?of_Z_abs_plain, ?(digits_plain _ (all_digits_repeat _));
    reflexivity.
Qed.

Lemma number_plain n : all_plain (Show.number n) = true.
Proof.
  destruct n as [| | |[num den]]; try reflexivity.
  cbn [Show.number Qnum Qden]. destruct num as [|p|p]; [reflexivity| |];
    destruct (Show.digits_exponent (Zpos p) den) as [s e].
  - apply layout_plain.
  - rewrite all_plain_app, layout_plain. reflexivity.
Qed.

(** Removing a unit marker and trimming leave the text of a number as it
    is. *)
Lemma number_text n : Str.trim (Str.replace "K" "" (Show.number n)) = Show.number n.
Proof.
  rewrite (replace_plain _ (number_plain n)). apply trim_plain, number_plain.
Qed.

(** ** Records of the output shape *)

Lemma decimal_zero : decimal (of_Z 0).
Proof. split; [reflexivity|]. exists 0%nat. exists 1%Z. reflexivity. Qed.

Lemma decimal_not_nan n : decimal n -> is_nan n = false.
Proof. now destruct n. Qed.

Lemma num_or_else_decimal n : decimal n -> num_or_else n (of_Z 0) = n.
Proof.
  destruct n as [| | |q]; [intros []|reflexivity|reflexivity|].
  intros [Hred _]. rewrite <- Hred. apply num_or_else_fin.
Qed.

Lemma num_or_else_parseFloat s : decimal (num_or_else (Lex.parseFloat s) (of_Z 0)).
Proof.
  destruct (parseFloat_decimal s) as [E|H].
  - rewrite E. exact decimal_zero.
  - now rewrite (num_or_else_decimal _ H).
Qed.

Lemma whole_or_infinite n :
  is_nan n = false -> Num.floor n = n ->
  n = PosInf \/ n = NegInf \/ exists w : Z, n = of_Z w.
Proof.
  destruct n as [| | |q]; [discriminate|auto|auto|].
  intros _ H. right; right. exists (Qfloor q). now rewrite <- H.
Qed.

Lemma normalize_sensor_canonical host r : canonical_sensor (normalize_sensor host r).
Proof.
  unfold canonical_sensor.
  exists (num_or_else (parseInt (prop r "machine_id")) (of_Z 0)),
    (num_or_else (parseFloat (prop r "temperature")) (of_Z 0)),
    (num_or_else (parseFloat (prop r "vibration")) (of_Z 0)),
    (normalizeTimestamp host (prop r "timestamp")).
  split; [reflexivity|]. split_all.
  - unfold parseInt.
    destruct (parseInt_cases (ToString (prop r "machine_id"))) as [E|[E|[E|[z E]]]];
      rewrite E.
    + right; right. now exists 0%Z.
    + now left.
    + right; now left.
    + right; right. exists z. apply num_or_else_of_Z.
  - apply num_or_else_parseFloat.
  - apply num_or_else_parseFloat.
  - apply whole_or_infinite;
      [apply is_nan_normalizeTimestamp|apply normalizeTimestamp_integral].
Qed.

Lemma of_Z_inj a b : of_Z a = of_Z b -> a = b.
Proof. unfold of_Z, inject_Z. now intros [= ->]. Qed.

Lemma canonical_sensor_fixed host r :
  canonical_sensor r -> small_id r -> normalize_sensor host r = r.
Proof.
  intros (m & t & v & ts & -> & _ & Ht & Hv & Hts) (z & Hz & Hsmall).
  assert (m = of_Z z) as ->.
  { change (Some (VNum m) = Some (VNum (of_Z z))) in Hz. congruence. }
  rewrite normalize_sensor_record. unfold parseInt, parseFloat. cbn [ToString].
  rewrite (parseInt_number z Hsmall), num_or_else_of_Z.
  rewrite (parseFloat_number_decimal t Ht), (num_or_else_decimal t Ht).
  rewrite (parseFloat_number_decimal v Hv), (num_or_else_decimal v Hv).
  rewrite normalizeTimestamp_numeric; cbn [ToNumber is_nullish].
  - f_equal. destruct Hts as [->|[->|(w & ->)]]; try reflexivity.
    unfold Num.floor, of_Z. now rewrite Qfloor_Z.
  - reflexivity.
  - destruct Hts as [->|[->|(w & ->)]]; reflexivity.
Qed.

Lemma canonical_sensor_fixed_iff host r :
  canonical_sensor r -> (normalize_sensor host r = r <-> small_id r).
Proof.
  intros Hcan. split; [|apply canonical_sensor_fixed; exact Hcan].
  destruct Hcan as (m & t & v & ts & -> & Hm & _).
  rewrite normalize_sensor_record. intros E.
  apply (f_equal (fun r : row => r !! "machine_id")) in E.
  change (Some (VNum (num_or_else (parseInt (VNum m)) (of_Z 0))) = Some (VNum m)) in E.
  assert (num_or_else (parseInt (VNum m)) (of_Z 0) = m) as E' by congruence. clear E.
  destruct Hm as [->|[->|(z & ->)]]; [discriminate E'|discriminate E'|].
  exists z. split; [reflexivity|].
  destruct (Z.lt_ge_cases (Z.abs z) (10 ^ 21)) as [H|H]; [exact H|exfalso].
  destruct (parseInt_number_large z H) as (d & Hd & Hb).
  unfold parseInt in E'. cbn [ToString] in E'.
  rewrite Hd, num_or_else_of_Z in E'. apply of_Z_inj in E'. subst d.
  assert (9 < 10 ^ 21)%Z by reflexivity. lia.
Qed.

Lemma normalize_alert_canonical r : canonical_alert (normalize_alert r).
Proof.
  rewrite normalize_alert_unfold. eexists _, _, _, _, _, _. split; [reflexivity|].
  split_all.
  - apply or_else_null_shape.
  - apply or_else_null_shape.
  - cbv zeta. set (text := Str.trim _).
    destruct (Str.is_empty text); cbn [negb]; [now left|].
    destruct (parseFloat_decimal text) as [E|H].
    + rewrite E. now left.
    + unfold isNaN. cbn [ToNumber strict_eq]. rewrite (decimal_not_nan _ H).
      right. eauto.
  - cbv zeta. destruct (_ && _); [|now left].
    right. eexists. split; [reflexivity|]. apply parseFloat_decimal.
  - apply or_else_truthy. reflexivity.
  - apply or_else_truthy. reflexivity.
Qed.

Lemma number_nonempty n : decimal n -> Str.is_empty (Show.number n) = false.
Proof.
  intros H. destruct (Show.number n) eqn:E; [|reflexivity].
  pose proof (parseFloat_number_decimal n H) as Hp. rewrite E in Hp.
  change (Lex.parseFloat "") with NaN in Hp. subst n. destruct H.
Qed.

(** The temperature and the vibration of a canonical alert, normalised
    again. *)
Lemma alert_temperature_again n :
  decimal n ->
  (let tempStr := Str.trim (Str.replace "K" "" (ToString (VUndefined ||| VNum n ||| VStr ""))) in
   let temp := if negb (Str.is_empty tempStr) then VNum (Lex.parseFloat tempStr) else VNull in
   if negb (strict_eq temp VNull) && negb (isNaN temp) then temp else VNull)
  = if is_zero n then VNull else VNum n.
Proof.
  intros H. pose proof (decimal_not_nan n H) as Hn. cbv zeta.
  unfold or_else. cbn [ToBoolean]. unfold num_truthy. rewrite Hn. cbn [orb].
  destruct (is_zero n); cbn [negb]; [reflexivity|].
  cbn [ToBoolean]. unfold num_truthy.
  cbn [ToString]. rewrite number_text, (number_nonempty n H). cbn [negb].
  rewrite (parseFloat_number_decimal n H). unfold isNaN. cbn [ToNumber strict_eq].
  now rewrite Hn.
Qed.

Lemma alert_vibration_again n :
  (let vib := VUndefined ||| VNum n in
   if negb (strict_eq vib VNull) && negb (strict_eq vib VUndefined) && negb (isNaN vib)
   then VNum (parseFloat vib) else VNull)
  = if is_nan n then VNull else VNum (Lex.parseFloat (Show.number n)).
Proof.
  cbv zeta. unfold or_else. cbn [ToBoolean strict_eq negb andb]. unfold isNaN. cbn [ToNumber].
  now destruct (is_nan n).
Qed.

Lemma alert_record_inj M T th V A A' M2 T2 th2 V2 A2 A2' :
  alert_record M T th V A A' = alert_record M2 T2 th2 V2 A2 A2' ->
  M = M2 /\ T = T2 /\ th = th2 /\ V = V2 /\ A = A2 /\ A' = A2'.
Proof.
  intros H.
  pose proof (f_equal (fun r : row => r !! "machine_id") H) as H1.
  pose proof (f_equal (fun r : row => r !! "timestamp") H) as H2.
  pose proof (f_equal (fun r : row => r !! "temperature") H) as H3.
  pose proof (f_equal (fun r : row => r !! "vibration") H) as H4.
  pose proof (f_equal (fun r : row => r !! "Alert") H) as H5.
  pose proof (f_equal (fun r : row => r !! "alert_type") H) as H6.
  change (Some M = Some M2) in H1. change (Some T = Some T2) in H2.
  change (Some th = Some th2) in H3. change (Some V = Some V2) in H4.
  change (Some A = Some A2) in H5. change (Some A' = Some A2') in H6.
  split_all; congruence.
Qed.

Lemma normalize_alert_again M T th V A A' :
  (M = VNull \/ ToBoolean M = true) -> (T = VNull \/ ToBoolean T = true) ->
  (th = VNull \/ exists n, th = VNum n /\ decimal n) ->
  (V = VNull \/ exists n, V = VNum n /\ (n = NaN \/ decimal n)) ->
  ToBoolean A = true ->
  normalize_alert (alert_record M T th V A A') =
  alert_record M T
    (match th with VNum n => if is_zero n then VNull else th | _ => th end)
    (match V with VNum n => if is_nan n then VNull else V | _ => V end)
    A A.
Proof.
  intros HM HT Hth HV HA. rewrite normalize_alert_record. f_equal.
  - apply or_else_null_or_truthy, HM.
  - apply or_else_null_or_truthy, HT.
  - destruct Hth as [->|(n & -> & Hn)]; [reflexivity|]. apply alert_temperature_again, Hn.
  - destruct HV as [->|(n & -> & Hn)]; [reflexivity|]. rewrite alert_vibration_again.
    destruct Hn as [->|Hn]; [reflexivity|].
    now rewrite (decimal_not_nan n Hn), (parseFloat_number_decimal n Hn).
  - unfold or_else. now rewrite HA, HA.
  - unfold or_else. now rewrite HA, HA.
Qed.

Lemma canonical_alert_fixed r :
  canonical_alert r -> (normalize_alert r = r <-> settled_alert r).
Proof.
  intros (M & T & th & V & A & A' & -> & HM & HT & Hth & HV & HA & HA').
  rewrite (normalize_alert_again M T th V A A' HM HT Hth HV HA).
  unfold settled_alert.
  change (alert_record M T th V A A' !! "temperature") with (Some th).
  change (alert_record M T th V A A' !! "vibration") with (Some V).
  change (alert_record M T th V A A' !! "alert_type") with (Some A').
  change (alert_record M T th V A A' !! "Alert") with (Some A).
  split.
  - intros H. apply alert_record_inj in H. destruct H as (_ & _ & H3 & H4 & _ & H6).
    split_all.
    + intros n [= ->]. destruct (is_zero n); [discriminate|reflexivity].
    + intros [= ->]. discriminate.
    + now rewrite H6.
  - intros (H1 & H2 & H3). injection H3 as ->. f_equal.
    + destruct th as [| | |n|]; try reflexivity. now rewrite (H1 n eq_refl).
    + destruct V as [| | |n|]; try reflexivity.
      destruct n; try reflexivity. now destruct H2.
Qed.

Lemma map_idempotent {A} (f : A -> A) l :
  Forall (fun a => f (f a) = f a) l -> List.map f (List.map f l) = List.map f l.
Proof. induction 1 as [|a l Ha _ IH]; simpl; congruence. Qed.

Lemma map_idempotent_iff {A} (f : A -> A) l :
  List.map f (List.map f l) = List.map f l <-> Forall (fun a => f (f a) = f a) l.
Proof.
  split; [|apply map_idempotent].
  induction l as [|a l IH]; cbn [List.map]; intros H; constructor.
  - congruence.
  - apply IH. congruence.
Qed.

(** C8, as amended.  Every row [normalizeData] returns is canonical for its
    dataset.  A canonical sensor record is left as it is exactly when its
    machine id is a whole number below ten to the twenty-first in magnitude.
    A canonical alert record is left as it is exactly when its temperature is
    not zero, its vibration is not [NaN] and its [alert_type] is its label.
    So normalising a dataset twice gives what normalising it once gives
    exactly when the rows normalised once meet these conditions. *)
Theorem normalizeData_stable (host : string -> option Z) :
  (forall r, canonical_sensor (normalize_sensor host r)) /\
  (forall r, canonical_alert (normalize_alert r)) /\
  (forall r, canonical_sensor r -> (normalize_sensor host r = r <-> small_id r)) /\
  (forall r, canonical_alert r -> (normalize_alert r = r <-> settled_alert r)) /\
  (forall data filepath,
     Str.includes "alerts" filepath = false ->
     (normalizeData host (normalizeData host data filepath) filepath
        = normalizeData host data filepath
      <-> Forall (fun r => small_id (normalize_sensor host r)) data)) /\
  (forall data filepath,
     Str.includes "alerts" filepath = true ->
     (normalizeData host (normalizeData host data filepath) filepath
        = normalizeData host data filepath
      <-> Forall (fun r => settled_alert (normalize_alert r)) data)).
Proof.
  split_all.
  - apply normalize_sensor_canonical.
  - apply normalize_alert_canonical.
  - apply canonical_sensor_fixed_iff.
  - apply canonical_alert_fixed.
  - intros data fp Hfp. unfold normalizeData. rewrite Hfp.
    destruct data as [|r data]; [split; [constructor|reflexivity]|].
    change (List.map (normalize_sensor host) (List.map (normalize_sensor host) (r :: data))
            = List.map (normalize_sensor host) (r :: data)
            <-> Forall (fun r => small_id (normalize_sensor host r)) (r :: data)).
    rewrite map_idempotent_iff.
    split; apply List.Forall_impl; intros a Ha;
      apply (canonical_sensor_fixed_iff host _ (normalize_sensor_canonical host a)); exact Ha.
  - intros data fp Hfp. unfold normalizeData. rewrite Hfp.
    destruct data as [|r data]; [split; [constructor|reflexivity]|].
    change (List.map normalize_alert (List.map normalize_alert (r :: data))
            = List.map normalize_alert (r :: data)
            <-> Forall (fun r => settled_alert (normalize_alert r)) (r :: data)).
    rewrite map_idempotent_iff.
    split; apply List.Forall_impl; intros a Ha;
      apply (canonical_alert_fixed _ (normalize_alert_canonical a)); exact Ha.
Qed.

Lemma normalizeData_stable_witness :
  normalizeData Date.strict_host (normalizeData Date.strict_host raw_sensor_rows "sensor_data")
    "sensor_data"
    = normalizeData Date.strict_host raw_sensor_rows "sensor_data" /\
  normalizeData Date.strict_host (normalizeData Date.strict_host raw_alert_rows "alerts") "alerts"
    = normalizeData Date.strict_host raw_alert_rows "alerts".
Proof.
  destruct (normalizeData_stable Date.strict_host) as (_ & _ & _ & _ & Hsensor & Halert).
  split.
  - apply (Hsensor raw_sensor_rows "sensor_data" eq_refl).
    constructor; [|constructor; [|constructor]].
    + exists 7%Z. split; [vm_compute; reflexivity|reflexivity].
    + exists 0%Z. split; [vm_compute; reflexivity|reflexivity].
  - apply (Halert raw_alert_rows "alerts" eq_refl).
    constructor; [|constructor; [|constructor]].
    + unfold settled_alert. split_all.
      * intros n H. vm_compute in H. injection H as <-. reflexivity.
      * intros H. vm_compute in H. discriminate H.
      * vm_compute. reflexivity.
    + unfold settled_alert. split_all.
      * intros n H. vm_compute in H. discriminate H.
      * intros H. vm_compute in H. discriminate H.
      * vm_compute. reflexivity.
Defined.

(** C8, as the specification states it, fails on both datasets.  A
    temperature of 0 read from [0K] becomes [null] the second time and an
    [alert_type] of [Unknown] becomes the label; a machine id of ten to the
    twenty-first, which prints as [1e+21], becomes 1. *)
Lemma normalizeData_not_idempotent :
  (normalizeData Date.strict_host [zero_kelvin_alert] "alerts"
     = [normalize_alert zero_kelvin_alert] /\
   normalizeData Date.strict_host [normalize_alert zero_kelvin_alert] "alerts"
     = [normalize_alert (normalize_alert zero_kelvin_alert)] /\
   normalize_alert zero_kelvin_alert !! "temperature" = Some (VNum (of_Z 0)) /\
   normalize_alert (normalize_alert zero_kelvin_alert) !! "temperature" = Some VNull /\
   normalize_alert zero_kelvin_alert !! "alert_type" = Some (VStr "Unknown") /\
   normalize_alert (normalize_alert zero_kelvin_alert) !! "alert_type" = Some (VStr "check")) /\
  (normalizeData Date.strict_host [huge_id_reading] "sensor_data"
     = [normalize_sensor Date.strict_host huge_id_reading] /\
   normalizeData Date.strict_host [normalize_sensor Date.strict_host huge_id_reading]
     "sensor_data"
     = [normalize_sensor Date.strict_host (normalize_sensor Date.strict_host huge_id_reading)] /\
   normalize_sensor Date.strict_host huge_id_reading !! "machine_id"
     = Some (VNum (of_Z (10 ^ 21))) /\
   normalize_sensor Date.strict_host (normalize_sensor Date.strict_host huge_id_reading)
     !! "machine_id" = Some (VNum (of_Z 1))).
Proof. split_all; try reflexivity; vm_compute; reflexivity. Qed.

(** * Further properties *)

(** ** Normalisation *)

(** X1.  A normalised timestamp is never [NaN] and is always a whole number
    or infinite, whatever the raw value is. *)
Theorem normalizeTimestamp_whole (host : string -> option Z) (v : value) :
  is_nan (normalizeTimestamp host v) = false /\
  Num.floor (normalizeTimestamp host v) = normalizeTimestamp host v /\
  (normalizeTimestamp host v = PosInf \/ normalizeTimestamp host v = NegInf \/
   exists z, normalizeTimestamp host v = of_Z z).
Proof.
  pose proof (is_nan_normalizeTimestamp host v) as Hn.
  pose proof (normalizeTimestamp_integral host v) as Hf.
  split_all; auto.
  destruct (normalizeTimestamp host v) as [| | |q]; auto; [discriminate|].
  right; right. exists (Qfloor q). now rewrite <- Hf.
Qed.

(** X2.  For a file name that holds [alerts], [normalizeData] returns one
    row for each row it is given, and every row it returns has the six fields
    of an alert record: [machine_id] and [timestamp] present, [temperature]
    [null] or a number other than [NaN], [vibration] [null] or a number, and
    [Alert] and [alert_type] values that count as true. *)
Theorem normalizeData_alert_rows (host : string -> option Z) (data : list row) filepath :
  Str.includes "alerts" filepath = true ->
  List.length (normalizeData host data filepath) = List.length data /\
  forall r, List.In r (normalizeData host data filepath) -> normalized_alert_shape r.
Proof.
  intros Hfp. unfold normalizeData. rewrite Hfp.
  destruct data as [|r0 data]; [split; [reflexivity|intros r []]|].
  split; [apply length_map|].
  intros r Hr. apply in_map_iff in Hr. destruct Hr as (raw & <- & _).
  apply normalize_alert_shape.
Qed.

Lemma normalizeData_alert_rows_witness :
  List.length (normalizeData Date.strict_host [example_alert; zero_kelvin_alert] "alerts")
    = 2%nat.
Proof.
  exact (proj1 (normalizeData_alert_rows Date.strict_host
                  [example_alert; zero_kelvin_alert] "alerts" eq_refl)).
Defined.

(** X3.  The vibration of an alert is kept when [Number] can read the raw
    value, but what is kept is what [parseFloat] reads.  So a raw value
    [Number] cannot read gives [null] even where [parseFloat] would read a
    number, and a string of white space only, which [Number] reads as 0 and
    [parseFloat] cannot read, gives [NaN]. *)
Theorem normalize_alert_vibration (r : row) :
  let vib := prop r "Vibration" ||| prop r "vibration" in
  (isNaN vib = true -> normalize_alert r !! "vibration" = Some VNull) /\
  (is_nullish vib = false -> isNaN vib = false ->
     normalize_alert r !! "vibration" = Some (VNum (parseFloat vib))) /\
  (forall s, prop r "Vibration" = VStr s -> s <> "" -> Str.trimStart s = "" ->
     normalize_alert r !! "vibration" = Some (VNum NaN)).
Proof.
  cbv zeta.
  change (normalize_alert r !! "vibration") with
    (Some (let vib := prop r "Vibration" ||| prop r "vibration" in
           if negb (strict_eq vib VNull) && negb (strict_eq vib VUndefined) && negb (isNaN vib)
           then VNum (parseFloat vib) else VNull)).
  cbv zeta. split_all.
  - intros ->. now rewrite andb_false_r.
  - intros Hnull ->. now destruct (prop r "Vibration" ||| prop r "vibration").
  - intros s Hs Hne Hblank. unfold or_else. rewrite Hs.
    destruct s as [|c s]; [congruence|]. cbn [ToBoolean Str.is_empty negb].
    unfold isNaN, parseFloat. cbn [ToNumber ToString strict_eq negb andb].
    unfold Lex.StringToNumber, Lex.parseFloat, Str.trim. rewrite Hblank.
    reflexivity.
Qed.

Lemma normalize_alert_vibration_witness :
  normalize_alert {[ "Vibration" := VStr "12abc" ]} !! "vibration" = Some VNull /\
  normalize_alert {[ "Vibration" := VStr "  " ]} !! "vibration" = Some (VNum NaN).
Proof.
  destruct (normalize_alert_vibration {[ "Vibration" := VStr "12abc" ]}) as (H1 & _ & _).
  destruct (normalize_alert_vibration {[ "Vibration" := VStr "  " ]}) as (_ & _ & H3).
  split.
  - apply H1. vm_compute. reflexivity.
  - apply (H3 "  "); [reflexivity|discriminate|vm_compute; reflexivity].
Defined.

(** ** Statistics *)

(** X4.  [calculateStatistics] completes exactly when every alert label is
    a string or counts as false.  Otherwise it throws in its first filter:
    the counts of machines and readings are already set, and the alert counts
    and the health keep the values they had. *)
Theorem calculateStatistics_throws (d : DashboardData) :
  (snd (calculateStatistics d) = Normal tt <-> Forall label_ok (alerts d)) /\
  (snd (calculateStatistics d) = TypeError ->
     critical (fst (calculateStatistics d)) = critical d /\
     warnings (fst (calculateStatistics d)) = warnings d /\
     normal (fst (calculateStatistics d)) = normal d /\
     health (fst (calculateStatistics d)) = health d /\
     readings (fst (calculateStatistics d))
       = num_or_else (of_nat (List.length (sensorData d))) (of_Z 10000)).
Proof.
  split.
  - split.
    + intros H. apply (calculateStatistics_normal d (fst (calculateStatistics d))).
      rewrite <- H. now destruct (calculateStatistics d).
    + intros H. now rewrite (calculateStatistics_ok d H).
  - unfold calculateStatistics. cbn [alerts set_machines set_readings].
    destruct (count_alerts (label_includes "CRITICAL") (alerts d)) as [c|] eqn:Hc.
    + pose proof (count_alerts_normal _ _ _ Hc) as Hok.
      cbn [alerts set_critical set_warnings].
      rewrite !count_alerts_ok by exact Hok. discriminate.
    + intros _. split_all; reflexivity.
Qed.

(** ** The machine map *)

Lemma same_value_zero_refl v : same_value_zero v v = true.
Proof.
  destruct v as [| |b|n|s]; try reflexivity.
  - now destruct b.
  - destruct n; try reflexivity. simpl. apply Qeqb_eq. reflexivity.
  - simpl. apply String.eqb_refl.
Qed.

Lemma Map_has_keys {A} k (m : list (value * A)) : Map_has k m = mem_svz k (List.map fst m).
Proof. induction m as [|[k' a] m IH]; simpl; [reflexivity|now rewrite IH]. Qed.

Lemma Map_set_fresh {A} k (a : A) m :
  Map_has k m = false -> Map_set k a m = (m ++ [(k, a)])%list.
Proof.
  induction m as [|[k' a'] m IH]; simpl; [reflexivity|].
  intros [H1 H2]%orb_false_iff. rewrite H1. now rewrite IH.
Qed.

Lemma mem_svz_false v l :
  mem_svz v l = false <-> forall x, List.In x l -> same_value_zero x v = false.
Proof.
  induction l as [|y l IH]; simpl.
  - split; [intros _ x []|reflexivity].
  - rewrite orb_false_iff, IH. split.
    + intros [H1 H2] x [<-|Hx]; auto.
    + intros H. split; auto.
Qed.

(** With distinct keys, updating the entry of a key touches the one entry
    whose key is the same value. *)
Lemma Map_update_distinct {A} k (f : A -> A) m :
  distinct (List.map fst m) = true ->
  Map_update k f m =
    List.map (fun e => (fst e, if same_value_zero (fst e) k then f (snd e) else snd e)) m.
Proof.
  induction m as [|[k' a] m IH]; simpl; [reflexivity|].
  intros [Hk Hd]%andb_true_iff. apply negb_true_iff in Hk.
  destruct (same_value_zero k' k) eqn:Hkk.
  - f_equal. rewrite <- (map_id m) at 1. apply map_ext_in.
    intros [k2 a2] Hin. simpl.
    destruct (same_value_zero k2 k) eqn:H2; [|reflexivity].
    exfalso. rewrite mem_svz_false in Hk.
    assert (same_value_zero k2 k' = true) as Hc.
    { eapply same_value_zero_trans; [exact H2|]. now rewrite same_value_zero_sym. }
    rewrite (Hk k2) in Hc; [discriminate|].
    apply in_map_iff. now exists (k2, a2).
  - f_equal. now apply IH.
Qed.

Lemma keys_update {A} (g : value * A -> A) m :
  List.map fst (List.map (fun e => (fst e, g e)) m) = List.map fst m.
Proof. induction m as [|e m IH]; simpl; congruence. Qed.

Lemma add_reading_accumulate machineMap reading :
  add_reading machineMap reading =
    Map_update (prop reading "machine_id") (fun machine => accumulate machine reading)
      (if negb (Map_has (prop reading "machine_id") machineMap)
       then Map_set (prop reading "machine_id") (new_machine (prop reading "machine_id")) machineMap
       else machineMap).
Proof. reflexivity. Qed.

Lemma readings_of_app id l1 l2 :
  readings_of id (l1 ++ l2) = (readings_of id l1 ++ readings_of id l2)%list.
Proof. unfold readings_of. apply List.filter_app. Qed.

Lemma filter_none {A} (f : A -> bool) l :
  (forall x, List.In x l -> f x = false) -> List.filter f l = [].
Proof.
  induction l as [|a l IH]; simpl; [reflexivity|].
  intros H. rewrite (H a) by now left. apply IH. intros x Hx. apply H. now right.
Qed.

Lemma Set_of_snoc l v :
  Set_of (l ++ [v]) = if mem_svz v (Set_of l) then Set_of l else (Set_of l ++ [v])%list.
Proof. unfold Set_of. now rewrite fold_left_app. Qed.

Lemma grouped_step seen machineMap reading :
  grouped seen machineMap -> grouped (seen ++ [reading]) (add_reading machineMap reading).
Proof.
  intros [Hkeys Hent].
  set (ids := List.map (fun r => prop r "machine_id") seen) in *.
  destruct (Set_of_spec ids) as [Hdist Hmem].
  set (id := prop reading "machine_id").
  assert (forall k, same_value_zero k id = false ->
            readings_of k (seen ++ [reading]) = readings_of k seen) as Hother.
  { intros k Hk. rewrite readings_of_app. simpl. fold id. rewrite Hk. apply app_nil_r. }
  assert (forall k, same_value_zero k id = true ->
            readings_of k (seen ++ [reading]) = (readings_of k seen ++ [reading])%list) as Hsame.
  { intros k Hk. rewrite readings_of_app. simpl. fold id. now rewrite Hk. }
  assert (List.map (fun r => prop r "machine_id") (seen ++ [reading]) = (ids ++ [id])%list)
    as Hids by (rewrite map_app; reflexivity).
  unfold grouped. rewrite Hids, Set_of_snoc.
  rewrite add_reading_accumulate. fold id.
  rewrite Map_has_keys, Hkeys.
  destruct (mem_svz id (Set_of ids)) eqn:Hin; cbn [negb].
  - (* the machine is known *)
    rewrite Map_update_distinct by (rewrite Hkeys; exact Hdist).
    split.
    + rewrite keys_update. exact Hkeys.
    + intros k m Hkm. apply in_map_iff in Hkm. destruct Hkm as ([k0 m0] & Heq & Hin0).
      cbn [fst snd] in Heq. injection Heq as <- <-.
      destruct (Hent k0 m0 Hin0) as [Hne ->].
      destruct (same_value_zero k0 id) eqn:Hk.
      * rewrite (Hsame k0 Hk), fold_left_app. split; [|reflexivity].
        intros E. now apply app_eq_nil in E.
      * now rewrite (Hother k0 Hk).
  - (* a new machine *)
    assert (Map_has id machineMap = false) as Hfresh by now rewrite Map_has_keys, Hkeys.
    rewrite (Map_set_fresh _ _ _ Hfresh).
    rewrite Map_update_distinct.
    2:{ rewrite map_app, Hkeys. apply distinct_snoc; assumption. }
    split.
    + rewrite keys_update, map_app, Hkeys. reflexivity.
    + intros k m Hkm. apply in_map_iff in Hkm. destruct Hkm as ([k0 m0] & Heq & Hin0).
      cbn [fst snd] in Heq. injection Heq as <- <-.
      apply in_app_or in Hin0. destruct Hin0 as [Hin0|[[= <- <-]|[]]].
      * assert (same_value_zero k0 id = false) as Hk.
        { rewrite mem_svz_false in Hin. apply Hin. rewrite <- Hkeys.
          apply in_map_iff. now exists (k0, m0). }
        rewrite Hk, (Hother k0 Hk). now apply Hent.
      * rewrite same_value_zero_refl, (Hsame id (same_value_zero_refl id)).
        assert (readings_of id seen = []) as ->.
        { apply filter_none. intros r Hr.
          rewrite Hmem, mem_svz_false in Hin.
          rewrite same_value_zero_sym. apply Hin. unfold ids.
          apply in_map_iff. now exists r. }
        split; [discriminate|reflexivity].
Qed.

Lemma grouped_fold readings : grouped readings (fold_left add_reading readings []).
Proof.
  induction readings as [|r readings IH] using rev_ind.
  - split; [reflexivity|intros k m []].
  - rewrite fold_left_app. apply grouped_step, IH.
Qed.

Lemma Qred_inject_Z z : Qred (inject_Z z) = inject_Z z.
Proof.
  unfold Qred, inject_Z. simpl.
  pose proof (Z.ggcd_gcd z 1) as Hg.
  pose proof (Z.ggcd_correct_divisors z 1) as Hd.
  destruct (Z.ggcd z 1) as [g [a b]]. simpl in Hg.
  rewrite Z.gcd_1_r in Hg. subst g. destruct Hd as [Ha Hb].
  rewrite Z.mul_1_l in Ha, Hb. now subst a b.
Qed.

Lemma of_nat_succ n : (of_nat n + of_Z 1)%num = of_nat (S n).
Proof.
  unfold of_nat, of_Z, Num.add, fin. rewrite <- inject_Z_plus, Qred_inject_Z.
  do 2 f_equal. lia.
Qed.

(** The record a machine gets from its own readings. *)
Lemma accumulate_fields k readings :
  let m := fold_left accumulate readings (new_machine k) in
  Machine.id m = k /\
  Machine.readings m = of_nat (List.length readings) /\
  Machine.avgTemp m = sum_of "temperature" readings /\
  Machine.avgVibration m = sum_of "vibration" readings /\
  (readings <> [] ->
   Machine.lastTemp m = VNum (parseFloat (prop (List.last readings ∅) "temperature")) /\
   Machine.lastVibration m = VNum (parseFloat (prop (List.last readings ∅) "vibration"))).
Proof.
  induction readings as [|r readings IH] using rev_ind; cbv zeta.
  - split_all; try reflexivity. intros H. now contradiction H.
  - unfold sum_of. rewrite !fold_left_app. cbn [fold_left accumulate Machine.id Machine.readings
      Machine.avgTemp Machine.avgVibration Machine.lastTemp Machine.lastVibration].
    cbv zeta in IH. destruct IH as (H1 & H2 & H3 & H4 & _).
    rewrite H1, H2, H3, H4, of_nat_succ, length_app, last_last. cbn [List.length].
    rewrite Nat.add_1_r. split_all; try reflexivity. intros _. split; reflexivity.
Qed.

Lemma score_machine_keeps alerts id machine machine' :
  score_machine alerts id machine = Normal machine' ->
  Machine.id machine' = Machine.id machine /\
  Machine.readings machine' = Machine.readings machine /\
  Machine.alerts machine' = of_nat (List.length (List.filter (of_machine id) alerts)).
Proof.
  unfold score_machine. intros H.
  destruct (count_alerts (machine_alert "CRITICAL" id) alerts) as [c|]; [|discriminate].
  destruct (count_alerts (machine_alert "WARNING" id) alerts) as [w|]; [|discriminate].
  simpl in H. injection H as <-. split_all; reflexivity.
Qed.

Lemma score_machines_keys alerts machineMap result :
  score_machines alerts machineMap = Normal result ->
  List.map fst result = List.map fst machineMap.
Proof.
  revert result. induction machineMap as [|[k m] rest IH]; intros result H; simpl in H.
  - now injection H as <-.
  - destruct (score_machine alerts k m) as [m'|]; [|discriminate]. simpl in H.
    destruct (score_machines alerts rest) as [rest'|]; [|discriminate]. simpl in H.
    injection H as <-. simpl. f_equal. now apply IH.
Qed.

(** X5.  The machine map of [showMachinesPage] has one entry for each
    distinct [machine_id] of the readings, in the order of first appearance.
    The entry of a machine is computed from the readings of that machine
    alone, in the order of the array: their number, the sums of their
    temperatures and vibrations divided by that number, the temperature and
    vibration of the last of them, and the number of alerts of the machine. *)
Theorem showMachinesPage_groups (d : DashboardData) machineMap :
  showMachinesPage d = Normal machineMap ->
  List.map fst machineMap
    = Set_of (List.map (fun r => prop r "machine_id") (sensorData d)) /\
  distinct (List.map fst machineMap) = true /\
  forall id machine, List.In (id, machine) machineMap ->
    let own := readings_of id (sensorData d) in
    own <> [] /\
    Machine.id machine = id /\
    Machine.readings machine = of_nat (List.length own) /\
    Machine.avgTemp machine = (sum_of "temperature" own / of_nat (List.length own))%num /\
    Machine.avgVibration machine = (sum_of "vibration" own / of_nat (List.length own))%num /\
    Machine.lastTemp machine = VNum (parseFloat (prop (List.last own ∅) "temperature")) /\
    Machine.lastVibration machine = VNum (parseFloat (prop (List.last own ∅) "vibration")) /\
    Machine.alerts machine
      = of_nat (List.length (List.filter (of_machine id) (alerts d))).
Proof.
  unfold showMachinesPage. intros H.
  destruct (grouped_fold (sensorData d)) as [Hkeys Hent].
  pose proof (score_machines_keys _ _ _ H) as Hk. rewrite Hkeys in Hk.
  split_all.
  - exact Hk.
  - rewrite Hk. apply Set_of_spec.
  - intros id machine Hin. cbv zeta.
    destruct (score_machines_In _ _ _ _ _ H Hin) as (m0 & Hin0 & Hs).
    destruct (Hent id m0 Hin0) as [Hne Hm0].
    destruct (accumulate_fields id (readings_of id (sensorData d)))
      as (F1 & F2 & F3 & F4 & F5).
    cbv zeta in F1, F2, F3, F4, F5. rewrite <- Hm0 in F1, F2, F3, F4, F5.
    destruct (F5 Hne) as [F6 F7].
    destruct (score_machine_keeps _ _ _ _ Hs) as (K1 & K2 & K3).
    destruct (score_machine_inv _ _ _ _ Hs) as (I1 & I2 & I3 & I4 & _).
    split_all; congruence.
Qed.

Lemma showMachinesPage_groups_witness :
  exists machine,
    showMachinesPage (set_sensorData cold_readings initial_dashboard)
      = Normal [(VNum (of_Z 1), machine)] /\
    Machine.readings machine = of_Z 2 /\
    Machine.lastTemp machine = VNum (of_Z (-3)).
Proof.
  eexists. split; [vm_compute; reflexivity|].
  match goal with
  | |- Machine.readings ?m = _ /\ _ =>
      destruct (showMachinesPage_groups (set_sensorData cold_readings initial_dashboard)
                  [(VNum (of_Z 1), m)]) as (_ & _ & H)
  end.
  - vm_compute. reflexivity.
  - destruct (H (VNum (of_Z 1)) _ (or_introl eq_refl)) as (_ & _ & H3 & _ & _ & H6 & _).
    split; [exact H3|exact H6].
Defined.

(** ** The status of a machine *)

Lemma gtb_of_nat n : Num.gtb (of_nat n) (of_Z 0) = (0 <? n)%nat.
Proof.
  unfold Num.gtb, Num.ltb, of_nat, of_Z, Qltb. simpl. rewrite Z.mul_1_r.
  destruct n; [reflexivity|]. simpl. reflexivity.
Qed.

Lemma filter_nonempty {A} (p : A -> bool) l :
  (0 <? List.length (List.filter p l))%nat = true <-> exists a, List.In a l /\ p a = true.
Proof.
  rewrite Nat.ltb_lt. split.
  - intros H. destruct (List.filter p l) as [|a rest] eqn:E; [simpl in H; lia|].
    exists a. apply filter_In. rewrite E. now left.
  - intros (a & Ha & Hp).
    assert (List.In a (List.filter p l)) as Hin by (apply filter_In; now split).
    destruct (List.filter p l); [destruct Hin|simpl; lia].
Qed.

Lemma machine_alert_ok token id a :
  label_ok a -> machine_alert token id a = Normal (machine_has token id a).
Proof.
  intros H. unfold machine_alert, machine_has.
  destruct (of_machine id a); [|reflexivity]. now rewrite (label_includes_ok _ _ H).
Qed.

Lemma score_machine_total alerts id machine :
  Forall label_ok alerts -> exists machine', score_machine alerts id machine = Normal machine'.
Proof.
  intros H. unfold score_machine, count_alerts.
  rewrite (filter_throwing_pure (machine_alert "CRITICAL" id) (machine_has "CRITICAL" id)),
    (filter_throwing_pure (machine_alert "WARNING" id) (machine_has "WARNING" id)).
  - simpl. eauto.
  - eapply List.Forall_impl; [|exact H]. intros a. apply machine_alert_ok.
  - eapply List.Forall_impl; [|exact H]. intros a. apply machine_alert_ok.
Qed.

Lemma score_machines_total alerts machineMap :
  Forall label_ok alerts -> exists result, score_machines alerts machineMap = Normal result.
Proof.
  intros H. induction machineMap as [|[k m] rest [rest' IH]]; simpl; [eauto|].
  destruct (score_machine_total alerts k m H) as [m' ->]. rewrite IH. simpl. eauto.
Qed.

(** X6.  [showMachinesPage] builds its machine map without throwing when
    every alert label is a string or counts as false.  In the map it builds, a
    machine is [critical] exactly when one of its alerts has [CRITICAL] in its
    label, [warning] exactly when none has but one has [WARNING], and [normal]
    otherwise; an alert belongs to the machine when its [machine_id], or its
    [Machine] if that is missing, loosely equals the machine id. *)
Theorem showMachinesPage_status (d : DashboardData) :
  (Forall label_ok (alerts d) -> exists machineMap, showMachinesPage d = Normal machineMap) /\
  (forall machineMap id machine,
     showMachinesPage d = Normal machineMap -> List.In (id, machine) machineMap ->
     let has token := exists a, List.In a (alerts d) /\ machine_has token id a = true in
     (Machine.status machine = "critical" <-> has "CRITICAL") /\
     (Machine.status machine = "warning" <-> ~ has "CRITICAL" /\ has "WARNING") /\
     (Machine.status machine = "normal" <-> ~ has "CRITICAL" /\ ~ has "WARNING")).
Proof.
  split.
  - intros H. unfold showMachinesPage. now apply score_machines_total.
  - intros machineMap id machine H Hin. cbv zeta. unfold showMachinesPage in H.
    destruct (score_machines_In _ _ _ _ _ H Hin) as (m0 & _ & Hs).
    destruct (score_machine_inv _ _ _ _ Hs) as (_ & _ & _ & _ & Hst & _).
    cbv zeta in Hst. rewrite !gtb_of_nat in Hst. rewrite Hst.
    rewrite <- !filter_nonempty.
    destruct (0 <? List.length (List.filter (machine_has "CRITICAL" id) (alerts d)))%nat;
      destruct (0 <? List.length (List.filter (machine_has "WARNING" id) (alerts d)))%nat;
      intuition (try discriminate; try congruence).
Qed.

Lemma showMachinesPage_status_witness :
  exists machineMap,
    showMachinesPage (set_alerts [example_alert] (set_sensorData [example_reading] initial_dashboard))
      = Normal machineMap.
Proof.
  apply (proj1 (showMachinesPage_status
                  (set_alerts [example_alert] (set_sensorData [example_reading] initial_dashboard)))).
  constructor; [right; eexists; reflexivity | constructor].
Defined.

(** ** The mock generator *)

Lemma push_rows_draws (body : nat -> Rand row) (n : nat) count first data k :
  (forall i j, snd (body i j) = (j + n)%nat) ->
  snd (push_rows body count first data k) = (k + count * n)%nat.
Proof.
  intros Hb. revert first data k.
  induction count as [|count IH]; intros first data k; simpl; [lia|].
  pose proof (Hb first k) as H. destruct (body first k) as [r0 k0]. simpl in H. subst k0.
  rewrite IH. lia.
Qed.

Lemma floor_scaled_plus_one q :
  (Num.floor (fin q * of_Z 100) + of_Z 1)%num = of_Z (Qfloor (q * 100) + 1).
Proof.
  unfold fin, of_Z, Num.mul, Num.floor, Num.add, fin, of_Z.
  rewrite <- inject_Z_plus, Qred_inject_Z. do 3 f_equal.
  rewrite Qfloor_Qred. apply Qfloor_comp. now rewrite Qred_correct.
Qed.

Lemma offset_plus_scaled q a b :
  exists t, (of_Z a + fin q * of_Z b)%num = Fin t /\ (t == inject_Z a + q * inject_Z b)%Q.
Proof.
  eexists. split; [reflexivity|]. now rewrite !Qred_correct.
Qed.

Lemma mock_sensor_row_ranges random i k :
  (forall j, 0 <= random j < 1)%Q ->
  exists m t v,
    fst (mock_sensor_row random i k) = sensor_record (of_Z m) (Fin t) (Fin v) (of_nat i) /\
    (1 <= m <= 100)%Z /\ (295 <= t <= 325)%Q /\ (1200 <= v <= 2200)%Q.
Proof.
  intros Hr. unfold mock_sensor_row, Math_random. cbn [fst].
  destruct (offset_plus_scaled (random (S k)) 295 30) as (t & Ht & Ht').
  destruct (offset_plus_scaled (random (S (S k))) 1200 1000) as (v & Hv & Hv').
  exists (Qfloor (random k * 100) + 1)%Z, t, v.
  rewrite floor_scaled_plus_one, Ht, Hv. split; [reflexivity|].
  pose proof (Hr k) as H0. pose proof (Hr (S k)) as H1. pose proof (Hr (S (S k))) as H2.
  split_all.
  - assert (0 <= Qfloor (random k * 100))%Z; [|lia].
    change 0%Z with (Qfloor 0). apply Qfloor_resp_le. lra.
  - assert (Qfloor (random k * 100) < 100)%Z; [|lia].
    apply Z.lt_nge. intros Hge. rewrite Zle_Qle in Hge.
    pose proof (Qfloor_le (random k * 100)). change (inject_Z 100) with 100%Q in Hge. lra.
  - rewrite Ht'. change (inject_Z 295) with 295%Q. change (inject_Z 30) with 30%Q. lra.
  - rewrite Ht'. change (inject_Z 295) with 295%Q. change (inject_Z 30) with 30%Q. lra.
  - rewrite Hv'. change (inject_Z 1200) with 1200%Q. change (inject_Z 1000) with 1000%Q. lra.
  - rewrite Hv'. change (inject_Z 1200) with 1200%Q. change (inject_Z 1000) with 1000%Q. lra.
Qed.

(** X7.  When [Math.random] returns numbers in [[0, 1)], every row of the
    mock sensor data has a whole [machine_id] between 1 and 100, a temperature
    between 295 and 325, a vibration between 1200 and 2200 and a timestamp
    between 1 and 1000; generating the data takes exactly 3000 random
    numbers.  The upper ends of the temperature and of the vibration are
    included: the sums are below them, and rounding can reach them. *)
Theorem generateMockData_sensor_ranges (random : nat -> Q) (k : nat) :
  (forall j, 0 <= random j < 1)%Q ->
  (forall r, List.In r (fst (generateMockData random "sensor_data" k)) ->
     exists (m : Z) (t v : Q) (i : nat),
       r = sensor_record (of_Z m) (Fin t) (Fin v) (of_nat i) /\
       (1 <= m <= 100)%Z /\ (295 <= t <= 325)%Q /\ (1200 <= v <= 2200)%Q /\
       (1 <= i <= 1000)%nat) /\
  snd (generateMockData random "sensor_data" k) = (k + 3000)%nat.
Proof.
  intros Hr.
  change (generateMockData random "sensor_data") with (push_rows (mock_sensor_row random) 1000 1 []).
  split.
  - intros r Hin.
    destruct (push_rows_spec (mock_sensor_row random) 1000 1 [] k) as (_ & _ & H3).
    destruct (H3 r Hin) as [[]|(i & k' & Hi & ->)].
    destruct (mock_sensor_row_ranges random i k' Hr) as (m & t & v & E & Hm & Ht & Hv).
    exists m, t, v, i. split_all; try assumption; try apply Hm; try apply Ht; try apply Hv; lia.
  - rewrite (push_rows_draws (mock_sensor_row random) 3); [lia|].
    intros i j. unfold mock_sensor_row, Math_random. cbn [snd]. lia.
Qed.

Lemma generateMockData_sensor_ranges_witness :
  (forall j : nat, 0 <= (fun _ : nat => 1 # 2) j < 1)%Q /\
  snd (generateMockData (fun _ => 1 # 2) "sensor_data" 0) = (0 + 3000)%nat.
Proof.
  assert (forall j : nat, 0 <= (fun _ : nat => 1 # 2) j < 1)%Q as H
    by (intros j; split; [unfold Qle | unfold Qlt]; simpl; lia).
  split; [exact H|].
  destruct (generateMockData_sensor_ranges (fun _ => 1 # 2) 0 H) as [_ E].
  exact E.
Defined.

(** ** The dashboard on mock data *)

Lemma mock_alert_one_bucket (a : row) :
  mock_alert_shape a ->
  label_ok a /\
  ((if has_token "CRITICAL" a then 1 else 0) + (if has_token "WARNING" a then 1 else 0)
   + (if has_token "Normal" a then 1 else 0) = 1)%nat.
Proof.
  intros (_ & _ & _ & _ & _ & _ & (s & Hs & Hin) & _).
  assert (prop a "Alert" = VStr s) as Hp by (unfold prop; now rewrite Hs).
  split; [right; eauto|].
  unfold has_token. rewrite Hp.
  destruct Hin as [<-|[<-|[<-|[<-|[]]]]]; vm_compute; reflexivity.
Qed.

Lemma buckets_partition (l : list row) :
  Forall (fun a =>
    ((if has_token "CRITICAL" a then 1 else 0) + (if has_token "WARNING" a then 1 else 0)
     + (if has_token "Normal" a then 1 else 0) = 1)%nat) l ->
  (List.length (List.filter (has_token "CRITICAL") l)
   + List.length (List.filter (has_token "WARNING") l)
   + List.length (List.filter (has_token "Normal") l) = List.length l)%nat.
Proof.
  induction 1 as [|a l Ha _ IH]; [reflexivity|]. simpl.
  destruct (has_token "CRITICAL" a), (has_token "WARNING" a), (has_token "Normal" a);
    simpl in *; lia.
Qed.

(** X8.  When both requests fail, the dashboard is built from mock data and
    [calculateStatistics] completes on it: there are 1000 readings and 1000
    alerts, every alert is counted in exactly one of the three buckets, so the
    critical, warning and normal counts add up to 1000, and the health is a
    number between 0 and 100. *)
Theorem loadDashboardData_mock (host : string -> option Z) (random : nat -> Q)
    (d0 : DashboardData) (k : nat) :
  exists (d : DashboardData) (k' c w n : nat) (h : Q),
    loadDashboardData host random Failed Failed d0 k = (Some (d, Normal tt), k') /\
    List.length (sensorData d) = 1000%nat /\
    List.length (alerts d) = 1000%nat /\
    readings d = of_Z 1000 /\
    critical d = of_nat c /\ warnings d = of_nat w /\ normal d = of_nat n /\
    (c + w + n = 1000)%nat /\
    health d = Fin h /\ (0 <= h <= 100)%Q.
Proof.
  unfold loadDashboardData, loadCSV.
  change (generateMockData random "sensor_data") with (push_rows (mock_sensor_row random) 1000 1 []).
  change (generateMockData random "alerts") with (push_rows (mock_alert_row random) 1000 1 []).
  destruct (push_rows_spec (mock_sensor_row random) 1000 1 [] k) as (Hs & _ & _).
  destruct (push_rows (mock_sensor_row random) 1000 1 [] k) as [sensor k1]. cbn [fst] in Hs.
  destruct (push_rows_spec (mock_alert_row random) 1000 1 [] k1) as (Ha & _ & Hrows).
  destruct (push_rows (mock_alert_row random) 1000 1 [] k1) as [mock k2]. cbn [fst] in Ha, Hrows.
  assert (Forall (fun a => label_ok a /\
            ((if has_token "CRITICAL" a then 1 else 0) + (if has_token "WARNING" a then 1 else 0)
             + (if has_token "Normal" a then 1 else 0) = 1)%nat) mock) as Hall.
  { apply List.Forall_forall. intros a Hin.
    destruct (Hrows a Hin) as [[]|(i & k' & _ & ->)].
    apply mock_alert_one_bucket, mock_alert_row_shape. }
  assert (Forall label_ok mock) as Hok
    by (eapply List.Forall_impl; [|exact Hall]; now intros a []).
  pose proof (buckets_partition mock
                ltac:(eapply List.Forall_impl; [|exact Hall]; now intros a [])) as Hsum.
  rewrite (calculateStatistics_ok (set_alerts mock (set_sensorData sensor d0)) Hok).
  cbv zeta. cbn [alerts sensorData set_alerts set_sensorData].
  change (List.length (@nil row) + 1000)%nat with 1000%nat in Hs, Ha.
  rewrite Hs.
  destruct (readings_positive 1000) as (r & Hr & Hpos).
  destruct (health_value (List.length (List.filter (has_token "CRITICAL") mock))
              (List.length (List.filter (has_token "WARNING") mock)) r Hpos)
    as (h & Hh & Hb & _).
  eexists _, k2, _, _, _, h. split; [reflexivity|].
  cbn [sensorData alerts readings critical warnings normal health].
  rewrite Hr, Hh. split_all; try reflexivity; try assumption; try apply Hb.
  - rewrite <- Hr. reflexivity.
  - rewrite Hsum. exact Ha.
Qed.

(** ** The status chart *)

Lemma Set_fold_In (l acc : list value) v :
  List.In v (fold_left (fun acc v => if mem_svz v acc then acc else (acc ++ [v])%list) l acc) ->
  List.In v acc \/ List.In v l.
Proof.
  revert acc. induction l as [|x l IH]; intros acc H; simpl in *; [now left|].
  apply IH in H. destruct H as [H|H]; [|now right; right].
  destruct (mem_svz x acc); [now left|].
  apply in_app_or in H. destruct H as [H|[<-|[]]]; [now left|now right; left].
Qed.

Lemma Set_of_In l v : List.In v (Set_of l) -> List.In v l.
Proof. intros H. apply Set_fold_In in H. now destruct H as [[]|H]. Qed.

Lemma chart_includes_ok token a :
  token <> "" -> label_ok a ->
  Charts.includes (or_else (prop a "Alert") (VStr "")) token = Normal (has_token token a).
Proof.
  intros Ht Hok.
  assert (Str.includes token "" = false) as Hempty by (destruct token; [congruence|reflexivity]).
  unfold has_token, or_else. destruct Hok as [H|(s & H)].
  - rewrite H. cbn [Charts.includes]. rewrite Hempty.
    destruct (prop a "Alert") as [| |b|n|s]; try reflexivity.
    cbn [ToBoolean] in H. now rewrite H.
  - rewrite H. cbn [ToBoolean]. destruct s; cbn [Str.is_empty negb Charts.includes andb].
    + now rewrite Hempty.
    + reflexivity.
Qed.

Lemma record_status_ok machineStatus a :
  label_ok a ->
  Charts.record_status machineStatus a =
  Normal (if Map_has (charted_machine a) machineStatus then machineStatus
          else Map_set (charted_machine a) (label_status a) machineStatus).
Proof.
  intros Hok. unfold Charts.record_status, charted_machine, label_status.
  destruct (Map_has _ machineStatus); [reflexivity|]. cbn [negb].
  rewrite !chart_includes_ok by (assumption || discriminate).
  cbn [mbind completion_bind].
  destruct (has_token "CRITICAL" a); [reflexivity|].
  destruct (has_token "WARNING" a); reflexivity.
Qed.

Lemma find_app {A} (p : A -> bool) l1 l2 :
  List.find p (l1 ++ l2) = match List.find p l1 with Some a => Some a | None => List.find p l2 end.
Proof. induction l1 as [|a l1 IH]; simpl; [reflexivity|]. now destruct (p a). Qed.

Lemma find_no_match {A} (p : A -> bool) l :
  (forall a, List.In a l -> p a = false) -> List.find p l = None.
Proof.
  induction l as [|a l IH]; intros H; simpl; [reflexivity|].
  rewrite (H a) by now left. apply IH. intros b Hb. apply H. now right.
Qed.

Lemma first_status_old alerts a machine :
  List.In machine (List.map charted_machine alerts) ->
  first_status (alerts ++ [a]) machine = first_status alerts machine.
Proof.
  intros Hin. unfold first_status, first_alert. rewrite find_app.
  destruct (List.find _ alerts) eqn:E; [reflexivity|].
  apply in_map_iff in Hin. destruct Hin as (b & <- & Hb).
  pose proof (List.find_none _ _ E b Hb) as H. cbv beta in H.
  now rewrite same_value_zero_refl in H.
Qed.

Lemma first_status_new alerts a :
  mem_svz (charted_machine a) (List.map charted_machine alerts) = false ->
  first_status (alerts ++ [a]) (charted_machine a) = label_status a.
Proof.
  intros Hnew. unfold first_status, first_alert. rewrite find_app.
  rewrite find_no_match.
  - simpl. now rewrite same_value_zero_refl.
  - intros b Hb. apply (proj1 (mem_svz_false _ _) Hnew). apply in_map_iff. eauto.
Qed.

(** The status map after the alerts [seen]. *)
Lemma status_map_step seen a :
  label_ok a ->
  Charts.record_status
    (List.map (fun machine => (machine, first_status seen machine)) (charted_machines seen)) a =
  Normal (List.map (fun machine => (machine, first_status (seen ++ [a]) machine))
            (charted_machines (seen ++ [a]))).
Proof.
  intros Hok. rewrite record_status_ok by exact Hok. f_equal.
  rewrite Map_has_keys, List.map_map. cbn [fst]. rewrite List.map_id.
  change (charted_machines (seen ++ [a])) with (Set_of (List.map charted_machine (seen ++ [a]))).
  rewrite List.map_app. cbn [List.map]. rewrite Set_of_snoc.
  fold (charted_machines seen).
  assert (List.map (fun machine => (machine, first_status (seen ++ [a]) machine)) (charted_machines seen)
          = List.map (fun machine => (machine, first_status seen machine)) (charted_machines seen)) as Hold.
  { apply List.map_ext_in. intros machine Hin. f_equal.
    apply first_status_old, Set_of_In, Hin. }
  destruct (mem_svz (charted_machine a) (charted_machines seen)) eqn:Hmem.
  - symmetry. exact Hold.
  - rewrite Map_set_fresh.
    + rewrite List.map_app, Hold. cbn [List.map]. rewrite first_status_new; [reflexivity|].
      unfold charted_machines in Hmem. now rewrite (proj2 (Set_of_spec _)) in Hmem.
    + rewrite Map_has_keys, List.map_map. cbn [fst]. rewrite List.map_id. exact Hmem.
Qed.

Lemma status_map_fold rest seen :
  Forall label_ok rest ->
  Charts.forEach Charts.record_status rest
    (List.map (fun machine => (machine, first_status seen machine)) (charted_machines seen)) =
  Normal (List.map (fun machine => (machine, first_status (seen ++ rest) machine))
            (charted_machines (seen ++ rest))).
Proof.
  intros H. revert seen. induction H as [|a rest Ha _ IH]; intros seen.
  - now rewrite app_nil_r.
  - cbn [Charts.forEach]. rewrite status_map_step by exact Ha.
    cbn [mbind completion_bind]. rewrite IH, <- app_assoc. reflexivity.
Qed.

Lemma tally_fold statuses m :
  let m' := fold_left Charts.tally statuses m in
  Charts.critical m' =
    (Charts.critical m + List.length (List.filter (fun s => String.eqb s "critical") statuses))%nat /\
  Charts.warning m' =
    (Charts.warning m + List.length (List.filter (fun s => String.eqb s "warning") statuses))%nat /\
  (Charts.critical m' + Charts.warning m' + Charts.normal m' =
   Charts.critical m + Charts.warning m + Charts.normal m + List.length statuses)%nat.
Proof.
  revert m. induction statuses as [|s statuses IH]; intros m; [simpl; lia|].
  cbn [fold_left List.filter]. destruct (IH (Charts.tally m s)) as (H1 & H2 & H3).
  cbv zeta in *. revert H1 H2 H3. unfold Charts.tally.
  destruct (String.eqb s "critical") eqn:E1.
  - apply String.eqb_eq in E1. subst s. simpl. intros; lia.
  - destruct (String.eqb s "warning"); simpl; intros; lia.
Qed.

Lemma first_status_cases alerts machine :
  first_status alerts machine = "critical" \/ first_status alerts machine = "warning" \/
  first_status alerts machine = "normal".
Proof.
  unfold first_status, label_status. destruct (first_alert machine alerts) as [a|]; [|auto].
  destruct (has_token "CRITICAL" a); [auto|]. destruct (has_token "WARNING" a); auto.
Qed.

Lemma filter_map_length {A B} (f : A -> B) (p : B -> bool) l :
  List.length (List.filter p (List.map f l)) = List.length (List.filter (fun a => p (f a)) l).
Proof.
  induction l as [|a l IH]; simpl; [reflexivity|]. destruct (p (f a)); simpl; now rewrite IH.
Qed.

Lemma three_way_count {A} (f : A -> string) l :
  (forall a, f a = "critical" \/ f a = "warning" \/ f a = "normal") ->
  (List.length (List.filter (fun a => String.eqb (f a) "critical") l)
   + List.length (List.filter (fun a => String.eqb (f a) "warning") l)
   + List.length (List.filter (fun a => String.eqb (f a) "normal") l) = List.length l)%nat.
Proof.
  intros H. induction l as [|a l IH]; simpl; [reflexivity|].
  destruct (H a) as [E | [E | E]]; rewrite E; simpl; lia.
Qed.

(** X9.  The status chart of [charts.js] counts machines, not alerts: when
    every alert label can be classified and there is at least one alert, the
    three bars are the numbers of distinct machines whose first alert in the
    list is critical, a warning, or neither, and they add up to the number of
    distinct machines.  Later alerts of a machine do not change its bar. *)
Theorem initStatusChart_first_alert (d : DashboardData) :
  Forall label_ok (alerts d) -> alerts d <> [] ->
  exists m : Charts.machinesByStatus,
    Charts.initStatusChart d = Normal (Some m) /\
    Charts.critical m = machines_with "critical" (alerts d) /\
    Charts.warning m = machines_with "warning" (alerts d) /\
    Charts.normal m = machines_with "normal" (alerts d) /\
    (Charts.critical m + Charts.warning m + Charts.normal m =
     List.length (charted_machines (alerts d)))%nat.
Proof.
  intros Hok Hne. unfold Charts.initStatusChart.
  destruct (alerts d) as [|a0 l] eqn:Ea; [congruence|]. cbn [List.length Nat.eqb].
  rewrite <- Ea in *. clear Ea a0 l Hne.
  pose proof (status_map_fold (alerts d) [] Hok) as Hfold. cbn [app] in Hfold.
  change (List.map _ (charted_machines [])) with (@nil (value * string)) in Hfold.
  rewrite Hfold. cbn [mbind completion_bind]. eexists. split; [reflexivity|].
  rewrite List.map_map. cbn [snd].
  destruct (tally_fold (List.map (fun x => first_status (alerts d) x) (charted_machines (alerts d)))
              {| Charts.critical := 0; Charts.warning := 0; Charts.normal := 0 |})
    as (H1 & H2 & H3).
  cbv zeta in H1, H2, H3. cbn [Charts.critical Charts.warning Charts.normal] in H1, H2, H3.
  rewrite filter_map_length in H1, H2. rewrite length_map in H3.
  pose proof (three_way_count (first_status (alerts d)) (charted_machines (alerts d))
                (first_status_cases (alerts d))) as H4.
  unfold machines_with. split_all; lia.
Qed.

Lemma initStatusChart_first_alert_witness :
  exists m : Charts.machinesByStatus,
    Charts.initStatusChart (set_alerts recovering_alerts initial_dashboard) = Normal (Some m) /\
    Charts.critical m = 0%nat /\ Charts.warning m = 0%nat /\ Charts.normal m = 1%nat.
Proof.
  assert (Forall label_ok recovering_alerts) as Hok
    by (constructor; [right; eexists; reflexivity|constructor; [right; eexists; reflexivity|constructor]]).
  assert (recovering_alerts <> []) as Hne by discriminate.
  destruct (initStatusChart_first_alert (set_alerts recovering_alerts initial_dashboard) Hok Hne)
    as (m & E & H1 & H2 & H3 & _).
  exists m. split; [exact E|].
  rewrite H1, H2, H3. split_all; vm_compute; reflexivity.
Defined.

(** ** The line charts *)

Lemma slice_last_length {A} n (l : list A) : (List.length (Charts.slice_last n l) <= n)%nat.
Proof. unfold Charts.slice_last. rewrite length_skipn. lia. Qed.

Lemma map_index_spec {A B} (f : A -> nat -> B) (x : B -> nat) idx l :
  (forall d i, x (f d i) = (i + 1)%nat) ->
  List.length (Charts.map_index f idx l) = List.length l /\
  Forall (fun p => (idx + 1 <= x p <= idx + List.length l)%nat) (Charts.map_index f idx l) /\
  StronglySorted (fun p q => (x p < x q)%nat) (Charts.map_index f idx l).
Proof.
  intros Hx. revert idx. induction l as [|d l IH]; intros idx; simpl.
  - split_all; constructor.
  - destruct (IH (S idx)) as (H1 & H2 & H3). split_all.
    + now rewrite H1.
    + constructor; [rewrite Hx; lia|].
      eapply List.Forall_impl; [|exact H2]. cbv beta. intros p Hp. lia.
    + constructor; [exact H3|].
      eapply List.Forall_impl; [|exact H2]. cbv beta. intros p Hp. rewrite Hx. lia.
Qed.

Lemma StronglySorted_filter {A} (R : A -> A -> Prop) (p : A -> bool) l :
  StronglySorted R l -> StronglySorted R (List.filter p l).
Proof.
  induction 1 as [|a l Hs IH Ha]; simpl; [constructor|].
  destruct (p a); [|exact IH]. constructor; [exact IH|].
  apply List.Forall_forall. intros b Hb. apply List.filter_In in Hb.
  exact (proj1 (List.Forall_forall _ _) Ha b (proj1 Hb)).
Qed.

Lemma filter_length_le {A} (p : A -> bool) l :
  (List.length (List.filter p l) <= List.length l)%nat.
Proof. induction l as [|a l IH]; simpl; [lia|]. destruct (p a); simpl; lia. Qed.

Lemma series_drawable field sampleData n :
  (List.length sampleData <= n)%nat ->
  Charts.series field sampleData <> [] ->
  drawable n (Charts.series field sampleData).
Proof.
  intros Hn Hne.
  assert (exists l, Charts.series field sampleData =
                    List.filter (fun point : Charts.point => negb (isNaN (VNum (snd point)))) l /\
                    List.length l = List.length sampleData /\
                    Forall (fun p : Charts.point => (0 + 1 <= fst p <= 0 + List.length sampleData)%nat) l /\
                    StronglySorted (fun p q : Charts.point => (fst p < fst q)%nat) l)
    as (l & E & H1 & H2 & H3).
  { eexists. split; [reflexivity|]. apply (map_index_spec _ fst). reflexivity. }
  pose proof (filter_length_le (fun point : Charts.point => negb (isNaN (VNum (snd point)))) l) as Hle.
  rewrite <- E in Hle.
  unfold drawable. split_all.
  - destruct (Charts.series field sampleData); [congruence|simpl; lia].
  - lia.
  - rewrite E. apply List.Forall_forall. intros p Hp. apply List.filter_In in Hp.
    destruct Hp as [Hp Hy].
    pose proof (proj1 (List.Forall_forall _ _) H2 p Hp) as Hx. cbv beta in Hx.
    split; [lia|]. unfold isNaN, ToNumber in Hy. now destruct (is_nan (snd p)).
  - rewrite E. apply StronglySorted_filter, H3.
Qed.

(** X12.  Every series that [charts.js] hands to a line chart, be it the
    temperature series of [initTemperatureChart] or the temperature and
    vibration series of [updateChartsWithNewData], has between 1 and 50
    points, with positions between 1 and 50 that increase along the series
    and without a [NaN] value: readings that cannot be read leave a gap in
    the positions instead of a point. *)
Theorem line_chart_series (d : DashboardData) (data : list Charts.point) :
  Charts.initTemperatureChart d = Some data \/
  fst (Charts.updateChartsWithNewData d) = Some data \/
  snd (Charts.updateChartsWithNewData d) = Some data ->
  drawable 50 data.
Proof.
  unfold Charts.initTemperatureChart, Charts.updateChartsWithNewData. cbv zeta.
  intros [H|[H|H]].
  - destruct (Nat.eqb (List.length _) 0); [discriminate|].
    destruct (Nat.eqb (List.length (Charts.series _ _)) 0) eqn:E; [discriminate|].
    injection H as <-. apply series_drawable; [apply slice_last_length|].
    intros E'. rewrite E' in E. discriminate.
  - destruct (Nat.eqb (List.length (sensorData d)) 0); [discriminate|]. cbn [fst] in H.
    destruct (Nat.ltb 0 (List.length (Charts.series "temperature" _))) eqn:E; [|discriminate].
    injection H as <-. apply series_drawable; [apply slice_last_length|].
    intros E'. rewrite E' in E. discriminate.
  - destruct (Nat.eqb (List.length (sensorData d)) 0); [discriminate|]. cbn [snd] in H.
    destruct (Nat.ltb 0 (List.length (Charts.series "vibration" _))) eqn:E; [|discriminate].
    injection H as <-. apply series_drawable; [apply slice_last_length|].
    intros E'. rewrite E' in E. discriminate.
Qed.

Lemma line_chart_series_witness :
  Charts.initTemperatureChart (set_sensorData patchy_readings initial_dashboard) =
    Some [(1%nat, of_Z 300); (3%nat, Fin (621 # 2))] /\
  drawable 50 [(1%nat, of_Z 300); (3%nat, Fin (621 # 2))].
Proof.
  assert (Charts.initTemperatureChart (set_sensorData patchy_readings initial_dashboard) =
          Some [(1%nat, of_Z 300); (3%nat, Fin (621 # 2))]) as E by (vm_compute; reflexivity).
  split; [exact E|].
  exact (line_chart_series _ _ (or_introl E)).
Defined.

(** ** The manual reading form *)

Lemma integer_at_least q z :
  Number_isInteger (Fin q) = true -> Num.ltb (Fin q) (of_Z z) = false ->
  (q == inject_Z (Qfloor q))%Q /\ (z <= Qfloor q)%Z.
Proof.
  unfold Number_isInteger, Num.floor, of_Z, Num.eqb, Num.ltb. intros Hi Hl.
  apply Qeqb_eq in Hi. apply Qltb_ge in Hl. split; [now symmetry|].
  rewrite <- Hi in Hl. now rewrite Zle_Qle.
Qed.

Lemma number_between x lo hi :
  isNaN (VNum x) = false -> Num.ltb x (of_Z lo) = false -> Num.gtb x (of_Z hi) = false ->
  exists q, x = Fin q /\ (inject_Z lo <= q <= inject_Z hi)%Q.
Proof.
  unfold isNaN, ToNumber, Num.gtb, of_Z. destruct x as [| | |q]; try discriminate.
  unfold Num.ltb. intros _ H1 H2. apply Qltb_ge in H1, H2. eauto.
Qed.

(** X10.  Whatever is typed into the form, a payload that [addManualReading]
    posts holds a factory id and a machine id that are whole numbers of at
    least 1, a temperature between 200 and 500 and a vibration between 0 and
    5000, all finite; it holds a timestamp exactly when the trimmed timestamp
    field is not empty, and then that text. *)
Theorem addManualReading_payload
    (factoryIdInput machineIdInput temperatureInput vibrationInput : string)
    (timestampInput : option string) (payload : row) :
  addManualReading factoryIdInput machineIdInput temperatureInput vibrationInput timestampInput
    = inr payload ->
  exists (f m : Z) (qf qm t v : Q),
    payload !! "factory_id" = Some (VNum (Fin qf)) /\ (qf == inject_Z f)%Q /\ (1 <= f)%Z /\
    payload !! "machine_id" = Some (VNum (Fin qm)) /\ (qm == inject_Z m)%Q /\ (1 <= m)%Z /\
    payload !! "temperature" = Some (VNum (Fin t)) /\ (200 <= t <= 500)%Q /\
    payload !! "vibration" = Some (VNum (Fin v)) /\ (0 <= v <= 5000)%Q /\
    payload !! "timestamp" =
      match timestampInput with
      | Some s => if Str.is_empty (Str.trim s) then None else Some (VStr (Str.trim s))
      | None => None
      end.
Proof.
  unfold addManualReading. cbv zeta.
  generalize (ToNumber (VStr (Str.trim factoryIdInput))) as fn.
  generalize (ToNumber (VStr (Str.trim machineIdInput))) as mn.
  generalize (ToNumber (VStr (Str.trim temperatureInput))) as tn.
  generalize (ToNumber (VStr (Str.trim vibrationInput))) as vn.
  intros vn tn mn fn.
  destruct (negb _ || negb _ || negb _ || negb _); [discriminate|].
  destruct (Number_isInteger fn) eqn:Hfi; [|discriminate].
  destruct (Num.ltb fn (of_Z 1)) eqn:Hfl; [discriminate|].
  destruct (Number_isInteger mn) eqn:Hmi; [|discriminate].
  destruct (Num.ltb mn (of_Z 1)) eqn:Hml; [discriminate|].
  destruct (isNaN (VNum tn)) eqn:Htn; [discriminate|].
  destruct (Num.ltb tn (of_Z 200)) eqn:Htl; [discriminate|].
  destruct (Num.gtb tn (of_Z 500)) eqn:Hth; [discriminate|].
  destruct (isNaN (VNum vn)) eqn:Hvn; [discriminate|].
  destruct (Num.ltb vn (of_Z 0)) eqn:Hvl; [discriminate|].
  destruct (Num.gtb vn (of_Z 5000)) eqn:Hvh; [discriminate|].
  cbn [negb orb]. intros E. injection E as <-.
  destruct fn as [| | |qf]; try discriminate.
  destruct mn as [| | |qm]; try discriminate.
  destruct (integer_at_least qf 1 Hfi Hfl) as [Hf1 Hf2].
  destruct (integer_at_least qm 1 Hmi Hml) as [Hm1 Hm2].
  destruct (number_between _ 200 500 Htn Htl Hth) as (t & Et & Ht).
  destruct (number_between _ 0 5000 Hvn Hvl Hvh) as (v & Ev & Hv).
  subst tn vn.
  exists (Qfloor qf), (Qfloor qm), qf, qm, t, v.
  destruct timestampInput as [s|]; [destruct (Str.is_empty (Str.trim s))|];
    cbn [negb Str.is_empty]; split_all; try assumption; try apply Ht; try apply Hv; reflexivity.
Qed.

Lemma addManualReading_payload_witness :
  exists payload : row,
    addManualReading " 3 " "0x10" "300.5" "1e3" (Some "  ") = inr payload /\
    payload !! "machine_id" = Some (VNum (of_Z 16)) /\
    payload !! "timestamp" = None.
Proof.
  destruct (addManualReading " 3 " "0x10" "300.5" "1e3" (Some "  ")) as [r|payload] eqn:E;
    [vm_compute in E; discriminate|].
  exists payload. split; [reflexivity|].
  destruct (addManualReading_payload _ _ _ _ _ _ E) as (f & m & qf & qm & t & v & H).
  destruct H as (_ & _ & _ & _ & _ & _ & _ & _ & _ & _ & Hts).
  split; [|exact Hts].
  vm_compute in E. injection E as <-. reflexivity.
Defined.

(** ** The refresh interval and the risk gauge *)

Lemma parseInt_10_cases v :
  parseInt_10 v = NaN \/ parseInt_10 v = PosInf \/ parseInt_10 v = NegInf \/
  exists z, parseInt_10 v = of_Z z.
Proof.
  unfold parseInt_10, inf_of_sign.
  destruct (Str.trimStart (ToString v)) as [|c s0]; cbv zeta.
  - now left.
  - repeat match goal with
           | |- context [let '(_, _) := ?e in _] => destruct e
           | |- context [if ?b then _ else _] => destruct b
           | |- context [match ?a with Ascii _ _ _ _ _ _ _ _ => _ end] => destruct a
           end; eauto 6.
Qed.

Lemma max_of_Z a b : Num.max (of_Z a) (of_Z b) = of_Z (Z.max a b).
Proof.
  unfold Num.max, of_Z, Num.ltb, Qltb. simpl.
  destruct (_ <? _)%Z eqn:E.
  - apply Z.ltb_lt in E. rewrite Z.max_r; [reflexivity|lia].
  - apply Z.ltb_ge in E. rewrite Z.max_l; [reflexivity|lia].
Qed.

Lemma min_of_Z a b : Num.min (of_Z a) (of_Z b) = of_Z (Z.min a b).
Proof.
  unfold Num.min, of_Z, Num.ltb, Qltb. simpl.
  destruct (_ <? _)%Z eqn:E.
  - apply Z.ltb_lt in E. rewrite Z.min_r; [reflexivity|lia].
  - apply Z.ltb_ge in E. rewrite Z.min_l; [reflexivity|lia].
Qed.

Lemma geb_of_Z a b : geb (of_Z a) (of_Z b) = (b <=? a)%Z.
Proof.
  unfold geb, of_Z, Num.ltb, Qltb. simpl. rewrite !Z.mul_1_r.
  destruct (Z.ltb_spec a b), (Z.leb_spec b a); try reflexivity; lia.
Qed.

Lemma mul_of_Z a b : (of_Z a * of_Z b)%num = of_Z (a * b).
Proof.
  unfold Num.mul, of_Z, fin. f_equal.
  rewrite <- (Qred_inject_Z (a * b)). apply Qred_complete. now rewrite inject_Z_mult.
Qed.

Lemma overflow_of_Z z :
  (0 <= z)%Z ->
  Num.overflow (of_Z z) = if (binary64_overflow <=? z)%Z then PosInf else of_Z z.
Proof.
  intros Hz. unfold Num.overflow, of_Z, Qltb, inject_Z.
  cbn [Qabs Qnum Qden]. rewrite !Z.mul_1_r, (Z.abs_eq z Hz).
  generalize binary64_overflow as B. intros B.
  destruct (Z.ltb_spec z B), (Z.leb_spec B z); try lia; [reflexivity|].
  unfold Qis_neg. cbn [Qnum]. destruct (Z.ltb_spec z 0); [lia|reflexivity].
Qed.

Lemma getRefreshIntervalSeconds_cases (item : value) :
  (getRefreshIntervalSeconds item = PosInf \/
   exists z : Z, (1 <= z)%Z /\ getRefreshIntervalSeconds item = of_Z z) /\
  (parseInt_10 item = NaN -> getRefreshIntervalSeconds item = of_Z 5) /\
  (forall n, parseInt_10 item = of_Z n -> getRefreshIntervalSeconds item = of_Z (Z.max 1 n)) /\
  (parseInt_10 item = PosInf -> getRefreshIntervalSeconds item = PosInf) /\
  (parseInt_10 item = NegInf -> getRefreshIntervalSeconds item = of_Z 1) /\
  (item = VNull -> getRefreshIntervalSeconds item = of_Z 5).
Proof.
  unfold getRefreshIntervalSeconds.
  assert (item = VNull -> parseInt_10 item = NaN) as Hnull by (intros ->; reflexivity).
  destruct (parseInt_10_cases item) as [E|[E|[E|(n & E)]]]; rewrite E in *;
    cbn [Number_isNaN];
    [change (of_Z 5) with (Fin (inject_Z 5))
    |change (Num.max (of_Z 1) PosInf) with PosInf
    |change (Num.max (of_Z 1) NegInf) with (Fin (inject_Z 1))
    |rewrite max_of_Z];
    unfold of_Z in *;
    (split_all;
     [ first [now left | right; eexists; split; [|reflexivity]; lia]
     | first [intros; discriminate | intros; reflexivity]
     | intros n' H; first [discriminate H | apply of_Z_inj in H; now subst]
     | first [intros; discriminate | intros; reflexivity]
     | first [intros; discriminate | intros; reflexivity]
     | intros H; first [reflexivity | specialize (Hnull H); discriminate] ]).
Qed.

Lemma refresh_delay_cases (item : value) :
  (getRefreshIntervalSeconds item = PosInf -> refresh_delay item = PosInf) /\
  (forall z, getRefreshIntervalSeconds item = of_Z z ->
     (1 <= z)%Z /\
     refresh_delay item
       = if (binary64_overflow <=? z * 1000)%Z then PosInf else of_Z (z * 1000)).
Proof.
  unfold refresh_delay.
  destruct (getRefreshIntervalSeconds_cases item) as ([E|(z' & Hz' & E)] & _); rewrite E.
  - split; [reflexivity|]. intros z H. discriminate H.
  - split; [intros H; discriminate H|]. intros z H. apply of_Z_inj in H. subst z'.
    split; [exact Hz'|]. rewrite mul_of_Z. apply overflow_of_Z. lia.
Qed.

(** X11.  Whatever [localStorage] holds, [getRefreshIntervalSeconds] returns
    a number that is never [NaN] and never below 1: 5 when [parseInt] reads
    nothing, in particular when nothing is stored, the larger of 1 and [n]
    when it reads the whole number [n], 1 when it reads minus infinity, and
    infinity when the digits are beyond the range of binary64, as four
    hundred nines are.  The delay of the polling timer is that number times
    1000, which is infinity when the product is beyond that range, as it is
    for three hundred and seven nines. *)
Theorem getRefreshIntervalSeconds_positive (item : value) :
  let seconds := getRefreshIntervalSeconds item in
  (seconds = PosInf \/ exists z : Z, (1 <= z)%Z /\ seconds = of_Z z) /\
  (parseInt_10 item = NaN -> seconds = of_Z 5) /\
  (forall n, parseInt_10 item = of_Z n -> seconds = of_Z (Z.max 1 n)) /\
  (parseInt_10 item = PosInf -> seconds = PosInf) /\
  (parseInt_10 item = NegInf -> seconds = of_Z 1) /\
  (item = VNull -> seconds = of_Z 5) /\
  (seconds = PosInf -> refresh_delay item = PosInf) /\
  (forall z, seconds = of_Z z ->
     (1 <= z)%Z /\
     refresh_delay item
       = if (binary64_overflow <=? z * 1000)%Z then PosInf else of_Z (z * 1000)) /\
  getRefreshIntervalSeconds (VStr (Str.repeat "9" 400)) = PosInf /\
  getRefreshIntervalSeconds (VStr (Str.repeat "9" 307)) = of_Z (10 ^ 307 - 1) /\
  refresh_delay (VStr (Str.repeat "9" 307)) = PosInf /\
  refresh_delay (VStr "5") = of_Z 5000.
Proof.
  destruct (getRefreshIntervalSeconds_cases item) as (H1 & H2 & H3 & H4 & H5 & H6).
  destruct (refresh_delay_cases item) as (H7 & H8).
  intros seconds.
  split; [exact H1|]. split; [exact H2|]. split; [exact H3|]. split; [exact H4|].
  split; [exact H5|]. split; [exact H6|]. split; [exact H7|]. split; [exact H8|].
  split_all; vm_compute; reflexivity.
Qed.

(** X14.  Whatever the health of the dashboard is, the risk gauge shows a
    whole number between 0 and 100: [100 - health] rounded and clamped on
    both sides, and 25 when the health is not a finite number.  The level is
    HIGH RISK from 70, MODERATE from 40 and LOW RISK below. *)
Theorem initRiskScoreGauge_range (d : DashboardData) :
  exists z : Z,
    (0 <= z <= 100)%Z /\
    initRiskScoreGauge d =
      (of_Z z,
       if (70 <=? z)%Z then "HIGH RISK" else if (40 <=? z)%Z then "MODERATE" else "LOW RISK") /\
    (is_finite (health d) = false -> z = 25%Z) /\
    (forall h, health d = Fin h -> z = Z.min (Z.max (Qfloor (100 - h + (1 # 2))) 0) 100).
Proof.
  unfold initRiskScoreGauge. cbv zeta. cbn [Number_isFinite].
  destruct (health d) as [| | |h] eqn:Eh; cbn [is_finite].
  1-3: exists 25%Z; split_all;
    [lia|lia|reflexivity|reflexivity|intros h Hh; discriminate].
  assert (Num.round (of_Z 100 - Fin h) = of_Z (Qfloor (100 - h + (1 # 2)))) as ->.
  { unfold Num.round, Num.sub, Num.add, Num.neg, of_Z, fin. f_equal. f_equal.
    apply Qfloor_comp. rewrite !Qred_correct. reflexivity. }
  rewrite max_of_Z, min_of_Z, !geb_of_Z.
  exists (Z.min (Z.max (Qfloor (100 - h + (1 # 2))) 0) 100). split_all.
  - lia.
  - lia.
  - reflexivity.
  - discriminate.
  - intros h' Hh. injection Hh as <-. reflexivity.
Qed.

(** ** The alerts table *)

Lemma map_throwing_pure {A B} (f : A -> completion B) (g : A -> B) l :
  Forall (fun a => f a = Normal (g a)) l ->
  map_throwing f l = Normal (List.map g l).
Proof.
  induction 1 as [|a l Ha _ IH]; simpl; [reflexivity|].
  rewrite Ha, IH. reflexivity.
Qed.

Lemma critical_or_warning_ok a :
  label_ok a ->
  critical_or_warning a = Normal (has_token "CRITICAL" a || has_token "WARNING" a).
Proof.
  unfold critical_or_warning, has_token. intros [H|[s H]].
  - rewrite H. destruct (prop a "Alert") as [| | | |s]; try reflexivity.
    destruct s; [reflexivity|discriminate].
  - rewrite H. cbn [ToBoolean method_includes]. destruct (Str.is_empty s); cbn [negb andb].
    + reflexivity.
    + cbn [mbind completion_bind]. now destruct (Str.includes "CRITICAL" s).
Qed.

(** What [alert_table_row] returns for an alert with a text label and a
    temperature that is a number or missing. *)
Lemma alert_table_row_ok a s :
  prop a "Alert" = VStr s ->
  (is_nullish (prop a "temperature") = true \/ exists n, prop a "temperature" = VNum n) ->
  exists r, alert_table_row a = Normal r /\
            alertClass r = (if Str.includes "CRITICAL" s then "critical" else "warning") /\
            alertText r = s.
Proof.
  intros Hs Ht. unfold alert_table_row. rewrite Hs. cbn [method_includes mbind completion_bind].
  set (tempVal := prop a "temperature" ??? _).
  assert (exists n, tempVal = VNum n) as (n & ->).
  { unfold tempVal, nullish_else. destruct Ht as [Ht|(n & Ht)]; rewrite Ht; eauto. }
  destruct (negb (strict_eq (VNum n) VNull) && negb (strict_eq (VNum n) VUndefined)
            && negb (isNaN (VNum n)));
    cbn [method_toFixed mbind completion_bind]; eexists; split_all; reflexivity.
Qed.

Lemma normalize_alert_label r :
  raw_alert_labels r -> exists s, prop (normalize_alert r) "Alert" = VStr s.
Proof.
  intros [HA Ha].
  change (prop (normalize_alert r) "Alert") with (prop r "Alert" ||| prop r "alert" ||| VStr "Unknown").
  unfold or_else.
  destruct HA as [HA|(s & HA)]; rewrite HA.
  - destruct Ha as [Ha|(s & Ha)]; rewrite Ha.
    + eauto.
    + cbn [ToBoolean]. destruct (negb (Str.is_empty s)); eauto.
  - cbn [ToBoolean]. destruct (negb (Str.is_empty s)) eqn:E; cbn [ToBoolean]; rewrite ?E; eauto.
    destruct Ha as [Ha|(s' & Ha)]; rewrite Ha.
    + eauto.
    + cbn [ToBoolean]. destruct (negb (Str.is_empty s')); eauto.
Qed.

Lemma normalize_alert_temperature_shape r :
  is_nullish (prop (normalize_alert r) "temperature") = true \/
  exists n, prop (normalize_alert r) "temperature" = VNum n.
Proof.
  destruct (normalize_alert_shape r) as (_ & _ & [H|(n & H & _)] & _); unfold prop; rewrite H.
  - now left.
  - right. eauto.
Qed.

Lemma filter_or_and {A} (p q : A -> bool) l :
  (List.length (List.filter (fun a => p a || q a) l)
   + List.length (List.filter (fun a => p a && q a) l)
   = List.length (List.filter p l) + List.length (List.filter q l))%nat.
Proof.
  induction l as [|a l IH]; simpl; [reflexivity|].
  destruct (p a), (q a); simpl; lia.
Qed.

(** X13.  On alerts that [normalizeData] made from rows whose labels are
    texts or missing, neither [calculateStatistics] nor [updateAlertsTable]
    throws.  The table has one row for each alert with CRITICAL or WARNING in
    its label, marked critical when CRITICAL is there; an alert with both
    tokens has one row but counts in both statistics, so the number of rows
    plus the number of such alerts is [critical + warnings]. *)
Theorem updateAlertsTable_rows (host : string -> option Z) (data : list row) (d : DashboardData) :
  Forall raw_alert_labels data ->
  let loaded := set_alerts (normalizeData host data "alerts") d in
  exists (rows : list table_row) (d' : DashboardData) (c w both : nat),
    updateAlertsTable loaded = Normal rows /\
    calculateStatistics loaded = (d', Normal tt) /\
    critical d' = of_nat c /\ warnings d' = of_nat w /\
    both = List.length (List.filter (fun a => has_token "CRITICAL" a && has_token "WARNING" a)
                          (alerts loaded)) /\
    (List.length rows + both = c + w)%nat /\
    List.map alertText rows =
      List.map (fun a => ToString (prop a "Alert"))
        (List.filter (fun a => has_token "CRITICAL" a || has_token "WARNING" a) (alerts loaded)) /\
    Forall (fun r => alertClass r =
                     if Str.includes "CRITICAL" (alertText r) then "critical" else "warning") rows.
Proof.
  intros Hraw. cbv zeta. cbn [alerts set_alerts].
  assert (normalizeData host data "alerts" = List.map (normalize_alert) data) as ->
    by (unfold normalizeData; now destruct data).
  set (loaded := set_alerts _ d).
  assert (Forall (fun a => (exists s, prop a "Alert" = VStr s) /\
                           (is_nullish (prop a "temperature") = true \/
                            exists n, prop a "temperature" = VNum n))
            (List.map normalize_alert data)) as Hshape.
  { apply List.Forall_forall. intros a Ha. apply in_map_iff in Ha. destruct Ha as (r & <- & Hr).
    split; [|apply normalize_alert_temperature_shape].
    apply normalize_alert_label. exact (proj1 (List.Forall_forall _ _) Hraw r Hr). }
  assert (Forall label_ok (alerts loaded)) as Hok.
  { cbn [loaded alerts set_alerts]. eapply List.Forall_impl; [|exact Hshape].
    intros a [Hs _]. now right. }
  unfold updateAlertsTable.
  rewrite (filter_throwing_pure critical_or_warning
             (fun a => has_token "CRITICAL" a || has_token "WARNING" a))
    by (eapply List.Forall_impl; [|exact Hok]; intros a; apply critical_or_warning_ok).
  cbn [mbind completion_bind]. cbn [loaded alerts set_alerts].
  set (kept := List.filter _ (List.map normalize_alert data)).
  assert (Forall (fun a => exists r, alert_table_row a = Normal r /\
                     alertText r = ToString (prop a "Alert") /\
                     alertClass r = if Str.includes "CRITICAL" (alertText r)
                                    then "critical" else "warning") kept) as Hrows.
  { apply List.Forall_forall. intros a Ha. apply List.filter_In in Ha. destruct Ha as [Ha _].
    destruct (proj1 (List.Forall_forall _ _) Hshape a Ha) as [(s & Hs) Ht].
    destruct (alert_table_row_ok a s Hs Ht) as (r & E & Hc & Hl).
    exists r. rewrite Hl, Hs. auto. }
  assert (exists rows, map_throwing alert_table_row kept = Normal rows /\
                       List.map alertText rows = List.map (fun a => ToString (prop a "Alert")) kept /\
                       Forall (fun r => alertClass r =
                                 if Str.includes "CRITICAL" (alertText r)
                                 then "critical" else "warning") rows)
    as (rows & Erows & Hlabels & Hclass).
  { clear -Hrows. induction Hrows as [|a kept (r & E & Hl & Hc) _ (rows & E' & Hl' & Hc')].
    - exists []. split_all; [reflexivity|reflexivity|constructor].
    - exists (r :: rows). cbn [map_throwing]. rewrite E, E'. split_all.
      + reflexivity.
      + cbn [List.map]. now rewrite Hl, Hl'.
      + now constructor. }
  rewrite (calculateStatistics_ok loaded Hok). cbv zeta.
  eexists rows, _, _, _, _. split_all; try reflexivity; try assumption.
  cbn [loaded alerts set_alerts].
  rewrite <- (filter_or_and (has_token "CRITICAL") (has_token "WARNING")).
  fold kept. f_equal.
  rewrite <- (length_map alertText rows), Hlabels. now rewrite length_map.
Qed.

Lemma updateAlertsTable_rows_witness :
  exists rows : list table_row,
    updateAlertsTable
      (set_alerts (normalizeData Date.strict_host raw_alerts "alerts") initial_dashboard)
    = Normal rows /\
    List.map alertText rows = ["CRITICAL after WARNING"] /\
    List.map alertClass rows = ["critical"] /\
    List.map tempText rows = ["330.3K"].
Proof.
  assert (Forall raw_alert_labels raw_alerts) as Hraw.
  { constructor; [split; [right; eexists; reflexivity|now left]|].
    constructor; [split; [right; eexists; reflexivity|now left]|constructor]. }
  destruct (updateAlertsTable_rows Date.strict_host raw_alerts initial_dashboard Hraw)
    as (rows & d' & c & w & both & E & _).
  exists rows. split; [exact E|].
  vm_compute in E. injection E as <-. split_all; reflexivity.
Defined.
